(* ===== verification/_CoqProject ===== *)
-Q . S2P
Prelude.v
Json.v
Gateway.v
AiAdapter.v
Hub.v
StateManager.v
System.v
ClientServices.v
Dashboard.v
Refinement.v
Ordering.v
Mirror.v
JsonText.v
History.v
Liveness.v
Page.v
ConfirmStop.v
App.v
Gauge.v
Routes.v
LastWatered.v
DashView.v
ReadRoutes.v
