(* ===== verification/Prelude.v ===== *)
(** * Smart-watering backend (IoT-AI-Irrigation): verification development

    ** The program
    [src/DATKLL/DA_TKLL-dev/backend/server.js] is one Node process that
    owns the irrigation state.  Four parts interact through it:
    - the telemetry gateway (MQTT client, [config.js], [publishCommand],
      the [message] handler that normalises sensor payloads);
    - the AI decision adapter ([askPythonAI], which spawns a Python oracle
      and resolves with its [action]);
    - the system state manager ([systemState], [startPumpInternal],
      [stopPumpInternal], the auto-stop [setTimeout] callback and the HTTP
      routes [/api/mode], [/api/pump/start], [/api/pump/stop],
      [/api/status]);
    - the broadcast hub (Socket.IO [io.emit], the [connection],
      [get_sensors] and [get_status] handlers).
    A sensor message updates [sensorData], is broadcast, and in AI mode
    starts an oracle call whose continuation may start or stop the pump;
    every pump change publishes a command and broadcasts the new status.
    The frontend (React dashboard and its services) talks to it over HTTP
    and Socket.IO.

    ** Files
    - [Prelude.v] (this file): the development's scope [irr_scope], hint
      databases [irr] and [irr_rw], the tactics [zlia] ([lia] after the
      Euclidean equations of [/] and [mod]) and [zltb], list helpers
      ([remove_nth], lists shown newest first).
    - [Json.v]: JavaScript values as [JSON.parse] produces them, [undefined]
      as [None], truthiness, [||], [===] on numbers, object writes, and
      what React renders for a child value ([react_child]: an object
      throws).
    - [Gateway.v]: [mqttConfig] ([config.js]), the client connection,
      [publishCommand], [update_sensors] (the [sensorData = {...}] update).
    - [AiAdapter.v]: [askPythonAI_result] and [ai_decide] (the branch on
      the resolved action).
    - [Hub.v]: the class [Broadcast] with its laws [BroadcastLaws] (what the
      backend relies on from Socket.IO), the fan-out lemma proved against
      the interface (section [Fanout]), and [IoHub], its [gmap]
      implementation.
    - [StateManager.v]: [system_state], [world] (the whole process state),
      one definition per function or route of [server.js]
      ([startPumpInternal], [stopPumpInternal], [auto_stop_callback],
      [post_mode], [post_pump_start], [post_pump_stop], [on_mqtt_message],
      [ai_continue], [on_io_connection], ...), and their theorems.
    - [System.v]: the event loop as [event]s and [run_event], [run_trace],
      the inductive [reachable], the relation [sys_change] that abstracts
      what any event does to [systemState], invariants by rule induction,
      and the scenarios of the specification.
    - [ClientServices.v]: the frontend services, one Module each:
      [ApiService] ([apiService.js]: [request_config], [request_result],
      and [fetch_backend], the backend's answers as [fetch] sees them),
      [WebSocketService] ([websocketService.js]: listener table, sockets,
      [connect], [on], [off], [emit]) and [ConfirmService]
      ([confirmServices.js]).
    - [Refinement.v]: the specification's mode/pump state machine
      ([abs_state], [abs_step] over [abs_op]), the refinement theorem
      [run_event_refines].
    - [Dashboard.v]: [SmartWateringDashboard.jsx] as the record
      [dash_state] and one function per handler or effect, returning the
      requests it sends ([dash_request]).
    - [Ordering.v]: what each event does to the Socket.IO hub, as a list
      of hub operations ([hub_step], [run_event_hub_step]), and the
      delivery-order theorem built on [Hub.received_hub_run].
    - [Mirror.v]: the page and the server composed: the page's socket
      listeners ([dash_handle]) run over what its socket received
      ([dash_replay]), the invariant [synced] (every connected page
      mirrors [systemState]) preserved by every event, and the page's
      initial HTTP fetch ([Dashboard.fetchInitialData]) racing it.
    - [JsonText.v]: [JSON.stringify] ([stringify]) and [JSON.parse]
      ([parse], a fuelled recursive-descent parser) on [Json.json], with
      the round trip [parse_stringify]; library behaviour, modelled from
      ECMAScript because the history store goes through it, and
      [starts_value], the characters a JSON value can start with.
    - [History.v]: the page's [localStorage] as a [gmap string string]:
      [addHistoryEntry], [markLastWatered], the History page's read and
      render decision, the table's rows ([history_cells]) and the
      rendered page ([history_page_of], blank when React throws),
      [clearAll], the CSV export ([export_csv], with [String(v)] as
      [js_string] and [toFixed(3)] on integers), LastWatered's [parseInt]
      read-back and [formatElapsed] (the locale date is a section
      variable).
    - [Liveness.v]: the situation [stuck_on] (pump on outside AI mode with
      no timer and no AI call pending), preserved by every event but the
      stop and mode requests, and the trace that reaches it.
    - [Page.v]: the dashboard's mount effect as the service sees it: the
      five closures ([page_handler]), their registration ([register]) and
      cleanup ([unregister]) through [WebSocketService], the effect run
      again after a cleanup ([page_runs]), and the path of a socket event
      through [on_socket_event] and [emit] to the closures
      ([page_deliver]).
    - [ConfirmStop.v]: the dashboard's confirm-stop flow ([StopFlow]):
      [stopPumpEarly] and [handleConfirmStop] split at their [await]
      (the [_resume] part runs when the request settles, on whatever state
      the page has then; a [null] answer throws in [result.runTime]), the
      history entry with its litre estimate [stop_liters] (a number, or
      [null] for [NaN]), the dialog's buttons.
    - [App.v]: the application shell ([Shell]): the user state and its
      [localStorage] initialiser, [routes] with [ProtectedRoute], [login],
      [logout], the Login form and its events ([login_step]: typing,
      and a submit the required inputs block while one is empty),
      react-router as a location stack with [settle] (three redirects
      reach a page), [NavTabs] (the highlighted link and the greeting),
      and the confirm-stop page over [ConfirmService].
    - [Gauge.v]: [CircleGauge]'s clamped value and its SVG geometry
      ([circle_gauge], in exact rationals with [Math.PI] a parameter), and
      [SensorPanel]'s four gauges; the gauge's value rests on
      [Json.to_number], which is [ToNumber] only on integer texts (see
      Not modelled).
    - [LastWatered.v]: the "Last watered" widget ([Widget]): its state,
      mount, interval, buttons and [lastWateredUpdated] listener, with the
      dashboard's [markLastWatered] and [onClear] as the other writers.
    - [Routes.v]: [apiService]'s calls ([api_call], [wire]: method, URL,
      body text) and the backend's Express side ([serve]: origin, JSON
      body parsing, strict as [express.json()] is, [express_route]),
      ending in the [System.event] a state-changing route is; a body the
      integer parser does not read and a start whose duration is not an
      integer are [OutsideModel].
    - [DashView.v]: what the dashboard's markup shows ([View.dash_view]:
      mode label, AI panel, status, pump button and whether each control
      is enabled, the confirm dialog), its [onClick] handlers ([press]),
      the rendered page with the readings it prints ([dash_render]), and
      the unused [PumpControl].
    - [ReadRoutes.v]: the bodies of the read routes ([Reads.read_body]:
      [GET /api/health], [/api/sensors], [/api/status], [/api/mode]) and
      the dashboard's initial fetch through them ([initial_fetch]: the
      request, the JSON text, [response.json()] and [fetchInitialData]'s
      [||] fallbacks).

    ** State and effects
    [StateManager.world] holds [systemState], [sensorData], the MQTT
    client ([None] while [mqttClient] is [null]), the Socket.IO hub (socket
    id to the events it received, in order), the pending [setTimeout]
    callbacks (their fire times) and the pending [askPythonAI] calls (their
    arguments).  Every handler is a function [world -> world] (routes also
    return their HTTP answer, [api_response]); a published MQTT command is
    the object handed to [JSON.stringify].  [Date.now()] is the field
    [clock]; one synchronous handler is taken to run within one
    millisecond.  JSON numbers are integers ([Z]); this keeps every
    behaviour the code has on them (truthiness of 0, [* 1000], comparisons,
    [Math.max]).  Node's timer clamping ([setTimeout] delays outside
    [1, 2^31 - 1] become 1 ms) is modelled ([timer_delay]).

    ** Scheduling
    The event loop may run any enabled event: HTTP requests, MQTT session
    changes and messages, the close of any pending AI process (with any
    output), any due timer, Socket.IO connections and requests, and the
    passing of time ([EvTick]).  Timers and AI processes complete in any
    order, a superset of what Node does, so invariants over [reachable]
    hold for every real schedule.  No fuel is needed: every handler is
    straight-line code; the only unbounded behaviour is an AI process that
    never closes, which leaves its request pending (no event is forced).
    The one recursive routine, [JsonText]'s parser, takes fuel
    [S (String.length s)]; every call consumes a character, so that is
    enough and more changes nothing ([JsonText.p_value_fuel]).

    ** Theorems
    - invariants (System): [reachable_state_ok] (pump on iff a start time
      is set, a stopped pump has duration 0, the start time is not in the
      future); [reachable_duration_pos] (positive planned duration, given
      positive requested durations);
    - refinement (Refinement): [run_event_refines] (each event moves
      (mode, pumpOn) as the abstract machine does under the operations
      [ops_of] assigns to it);
    - functional and error behaviour of the routes (StateManager):
      [post_pump_start_ok], [post_pump_start_rejected],
      [post_mode_ai_stops], and the lemmas [post_pump_stop_twice],
      [publish_disconnected];
    - timers: [auto_stop_rechecks], [stale_timer_stops_cycle] (a timer
      of an earlier cycle stops a later one early), [timer_delay_bounds],
      [start_out_of_range_fires_early], [remainingTime_spec];
    - AI: [ai_malformed_noop], [ai_close_failsafe],
      [ai_not_single_flight], [ai_start_after_mode_change];
    - gateway: [update_sensors_falsy_keeps], and the lemmas
      [update_sensors_non_object], [mqtt_malformed_dropped];
    - delivery order (Ordering): [observers_same_order] (two observers
      connected throughout a run, neither addressed individually, receive
      the same events in the same order);
    - page and server (Mirror): [dashboard_mirrors_server] (every
      connected page that handled its events shows the server's pump
      flag, mode and start/duration), [initial_fetch_stale] (in any
      reachable state, an HTTP status snapshot taken before an accepted
      start and handled after it makes the page show the pump off while
      it runs), and the lemma
      [synced_start_accepted];
    - the page's controls (DashView): [enabled_controls_accepted] (every
      request an enabled control of a mirroring page sends is accepted,
      but the dialog's "Stop anyway" stays enabled after the pump stopped
      by itself and gets a 400), [render_blank_on_object] (the page goes
      blank exactly when the AI panel or the open dialog prints a reading
      that is an object);
    - liveness (Liveness): [ai_handover_never_stops] (a pump the AI
      started and the user handed over to manual mode never stops by
      itself: no timer was armed for it);
    - equivalence (Page): [page_dispatch_equiv] (however often the mount
      effect ran with its cleanup, a socket event runs exactly the
      matching closure once, as [Mirror.dash_handle] does, but for a
      [connect] after [disconnect()], whose listener throws);
    - the confirm-stop flow (ConfirmStop): [confirm_stop_flow] (one
      request, buttons disabled while it is in flight, the dialog closed
      and exactly one entry stored on a non-null success, nothing but an
      alert on failure or on a [null] answer); [stop_history_order] (the recorded duration is 0 when the
      page handles the server's stopped status before the HTTP answer);
      [stop_entries_csv] (the entries the dashboard writes export as one
      CSV line each, splitting back into their nine values unless a value
      contains a comma, and the export throws exactly when a litre
      estimate was stored as [null]); [stop_history_page] (the History
      page goes blank, its Clear button with it, exactly when a new entry
      has a [null] litre estimate or a recorded reading is an object, and
      otherwise lists the new entries first);
    - the shell (App): [login_session] (login with the navigation bar,
      reload and logout round trip), [corrupt_auth_blank] (an auth entry
      whose first non-blank character cannot start a JSON value blanks the
      whole application), and the lemma [login_run_err] (the error line shows
      exactly after a rejected press and is never cleared by typing);
    - the widget (LastWatered): [widget_shows_store] (whatever the
      interleaving of its writers, it shows the stored time);
    - requests (Routes): [dashboard_requests_served] (each HTTP request of
      the dashboard arrives as the event the composed model runs for it);
    - reads (ReadRoutes): [initial_fetch_refines] (the page's initial
      fetch through the JSON text of [GET /api/sensors] and
      [/api/status] lands exactly where the typed [fetchInitialData]
      puts it);
    - gauges (Gauge): the lemmas [gauge_value_range] (a drawn value lies
      in [0, 100]) and [gauge_arc] (the visible arc is exactly that
      percentage of the ring);
    - persistence (History): [history_roundtrip] (appended entries and
      the last-watered time are read back exactly, newest first),
      [history_corrupt_stuck] (a stored history that is JSON but not an
      array blocks every later write), [formatElapsed_bounds] (the
      elapsed text never overstates the time and understates it by less
      than its unit);
    - the 8 s automatic cycle of the specification: the lemma
      [automatic_cycle];
    - frontend services (ClientServices): [connect_twice_duplicates], and
      the lemmas [request_backend] (the page sees the backend's error
      strings), [request_config_headers_replaced],
      [emit_calls_all], [off_removes], [confirm_cancel_clear];
    - dashboard (Dashboard): [countdown_matches_server] (the page's mirror
      agrees with the server, and its countdown interval, over its whole
      lifetime and any run of ticks, shows the server's remaining time),
      [auto_rule_accepted] (a rule
      firing on a current mirror is accepted by the backend),
      and the lemmas [mode_toggle_valid], [formatMs_ceil],
      [stop_history_uses_client_clock].
    Each theorem with hypotheses has a [_witness] lemma that applies it to
    a concrete state, most of them built by running a trace from the
    initial state ([System.trace_world]).

    ** Not modelled
    The MQTT broker and Socket.IO transport themselves (only the
    interface [Broadcast] is assumed); the Python oracle's model
    ([ai_service.py] is not among the sources; its output is an input);
    logging; the module set-up of [server.js] ([express()], [cors()],
    [createServer], the Socket.IO server's CORS options), which only
    calls libraries; the styling of the markup; the rounding of doubles
    in the gauges' geometry (modelled exactly in [Q]); react-router's
    case-insensitive path matching; the file download of the CSV export;
    [localStorage.setItem] quota errors.  Numbers are integers throughout,
    which leaves out: JSON numbers with a fraction or an exponent
    ([JsonText.parse] does not read them, so [Routes.serve] sends such a
    body to [OutsideModel], and a hypothesis [parse v = None] would not
    mean that [JSON.parse] throws: [App]'s theorem uses [starts_value]
    instead); a start whose [duration] is not an integer (a string, a
    fraction, [null]: [OutsideModel], see the finding on [server.js]);
    the fractional [estimatedLiters] of a history entry (the section
    variable [liters] of [ConfirmStop], a number or [null]); and
    [ToNumber] on strings with a fraction or blanks and on arrays of one
    element ([Json.to_number] answers NaN there, so no theorem states
    the gauges' or [auto_rule]'s value on such readings).  What remains
    of the sources outside the map is markup styling, comments, imports
    and this set-up: every operation of the program that computes or
    changes state is a definition of the development. *)

From stdpp Require Export base list gmap strings sets pretty.
From Stdlib Require Export ZArith Lia.

Declare Scope irr_scope.
Delimit Scope irr_scope with irr.

Create HintDb irr.
Create Rewrite HintDb irr_rw.

(** [zlia] is [lia] after turning every [a / c] and [a mod c] of the goal
    and context into its Euclidean equations (the elapsed-time texts divide
    by constant units). *)
Ltac zlia := Z.div_mod_to_equations; lia.

(** [zltb] evaluates every comparison [a <? b] of the goal that [zlia]
    decides from the context (the handlers branch on such comparisons of
    times and durations). *)
Ltac zltb :=
  repeat match goal with
  | |- context [(?a <? ?b)%Z] =>
      first [ rewrite (proj2 (Z.ltb_lt a b)) by zlia | rewrite (proj2 (Z.ltb_ge a b)) by zlia ]
  end.

(** ** Lists shown newest first: [rows.slice().reverse()] is [rev]. *)
Lemma rev_reverse {A} (l : list A) : rev l = reverse l.
Proof. apply rev_alt. Qed.

Lemma Exists_reverse {A} (P : A -> Prop) l : Exists P (reverse l) <-> Exists P l.
Proof. rewrite !Exists_exists. by setoid_rewrite elem_of_reverse. Qed.

Lemma last_cons_default {A} (z : A) l d d' : List.last (z :: l) d = List.last (z :: l) d'.
Proof. revert z. induction l as [|w l IH]; intros z; [done|apply IH]. Qed.

Lemma Forall_not_Exists_None {A B} (f : A -> option B) l :
  Forall (fun x => is_Some (f x)) l -> ~ Exists (fun x => f x = None) l.
Proof. rewrite Forall_forall, Exists_exists. intros Hl (x & Hx & Hn). destruct (Hl x Hx). congruence. Qed.

(** ** Removing the [i]-th element of a list.
    Used for the pending timers and the pending AI requests, which the
    event loop completes in any order. *)
Fixpoint remove_nth {A} (i : nat) (l : list A) : list A :=
  match l, i with
  | [], _ => []
  | _ :: t, O => t
  | h :: t, S i' => h :: remove_nth i' t
  end.

Lemma length_remove_nth {A} (i : nat) (l : list A) x :
  l !! i = Some x -> length (remove_nth i l) = pred (length l).
Proof.
  revert i. induction l as [|h t IH]; intros [|i] Hi; simpl in *; try done.
  rewrite (IH i Hi). destruct t; simpl in *; [by destruct i|done].
Qed.

Lemma elem_of_remove_nth {A} (i : nat) (l : list A) y :
  y ∈ remove_nth i l -> y ∈ l.
Proof.
  revert i. induction l as [|h t IH]; intros [|i]; simpl; [done|done|set_solver|].
  rewrite !elem_of_cons. intros [->|Hy]; [by left|right; by eapply IH].
Qed.
