(* ===== verification/Json.v ===== *)
(** * JavaScript values as the backend sees them.

    [JSON.parse] produces [null], booleans, numbers, strings, arrays and
    objects; a property read on an object that lacks the key yields
    [undefined], modelled as [None] of [option json].  The backend's
    field-fallback chains ([data.temp || data.temperature || ...]) and its
    strict comparisons ([action === 1]) are written here once, with the
    JavaScript truthiness rules they rely on.  JSON numbers are modelled
    as integers ([Z]): every reading and every duration the code handles is
    compared, multiplied by 1000 or tested for truthiness, and integers
    keep exactly those behaviours (0 is falsy, everything else truthy). *)

From S2P Require Import Prelude.

#[local] Set Warnings "-register-all".

Inductive json : Type :=
| JNull
| JBool (b : bool)
| JNum (z : Z)
| JStr (s : string)
| JArr (l : list json)
| JObj (kvs : list (string * json)).

(** A JavaScript value that may be [undefined]. *)
Abbreviation jsval := (option json).

(** Property read [o.k]: the last binding of [k] wins, as [JSON.parse]
    keeps the last duplicate key.  Non-objects have no such property. *)
Fixpoint assoc_last (k : string) (kvs : list (string * json)) : jsval :=
  match kvs with
  | [] => None
  | (k', v) :: rest =>
      match assoc_last k rest with
      | Some w => Some w
      | None => if String.eqb k k' then Some v else None
      end
  end.

Definition js_get (o : json) (k : string) : jsval :=
  match o with
  | JObj kvs => assoc_last k kvs
  | _ => None
  end.

(** ECMAScript ToBoolean. *)
Definition truthy (v : jsval) : bool :=
  match v with
  | None | Some JNull => false
  | Some (JBool b) => b
  | Some (JNum z) => negb (Z.eqb z 0)
  | Some (JStr s) => negb (String.eqb s "")
  | Some (JArr _) | Some (JObj _) => true
  end.

(** [a || b] returns the first operand when it is truthy, the second
    otherwise (not a boolean). *)
Definition js_or (a b : jsval) : jsval := if truthy a then a else b.

Infix "|||" := js_or (at level 50, left associativity) : irr_scope.
Open Scope irr_scope.

(** [v === n] for a number literal [n]. *)
Definition js_eq_num (v : jsval) (n : Z) : bool :=
  match v with
  | Some (JNum z) => Z.eqb z n
  | _ => false
  end.

(** Property write [o[k] = v] on an object with unique keys: an existing
    key keeps its position and takes the new value, a new key goes last. *)
Fixpoint obj_set (kvs : list (string * json)) (k : string) (v : json)
  : list (string * json) :=
  match kvs with
  | [] => [(k, v)]
  | (k', v') :: rest =>
      if String.eqb k k' then (k', v) :: rest else (k', v') :: obj_set rest k v
  end.

(** Object spread [{...a, ...b}]: the properties of [b] written over [a]. *)
Definition obj_spread (a b : list (string * json)) : list (string * json) :=
  fold_left (fun acc kv => obj_set acc kv.1 kv.2) b a.

(** ToNumber on the values the dashboard compares: a decimal digit
    string (with an optional leading [-]) is its integer, [""] and [null]
    are 0, booleans 0/1; every other value is NaN ([None]).  Whitespace
    trimming and fractional or exponent notation are not modelled. *)
Definition digit_value (c : Ascii.ascii) : option Z :=
  let n := Ascii.nat_of_ascii c in
  if (48 <=? n)%nat && (n <=? 57)%nat then Some (Z.of_nat n - 48)%Z else None.

Fixpoint parse_digits (s : string) (acc : Z) : option Z :=
  match s with
  | EmptyString => Some acc
  | String c rest =>
      match digit_value c with
      | Some d => parse_digits rest (10 * acc + d)%Z
      | None => None
      end
  end.

Definition parse_decimal (s : string) : option Z :=
  match s with
  | EmptyString => Some 0%Z
  | String c rest =>
      if Ascii.eqb c (Ascii.ascii_of_nat 45) then
        match rest with EmptyString => None | _ => option_map Z.opp (parse_digits rest 0) end
      else parse_digits s 0
  end.

Definition to_number (v : jsval) : option Z :=
  match v with
  | None => None
  | Some JNull => Some 0%Z
  | Some (JBool b) => Some (if b then 1 else 0)%Z
  | Some (JNum z) => Some z
  | Some (JStr s) => parse_decimal s
  | Some (JArr []) => Some 0%Z
  | Some _ => None
  end.

(** [v < n] and [v > n] against a number literal: false on NaN. *)
Definition js_lt_num (v : jsval) (n : Z) : bool :=
  match to_number v with Some z => Z.ltb z n | None => false end.

Definition js_gt_num (v : jsval) (n : Z) : bool :=
  match to_number v with Some z => Z.ltb n z | None => false end.

(** What React renders for a child [{v}]: nothing for [undefined], [null]
    and booleans, the text of a number or a string, an array's children one
    after the other; an object is not a valid child and the render throws
    ([None]). *)
Fixpoint react_child_json (j : json) : option string :=
  match j with
  | JNull | JBool _ => Some ""
  | JNum z => Some (pretty z)
  | JStr s => Some s
  | JArr l => String.concat "" <$> mapM react_child_json l
  | JObj _ => None
  end.

Definition react_child (v : jsval) : option string :=
  match v with Some j => react_child_json j | None => Some "" end.

(** ** Lemmas *)

Lemma js_or_truthy a b : truthy a = true -> (a ||| b) = a.
Proof. unfold js_or. by intros ->. Qed.

Lemma js_or_falsy a b : truthy a = false -> (a ||| b) = b.
Proof. unfold js_or. by intros ->. Qed.

Lemma truthy_undefined : truthy None = false.
Proof. reflexivity. Qed.

#[export] Hint Rewrite js_or_truthy js_or_falsy using reflexivity : irr_rw.

Lemma assoc_last_not_key k kvs : k ∉ kvs.*1 -> assoc_last k kvs = None.
Proof.
  induction kvs as [|[k' v'] rest IH]; simpl; [done|].
  rewrite not_elem_of_cons. intros [Hne Hrest]. rewrite IH; [|done].
  destruct (String.eqb_spec k k'); congruence.
Qed.

Lemma obj_set_keys kvs k v :
  (obj_set kvs k v).*1 = if decide (k ∈ kvs.*1) then kvs.*1 else kvs.*1 ++ [k].
Proof.
  induction kvs as [|[k' v'] rest IH]; csimpl; [done|].
  destruct (String.eqb_spec k k') as [->|Hne]; csimpl.
  - rewrite decide_True; [done|]. set_solver.
  - rewrite IH. repeat case_decide; set_solver.
Qed.

Lemma assoc_last_obj_set_eq kvs k v :
  NoDup kvs.*1 -> assoc_last k (obj_set kvs k v) = Some v.
Proof.
  induction kvs as [|[k' v'] rest IH]; simpl; intros Hnd.
  - by rewrite String.eqb_refl.
  - apply NoDup_cons in Hnd as [Hk' Hnd].
    destruct (String.eqb_spec k k') as [->|Hne]; simpl.
    + by rewrite assoc_last_not_key, String.eqb_refl.
    + by rewrite IH.
Qed.

Lemma assoc_last_obj_set_ne kvs k k' v :
  k' <> k -> assoc_last k' (obj_set kvs k v) = assoc_last k' kvs.
Proof.
  intros Hne. induction kvs as [|[k0 v0] rest IH]; simpl.
  - destruct (String.eqb_spec k' k); congruence.
  - destruct (String.eqb_spec k k0) as [->|Hne0]; simpl.
    + destruct (String.eqb_spec k' k0); congruence.
    + by rewrite IH.
Qed.
