(* ===== verification/Gateway.v ===== *)
(** * Telemetry gateway: [backend/config.js] and the MQTT side of
    [backend/server.js].

    The broker configuration ([mqttConfig]), the command publisher
    ([publishCommand]), the session handler that subscribes to the data
    topic ([mqttClient.on('connect')]) and the normalisation of an inbound
    sensor payload into [sensorData] (the body of the [message] handler
    before its AI branch).  The client connection is [option mqtt_client]:
    [None] is [mqttClient = null] before [connectMQTT] runs.  The broker
    itself and JSON serialisation of the published object are not
    modelled: a published message is the JavaScript object handed to
    [JSON.stringify]. *)

From S2P Require Import Prelude Json.

Open Scope irr_scope.

(** ** Configuration ([config.js]) *)

(** [process.env.X || 'default']: an unset or empty variable gives the
    default. *)
Definition env_or (e : option string) (d : string) : string :=
  match e with
  | Some s => if String.eqb s "" then d else s
  | None => d
  end.

Record mqtt_env := MqttEnv {
  env_broker_url : option string;
  env_topic_data : option string;
  env_topic_command : option string
}.

Record mqttConfig_t := MqttConfig {
  brokerUrl : string;
  topic_data : string;
  topic_command : string;
  clientId : string;
  clean : bool;
  connectTimeout : Z;
  reconnectPeriod : Z
}.

Definition mqttConfig (e : mqtt_env) : mqttConfig_t := {|
  brokerUrl := env_or (env_broker_url e) "mqtt://localhost:1883";
  topic_data := env_or (env_topic_data e) "device/sensor/data";
  topic_command := env_or (env_topic_command e) "device/command";
  clientId := "smart-watering-server";
  clean := true;
  connectTimeout := 4000;
  reconnectPeriod := 1000
|}.

(** ** The client connection *)

(** A message handed to [mqttClient.publish(topic, message, {qos})]. *)
Record mqtt_publish := MqttPublish {
  pub_topic : string;
  pub_message : list (string * json);
  pub_qos : Z
}.

Record mqtt_client := MqttClient {
  connected : bool;
  subscribed : list string;
  published : list mqtt_publish
}.

(** [mqtt.connect(...)]: a fresh client, not yet connected. *)
Definition mqtt_connect_client : mqtt_client := MqttClient false [] [].

(** [mqttClient.on('connect', ...)]: the session is up and the handler
    subscribes to the data topic, on every (re)connection. *)
Definition on_connect (cfg : mqttConfig_t) (c : mqtt_client) : mqtt_client :=
  MqttClient true (subscribed c ++ [topic_data cfg]) (published c).

(** The library's [close]/[offline] events clear [connected]. *)
Definition on_offline (c : mqtt_client) : mqtt_client :=
  MqttClient false (subscribed c) (published c).

(** The object [{command, timestamp: Date.now(), ...data}]. *)
Definition command_message (command : string) (now : Z)
    (data : list (string * json)) : list (string * json) :=
  obj_spread [("command", JStr command); ("timestamp", JNum now)] data.

(** [publishCommand(command, data)]: fails fast with [false] when there is
    no client or it is not connected; otherwise publishes at QoS 1. *)
Definition publishCommand (cfg : mqttConfig_t) (command : string)
    (data : list (string * json)) (now : Z) (client : option mqtt_client)
  : bool * option mqtt_client :=
  match client with
  | Some c =>
      if connected c then
        (true, Some (MqttClient (connected c) (subscribed c)
                 (published c ++ [MqttPublish (topic_command cfg)
                                    (command_message command now data) 1])))
      else (false, client)
  | None => (false, client)
  end.

(** ** Sensor samples *)

Record sensor_data := SensorData {
  temp : jsval; hum : jsval; soil : jsval; level : jsval;
  flow : jsval; light : jsval; timestamp : Z
}.

(** The initial [sensorData] object; it has no [light] property. *)
Definition sensorData_init (now : Z) : sensor_data := {|
  temp := Some (JNum 24); hum := Some (JNum 66); soil := Some (JNum 60);
  level := Some (JNum 56); flow := Some (JNum 0); light := None;
  timestamp := now
|}.

(** The replacement of [sensorData] by a parsed payload [data]: each field
    is [data.a || data.b || sensorData.f].  Reading a property of [null]
    throws a [TypeError], which the handler's [catch] swallows: [None]
    means the message is dropped and nothing changes. *)
Definition update_sensors (data : json) (prev : sensor_data) (now : Z)
  : option sensor_data :=
  match data with
  | JNull => None
  | _ => Some {|
      temp := js_get data "temp" ||| js_get data "temperature" ||| temp prev;
      hum := js_get data "hum" ||| js_get data "humidity" ||| hum prev;
      soil := js_get data "soil" ||| js_get data "soilMoisture" ||| soil prev;
      level := js_get data "level" ||| js_get data "waterLevel" ||| level prev;
      flow := js_get data "flow" ||| js_get data "flowRate" ||| flow prev;
      light := js_get data "light" ||| js_get data "lux" ||| light prev;
      timestamp := now |}
  end.

(** ** Properties of the sample normalisation *)

(** The six fields of [sensorData], with the two payload keys each reads. *)
Definition sensor_fields : list (string * string * (sensor_data -> jsval)) :=
  [("temp", "temperature", temp); ("hum", "humidity", hum);
   ("soil", "soilMoisture", soil); ("level", "waterLevel", level);
   ("flow", "flowRate", flow); ("light", "lux", light)].

Lemma js_or_both_falsy a b p : truthy a = false -> truthy b = false -> (a ||| b ||| p) = p.
Proof. intros Ha Hb. by rewrite (js_or_falsy a b Ha), (js_or_falsy b p Hb). Qed.

(** C29: a field falls back to its held value whenever both payload keys
    are falsy, not only when they are absent: a reading of [0] (or [""],
    [false], [null]) is discarded and the previous reading is kept. *)
Theorem update_sensors_falsy_keeps data prev now d k1 k2 f :
  (k1, k2, f) ∈ sensor_fields ->
  update_sensors data prev now = Some d ->
  truthy (js_get data k1) = false -> truthy (js_get data k2) = false ->
  f d = f prev.
Proof.
  intros Hin Hd H1 H2. destruct data; simplify_eq/=;
    repeat (apply elem_of_cons in Hin as [Hin|Hin]; [simplify_eq/=; by apply js_or_both_falsy|]);
    by apply elem_of_nil in Hin.
Qed.

(** a payload that parses to a JSON value other than an object or
    [null] (a number, a string, a boolean, an array) is not dropped: it
    yields a sample with every reading unchanged and a fresh timestamp. *)
Theorem update_sensors_non_object data prev now :
  data <> JNull -> (forall kvs, data <> JObj kvs) ->
  update_sensors data prev now =
    Some (SensorData (temp prev) (hum prev) (soil prev) (level prev)
                     (flow prev) (light prev) now).
Proof. intros Hn Ho. destruct data; try done. by destruct (Ho kvs). Qed.

(** ** Examples *)

Lemma update_sensors_falsy_keeps_witness :
  soil (default (sensorData_init 0) (update_sensors (JObj [("soil", JNum 0)]) (sensorData_init 0) 5))
  = soil (sensorData_init 0).
Proof.
  apply (update_sensors_falsy_keeps (JObj [("soil", JNum 0)]) (sensorData_init 0) 5 _
           "soil" "soilMoisture" soil).
  - apply list_elem_of_In. simpl. tauto.
  - reflexivity.
  - reflexivity.
  - reflexivity.
Defined.

Lemma update_sensors_non_object_witness :
  update_sensors (JNum 42) (sensorData_init 0) 7 =
    Some (SensorData (Some (JNum 24)) (Some (JNum 66)) (Some (JNum 60)) (Some (JNum 56))
                     (Some (JNum 0)) None 7).
Proof. apply (update_sensors_non_object (JNum 42)); [discriminate|intros kvs; discriminate]. Defined.
