(* ===== verification/AiAdapter.v ===== *)
(** * AI decision adapter: [askPythonAI] in [backend/server.js] and the
    decision branch of the MQTT [message] handler.

    [askPythonAI(temp, hum, soil)] spawns [ai_service.py] and resolves,
    when the process closes, with [JSON.parse(stdout).action], or with [0]
    when parsing or the property read throws.  The process is external: its
    standard output is an input of the model ([option json], [None] when it
    is not valid JSON).  The exit code is ignored by the code, and there is
    no timeout: a process that never closes leaves its request pending
    forever (see [System.v]). *)

From S2P Require Import Prelude Json Gateway.

Open Scope irr_scope.

(** The arguments of one consultation: [sensorData.temp], [.hum], [.soil]. *)
Record ai_request := AiRequest { req_temp : jsval; req_hum : jsval; req_soil : jsval }.

Definition ai_request_of (s : sensor_data) : ai_request :=
  AiRequest (temp s) (hum s) (soil s).

(** The value [askPythonAI] resolves with, given the process output. *)
Definition askPythonAI_result (stdout : option json) : jsval :=
  match stdout with
  | None => Some (JNum 0)            (* JSON.parse throws: resolve(0) *)
  | Some JNull => Some (JNum 0)      (* null.action throws: resolve(0) *)
  | Some result => js_get result "action"
  end.

(** The branch on the resolved action:
    [if (action === 1 && !pumpOn) start; else if (action === 0 && pumpOn) stop]. *)
Inductive ai_decision := AiStart | AiStop | AiNoop.

Definition ai_decide (action : jsval) (pumpOn : bool) : ai_decision :=
  if js_eq_num action 1 && negb pumpOn then AiStart
  else if js_eq_num action 0 && pumpOn then AiStop
  else AiNoop.

(** ** Decision lemmas *)

(** the adapter fails safe on unreadable output: when the process
    output is not JSON, or is [null], the resolved action is [0], which
    stops a running pump and leaves a stopped one alone. *)
Theorem ai_failsafe stdout pumpOn :
  stdout = None \/ stdout = Some JNull ->
  askPythonAI_result stdout = Some (JNum 0) /\
  ai_decide (askPythonAI_result stdout) pumpOn = if pumpOn then AiStop else AiNoop.
Proof. intros [-> | ->]; split; try done; by destruct pumpOn. Qed.

(** C24: output that parses but carries no [action] equal to the number 0
    or 1 (a missing key, a string ["1"], [2], ...) resolves to a value
    that neither branch accepts: nothing happens, so a running pump keeps
    running. *)
Theorem ai_malformed_noop j pumpOn :
  j <> JNull ->
  js_eq_num (js_get j "action") 0 = false -> js_eq_num (js_get j "action") 1 = false ->
  ai_decide (askPythonAI_result (Some j)) pumpOn = AiNoop.
Proof.
  intros Hj H0 H1. assert (askPythonAI_result (Some j) = js_get j "action") as ->
    by (destruct j; done). unfold ai_decide. by rewrite H0, H1.
Qed.

(** The decision starts the pump only when it is off and stops it only
    when it is on. *)
Lemma ai_decide_start a p : ai_decide a p = AiStart -> p = false /\ js_eq_num a 1 = true.
Proof. unfold ai_decide. destruct (js_eq_num a 1), p, (js_eq_num a 0); naive_solver. Qed.

Lemma ai_decide_stop a p : ai_decide a p = AiStop -> p = true /\ js_eq_num a 0 = true.
Proof. unfold ai_decide. destruct (js_eq_num a 1), p, (js_eq_num a 0); naive_solver. Qed.

(** ** Examples *)

Lemma ai_failsafe_witness :
  askPythonAI_result None = Some (JNum 0) /\ ai_decide (askPythonAI_result None) true = AiStop.
Proof. apply (ai_failsafe None true). left; reflexivity. Defined.

Lemma ai_malformed_noop_witness :
  ai_decide (askPythonAI_result (Some (JObj [("action", JStr "1")]))) true = AiNoop.
Proof. apply (ai_malformed_noop (JObj [("action", JStr "1")]) true); [discriminate|reflexivity|reflexivity]. Defined.
