(* ===== verification/Hub.v ===== *)
(** * Broadcast hub: the Socket.IO server [io] of [backend/server.js].

    [Broadcast] is the interface the backend relies on: a set of connected
    observers, the events each has received, [io.emit] to all,
    [socket.emit] to one, and connection/disconnection.  Its laws are the
    class [BroadcastLaws].  The ordering theorem of the section [Fanout]
    is proved against the interface only; [IoHub] implements it with a
    [gmap] from socket id to the list of events delivered, in order. *)

From S2P Require Import Prelude.

Class Broadcast (H E : Type) := {
  observers : H -> gset nat;
  received : H -> nat -> list E;
  emit_all : E -> H -> H;
  emit_to : nat -> E -> H -> H;
  attach : nat -> H -> H;
  detach : nat -> H -> H
}.

Class BroadcastLaws (H E : Type) `{!Broadcast H E} := {
  observers_emit_all e h : observers (emit_all e h) = observers h;
  observers_emit_to s e h : observers (emit_to s e h) = observers h;
  observers_attach s h : observers (attach s h) = {[s]} ∪ observers h;
  observers_detach s h : observers (detach s h) = observers h ∖ {[s]};
  received_emit_all e h s :
    received (emit_all e h) s = if decide (s ∈ observers h) then received h s ++ [e] else received h s;
  received_emit_to s' e h s :
    received (emit_to s' e h) s =
      if decide (s = s' /\ s ∈ observers h) then received h s ++ [e] else received h s;
  received_attach_eq s h : received (attach s h) s = [];
  received_attach_ne s' h s : s <> s' -> received (attach s' h) s = received h s;
  received_detach_ne s' h s : s <> s' -> received (detach s' h) s = received h s
}.

(** ** The Socket.IO implementation *)
Module IoHub.
Section Impl.
Context {E : Type}.

Definition io_hub := gmap nat (list E).

#[export] Instance io_broadcast : Broadcast (gmap nat (list E)) E := {|
  observers h := dom h;
  received h s := default [] (h !! s);
  emit_all e h := (fun l => l ++ [e]) <$> h;
  emit_to s e h := alter (fun l => l ++ [e]) s h;
  attach s h := <[s := []]> h;
  detach s h := delete s h
|}.

#[export] Instance io_broadcast_laws : BroadcastLaws (gmap nat (list E)) E.
Proof.
  split; intros; simpl.
  - apply dom_fmap_L.
  - apply dom_alter_L.
  - apply dom_insert_L.
  - apply dom_delete_L.
  - rewrite lookup_fmap. case_decide as Hd.
    + apply elem_of_dom in Hd as [l ->]. done.
    + apply not_elem_of_dom in Hd as ->. done.
  - destruct (decide (s = s')) as [->|Hne].
    + rewrite lookup_alter_eq. destruct (h !! s') eqn:Hl; simpl.
      * rewrite decide_True; [done|]. split; [done|]. apply elem_of_dom; eauto.
      * rewrite decide_False; [done|]. intros [_ Hd].
        apply elem_of_dom in Hd as [? ?]; congruence.
    + rewrite lookup_alter_ne, decide_False; naive_solver.
  - by rewrite lookup_insert_eq.
  - by rewrite lookup_insert_ne.
  - by rewrite lookup_delete_ne.
Qed.
End Impl.
End IoHub.

(** Operations of the hub, as the backend issues them. *)
Inductive hub_op (E : Type) :=
| HEmit (e : E)
| HEmitTo (s : nat) (e : E)
| HAttach (s : nat)
| HDetach (s : nat).
Arguments HEmit {E} e.
Arguments HEmitTo {E} s e.
Arguments HAttach {E} s.
Arguments HDetach {E} s.

Section Fanout.
Context {H E : Type} `{BroadcastLaws H E}.

Definition hub_apply (op : hub_op E) (h : H) : H :=
  match op with
  | HEmit e => emit_all e h
  | HEmitTo s e => emit_to s e h
  | HAttach s => attach s h
  | HDetach s => detach s h
  end.

Definition hub_run (ops : list (hub_op E)) (h : H) : H :=
  fold_left (fun acc op => hub_apply op acc) ops h.

(** The events [ops] addresses to socket [s]. *)
Definition addressed (s : nat) (op : hub_op E) : list E :=
  match op with
  | HEmit e => [e]
  | HEmitTo s' e => if decide (s = s') then [e] else []
  | _ => []
  end.

(** [s] neither joins nor leaves during [op]. *)
Definition stays (s : nat) (op : hub_op E) : Prop :=
  match op with
  | HAttach s' | HDetach s' => s <> s'
  | _ => True
  end.

Lemma observers_hub_apply_stays s op h :
  stays s op -> s ∈ observers h -> s ∈ observers (hub_apply op h).
Proof.
  destruct op; simpl; intros Hs Hin;
    rewrite ?observers_emit_all, ?observers_emit_to, ?observers_attach, ?observers_detach;
    set_solver.
Qed.

Lemma received_hub_apply s op h :
  stays s op -> s ∈ observers h ->
  received (hub_apply op h) s = received h s ++ addressed s op.
Proof.
  destruct op as [e|s' e|s'|s']; simpl; intros Hs Hin.
  - rewrite received_emit_all, decide_True; done.
  - rewrite received_emit_to. case_decide as Hd; case_decide; subst;
      rewrite ?app_nil_r; naive_solver.
  - rewrite received_attach_ne, app_nil_r; done.
  - rewrite received_detach_ne, app_nil_r; done.
Qed.

Lemma received_hub_run s ops h :
  Forall (stays s) ops -> s ∈ observers h ->
  received (hub_run ops h) s = received h s ++ mjoin (addressed s <$> ops).
Proof.
  revert h. induction ops as [|op ops IH]; intros h Hst Hin; simpl.
  - by rewrite app_nil_r.
  - apply Forall_cons in Hst as [Hop Hops].
    rewrite IH; [|done|by apply observers_hub_apply_stays].
    by rewrite received_hub_apply, <-app_assoc.
Qed.
End Fanout.
