(* ===== verification/StateManager.v ===== *)
(** * System state manager: [systemState] and the handlers of
    [backend/server.js] that read or change it.

    The process state is the record [world]: [systemState] ([sys]),
    [sensorData] ([sensors]), the MQTT client ([mqttClient]), the Socket.IO
    hub ([hub]), the callbacks of [setTimeout] still to run ([timers], by
    fire time) and the [askPythonAI] promises not yet resolved
    ([ai_pending]).  [clock] is [Date.now()]; one synchronous handler runs
    within one millisecond, so every [Date.now()] of a handler reads the
    same [clock].  Each function below is one function or route of the
    source, with its guards and every call that changes state, composed in
    the source's order. *)

From S2P Require Import Prelude Json Gateway AiAdapter Hub.
Import IoHub.

Open Scope irr_scope.
Open Scope Z_scope.

(** ** Data *)

Inductive op_mode := Automatic | Manual | AI.

#[export] Instance mode_eq_dec : EqDecision op_mode.
Proof. solve_decision. Defined.

Definition mode_name (m : op_mode) : string :=
  match m with Automatic => "automatic" | Manual => "manual" | AI => "ai" end.

(** [!mode || !['automatic','manual','ai'].includes(mode)] rejects, every
    other body value is one of the three strings. *)
Definition parse_mode (v : jsval) : option op_mode :=
  match v with
  | Some (JStr s) =>
      if String.eqb s "automatic" then Some Automatic
      else if String.eqb s "manual" then Some Manual
      else if String.eqb s "ai" then Some AI
      else None
  | _ => None
  end.

Definition is_ai (m : op_mode) : bool := bool_decide (m = AI).

(** [systemState.lastCommand]: ['start'] or ['stop']. *)
Inductive command := CmdStart | CmdStop.

Record system_state := SystemState {
  pumpOn : bool;
  mode : op_mode;
  pumpStartTime : option Z;
  pumpDuration : Z;
  lastCommand : option command;
  lastCommandTime : option Z
}.

Definition systemState_init : system_state :=
  SystemState false Automatic None 0 None None.

(** The payload of [status_update] and of [GET /api/status]. *)
Record status := Status {
  st_pumpOn : bool;
  st_mode : op_mode;
  st_pumpStartTime : option Z;
  st_pumpDuration : Z;
  st_remainingTime : Z;
  st_lastCommand : option command;
  st_lastCommandTime : option Z
}.

(** [systemState.pumpOn && systemState.pumpStartTime ? Math.max(0,
    pumpDuration - (Date.now() - pumpStartTime)) : 0]; a start time of
    [0] is falsy. *)
Definition remainingTime (s : system_state) (now : Z) : Z :=
  match pumpStartTime s with
  | Some t => if pumpOn s && negb (t =? 0) then Z.max 0 (pumpDuration s - (now - t)) else 0
  | None => 0
  end.

Definition status_of (s : system_state) (now : Z) : status :=
  Status (pumpOn s) (mode s) (pumpStartTime s) (pumpDuration s)
         (remainingTime s now) (lastCommand s) (lastCommandTime s).

(** Events pushed to Socket.IO observers. *)
Inductive io_event :=
| SensorUpdate (d : sensor_data)
| StatusUpdate (st : status)
| ModeUpdate (m : op_mode).

Record world := World {
  cfg : mqttConfig_t;
  clock : Z;
  sys : system_state;
  sensors : sensor_data;
  mqttClient : option mqtt_client;
  hub : gmap nat (list io_event);
  timers : list Z;
  ai_pending : list ai_request
}.

Definition set_sys (s : system_state) (w : world) : world :=
  World (cfg w) (clock w) s (sensors w) (mqttClient w) (hub w) (timers w) (ai_pending w).
Definition set_sensors (d : sensor_data) (w : world) : world :=
  World (cfg w) (clock w) (sys w) d (mqttClient w) (hub w) (timers w) (ai_pending w).
Definition set_client (c : option mqtt_client) (w : world) : world :=
  World (cfg w) (clock w) (sys w) (sensors w) c (hub w) (timers w) (ai_pending w).
Definition set_hub (h : gmap nat (list io_event)) (w : world) : world :=
  World (cfg w) (clock w) (sys w) (sensors w) (mqttClient w) h (timers w) (ai_pending w).
Definition set_timers (t : list Z) (w : world) : world :=
  World (cfg w) (clock w) (sys w) (sensors w) (mqttClient w) (hub w) t (ai_pending w).
Definition set_ai_pending (p : list ai_request) (w : world) : world :=
  World (cfg w) (clock w) (sys w) (sensors w) (mqttClient w) (hub w) (timers w) p.
Definition set_clock (c : Z) (w : world) : world :=
  World (cfg w) c (sys w) (sensors w) (mqttClient w) (hub w) (timers w) (ai_pending w).

(** The process right after start-up: [sensorData], [systemState],
    [mqttClient = null], no observer. *)
Definition world_init (e : mqtt_env) (now : Z) : world :=
  World (mqttConfig e) now systemState_init (sensorData_init now) None ∅ [] [].

(** ** Effects *)

(** [publishCommand] on the world's client. *)
Definition publish (command : string) (data : list (string * json)) (w : world)
  : bool * world :=
  let r := publishCommand (cfg w) command data (clock w) (mqttClient w) in
  (fst r, set_client (snd r) w).

(** [io.emit(event, payload)]. *)
Definition io_emit (e : io_event) (w : world) : world := set_hub (emit_all e (hub w)) w.

(** [emitSystemState()]. *)
Definition emitSystemState (w : world) : world :=
  io_emit (StatusUpdate (status_of (sys w) (clock w))) w.

(** Node's [setTimeout] runs a callback whose delay is below 1 or above
    [TIMEOUT_MAX] after 1 ms. *)
Definition TIMEOUT_MAX : Z := 2 ^ 31 - 1.

Definition timer_delay (ms : Z) : Z :=
  if (1 <=? ms) && (ms <=? TIMEOUT_MAX) then ms else 1.

(** ** Pump control *)

(** [startPumpInternal(durationSec = 10, reason)]; [None] is an
    [undefined] argument, which takes the default. *)
Definition startPumpInternal (durationSec : option Z) (reason : string) (w : world) : world :=
  let dsec := default 10 durationSec in
  let durationMs := dsec * 1000 in
  let s := sys w in
  let w1 := set_sys (SystemState true (mode s) (Some (clock w)) durationMs
                                 (Some CmdStart) (Some (clock w))) w in
  let w2 := snd (publish "pump_start"
                   [("duration", JNum dsec); ("durationMs", JNum durationMs);
                    ("mode", JStr (mode_name (mode (sys w1))))] w1) in
  let w3 := emitSystemState w2 in
  if is_ai (mode (sys w3)) then w3
  else set_timers (timers w3 ++ [clock w3 + timer_delay durationMs]) w3.

(** [systemState.pumpStartTime ? Date.now() - systemState.pumpStartTime : 0]. *)
Definition runTime_of (s : system_state) (now : Z) : Z :=
  match pumpStartTime s with
  | Some t => if t =? 0 then 0 else now - t
  | None => 0
  end.

(** [stopPumpInternal(reason)]. *)
Definition stopPumpInternal (reason : string) (w : world) : world :=
  let s := sys w in
  let runTime := runTime_of s (clock w) in
  let w1 := set_sys (SystemState false (mode s) None 0 (Some CmdStop) (Some (clock w))) w in
  let w2 := snd (publish "pump_stop" [("runTime", JNum runTime); ("reason", JStr reason)] w1) in
  emitSystemState w2.

(** The callback armed by [startPumpInternal]: it re-checks both
    conditions when it fires. *)
Definition auto_stop_callback (w : world) : world :=
  if pumpOn (sys w) && negb (is_ai (mode (sys w))) then stopPumpInternal "auto_timeout" w
  else w.

(** ** HTTP routes *)

Inductive api_error := InvalidMode | ModeConflict | AlreadyRunning | NotRunning.

Definition quoted (s : string) : string :=
  let q := String (Ascii.ascii_of_nat 34) EmptyString in q ++ s ++ q.

Definition error_message (e : api_error) : string :=
  match e with
  | InvalidMode => "Invalid mode. Must be " ++ quoted "automatic" ++ ", " ++
                    quoted "manual" ++ " or " ++ quoted "ai"
  | ModeConflict => "Cannot manually start pump in AI mode"
  | AlreadyRunning => "Pump is already running"
  | NotRunning => "Pump is not running"
  end.

Inductive api_response :=
| ApiOk (body : list (string * json))
| ApiErr (e : api_error).

(** Every error of the routes is answered with status 400. *)
Definition http_status (r : api_response) : Z :=
  match r with ApiOk _ => 200 | ApiErr _ => 400 end.

(** The JSON written by [res.json(...)] and [res.status(400).json(...)]:
    the routes that reject a pump request also return [currentState]. *)
Definition opt_num (o : option Z) : json :=
  match o with Some z => JNum z | None => JNull end.

Definition command_json (c : option command) : json :=
  match c with Some CmdStart => JStr "start" | Some CmdStop => JStr "stop" | None => JNull end.

Definition system_state_json (s : system_state) : json :=
  JObj [("pumpOn", JBool (pumpOn s)); ("mode", JStr (mode_name (mode s)));
        ("pumpStartTime", opt_num (pumpStartTime s)); ("pumpDuration", JNum (pumpDuration s));
        ("lastCommand", command_json (lastCommand s));
        ("lastCommandTime", opt_num (lastCommandTime s))].

Definition response_json (r : api_response) (s : system_state) : Z * json :=
  match r with
  | ApiOk body => (200, JObj body)
  | ApiErr e =>
      (400, JObj (("error", JStr (error_message e)) ::
                  match e with
                  | AlreadyRunning | NotRunning => [("currentState", system_state_json s)]
                  | _ => []
                  end))
  end.

(** [POST /api/mode]. *)
Definition post_mode (body_mode : jsval) (w : world) : api_response * world :=
  match parse_mode body_mode with
  | None => (ApiErr InvalidMode, w)
  | Some m =>
      let s := sys w in
      let w1 := set_sys (SystemState (pumpOn s) m (pumpStartTime s) (pumpDuration s)
                                     (lastCommand s) (lastCommandTime s)) w in
      let w2 := snd (publish "set_mode" [("mode", JStr (mode_name m))] w1) in
      let w3 := if is_ai m && pumpOn (sys w2) then stopPumpInternal "mode_change" w2 else w2 in
      let w4 := io_emit (ModeUpdate (mode (sys w3))) w3 in
      (ApiOk [("success", JBool true); ("mode", JStr (mode_name (mode (sys w4))));
              ("message", JStr (String.append "Mode set to " (mode_name m)))], w4)
  end.

(** [POST /api/pump/start]. *)
Definition post_pump_start (duration : option Z) (w : world) : api_response * world :=
  if is_ai (mode (sys w)) then (ApiErr ModeConflict, w)
  else if pumpOn (sys w) then (ApiErr AlreadyRunning, w)
  else
    let w1 := startPumpInternal duration "manual_api" w in
    (ApiOk [("success", JBool true); ("message", JStr "Pump started");
            ("mode", JStr (mode_name (mode (sys w1))))], w1).

(** [POST /api/pump/stop]. *)
Definition post_pump_stop (w : world) : api_response * world :=
  if negb (pumpOn (sys w)) then (ApiErr NotRunning, w)
  else (ApiOk [("success", JBool true); ("message", JStr "Pump stopped")],
        stopPumpInternal "manual_api" w).

(** [GET /api/status]. *)
Definition get_status (w : world) : status := status_of (sys w) (clock w).

(** ** MQTT message handler *)

(** The synchronous part of the [message] handler: it replaces
    [sensorData], emits [sensor_update] and, in AI mode, starts an
    [askPythonAI] call and suspends on [await]; [payload] is [None] when
    [JSON.parse] throws. *)
Definition on_mqtt_message (topic : string) (payload : option json) (w : world) : world :=
  if negb (String.eqb topic (topic_data (cfg w))) then w else
  match payload with
  | None => w
  | Some data =>
      match update_sensors data (sensors w) (clock w) with
      | None => w
      | Some d =>
          let w1 := set_sensors d w in
          let w2 := io_emit (SensorUpdate d) w1 in
          if is_ai (mode (sys w2))
          then set_ai_pending (ai_pending w2 ++ [ai_request_of d]) w2
          else w2
      end
  end.

(** The continuation after [await askPythonAI(...)] resolves with
    [action]. *)
Definition ai_continue (action : jsval) (w : world) : world :=
  match ai_decide action (pumpOn (sys w)) with
  | AiStart => startPumpInternal (Some 10) "ai_trigger" w
  | AiStop => stopPumpInternal "ai_trigger" w
  | AiNoop => w
  end.

(** ** Socket.IO handlers *)

(** [io.on('connection')]: the new socket gets [sensor_update], then
    [emitSystemState()] broadcasts to every socket. *)
Definition on_io_connection (id : nat) (w : world) : world :=
  let w1 := set_hub (attach id (hub w)) w in
  let w2 := set_hub (emit_to id (SensorUpdate (sensors w1)) (hub w1)) w1 in
  emitSystemState w2.

(** [socket.on('get_sensors')]. *)
Definition on_get_sensors (id : nat) (w : world) : world :=
  set_hub (emit_to id (SensorUpdate (sensors w)) (hub w)) w.

(** [socket.on('get_status')]: calls [emitSystemState()], a broadcast. *)
Definition on_get_status (id : nat) (w : world) : world := emitSystemState w.

(** The messages published so far on the command topic. *)
Definition published_msgs (w : world) : list mqtt_publish :=
  default [] (published <$> mqttClient w).

Definition cmd_publish (w : world) (command : string) (data : list (string * json)) : mqtt_publish :=
  MqttPublish (topic_command (cfg w)) (command_message command (clock w) data) 1.

(** A state with a connected broker used by the examples: the pump off,
    or on since [1000] for 10 s; the clock reads [5000]. *)
Definition sample_world (on : bool) (m : op_mode) : world :=
  World (mqttConfig (MqttEnv None None None)) 5000
        (if on then SystemState true m (Some 1000) 10000 (Some CmdStart) (Some 1000)
         else SystemState false m None 0 None None)
        (sensorData_init 0) (Some (MqttClient true [] [])) ∅ [] [].

(** ** What each operation changes *)

Section Effects.
Context (w : world).

Lemma publish_fields c d :
  let w' := snd (publish c d w) in
  sys w' = sys w /\ clock w' = clock w /\ cfg w' = cfg w /\ hub w' = hub w /\
  timers w' = timers w /\ ai_pending w' = ai_pending w /\ sensors w' = sensors w.
Proof. repeat split. Qed.

Lemma sys_startPumpInternal d r :
  sys (startPumpInternal d r w) =
    SystemState true (mode (sys w)) (Some (clock w)) (default 10 d * 1000)
                (Some CmdStart) (Some (clock w)).
Proof. unfold startPumpInternal. by repeat case_match. Qed.

Lemma timers_startPumpInternal d r :
  timers (startPumpInternal d r w) =
    timers w ++ (if is_ai (mode (sys w)) then []
                 else [clock w + timer_delay (default 10 d * 1000)]).
Proof. unfold startPumpInternal. simpl. destruct (is_ai _); simpl; by rewrite ?app_nil_r. Qed.

Lemma frame_startPumpInternal d r :
  let w' := startPumpInternal d r w in
  clock w' = clock w /\ cfg w' = cfg w /\ sensors w' = sensors w /\
  ai_pending w' = ai_pending w.
Proof. unfold startPumpInternal. simpl. by repeat case_match. Qed.

Lemma sys_stopPumpInternal r :
  sys (stopPumpInternal r w) =
    SystemState false (mode (sys w)) None 0 (Some CmdStop) (Some (clock w)).
Proof. reflexivity. Qed.

Lemma frame_stopPumpInternal r :
  let w' := stopPumpInternal r w in
  clock w' = clock w /\ cfg w' = cfg w /\ sensors w' = sensors w /\
  timers w' = timers w /\ ai_pending w' = ai_pending w.
Proof. repeat split. Qed.
End Effects.

Lemma set_client_same w : set_client (mqttClient w) w = w.
Proof. by destruct w. Qed.

Lemma publish_connected w c command data :
  mqttClient w = Some c -> connected c = true ->
  mqttClient (snd (publish command data w)) =
    Some (MqttClient true (subscribed c) (published c ++ [cmd_publish w command data])).
Proof. intros Hc Hcon. unfold publish, publishCommand. by rewrite Hc, Hcon. Qed.

(** [publishCommand] fails fast: without a connected client it returns
    [false] and changes nothing. *)
Theorem publish_disconnected w command data :
  (forall c, mqttClient w = Some c -> connected c = false) ->
  publish command data w = (false, w).
Proof.
  intros Hc. unfold publish, publishCommand.
  destruct (mqttClient w) as [c|] eqn:E; [rewrite (Hc c eq_refl)|]; simpl; by rewrite <-E, set_client_same.
Qed.

(** ** Behaviour of the routes *)

Lemma published_msgs_connected w c w' extra :
  mqttClient w = Some c ->
  mqttClient w' = Some (MqttClient true (subscribed c) (published c ++ extra)) ->
  published_msgs w' = published_msgs w ++ extra.
Proof. unfold published_msgs. by intros -> ->. Qed.

(** C6: a start request outside AI mode with the pump off succeeds: the
    pump runs from [Date.now()] for [durationSec * 1000] ms ([10] s when the
    body has no duration), one [pump_start] command is published and the
    auto-stop callback is armed after [timer_delay] of that duration. *)
Theorem post_pump_start_ok d w c :
  is_ai (mode (sys w)) = false -> pumpOn (sys w) = false ->
  mqttClient w = Some c -> connected c = true ->
  let dsec := default 10 d in
  let w' := snd (post_pump_start d w) in
  http_status (fst (post_pump_start d w)) = 200 /\
  sys w' = SystemState true (mode (sys w)) (Some (clock w)) (dsec * 1000)
                       (Some CmdStart) (Some (clock w)) /\
  timers w' = timers w ++ [clock w + timer_delay (dsec * 1000)] /\
  published_msgs w' = published_msgs w ++
    [cmd_publish w "pump_start" [("duration", JNum dsec); ("durationMs", JNum (dsec * 1000));
                                 ("mode", JStr (mode_name (mode (sys w))))]].
Proof.
  intros Hai Hoff Hc Hcon. unfold post_pump_start. rewrite Hai, Hoff. simpl.
  rewrite sys_startPumpInternal, timers_startPumpInternal, Hai.
  do 3 (split; [done|]).
  eapply published_msgs_connected; [exact Hc|].
  unfold startPumpInternal. simpl. rewrite Hc. simpl. rewrite Hcon. by destruct (is_ai _).
Qed.

(** C5: a start request in AI mode fails with [ModeConflict], and one with
    the pump already running fails with [AlreadyRunning]; neither changes
    anything. *)
Theorem post_pump_start_rejected d w :
  is_ai (mode (sys w)) = true \/ pumpOn (sys w) = true ->
  post_pump_start d w =
    (ApiErr (if is_ai (mode (sys w)) then ModeConflict else AlreadyRunning), w).
Proof.
  unfold post_pump_start. intros [H|H]; [by rewrite H|]. rewrite H. by destruct (is_ai _).
Qed.

(** of two consecutive stop requests the second always fails with
    [NotRunning] and changes nothing, so no second [pump_stop] is sent. *)
Theorem post_pump_stop_twice w :
  let w1 := snd (post_pump_stop w) in
  post_pump_stop w1 = (ApiErr NotRunning, w1).
Proof. unfold post_pump_stop. destruct (pumpOn (sys w)) eqn:E; simpl; rewrite ?E; reflexivity. Qed.

(** C4: switching to AI mode while the pump runs stops it: the route
    answers with mode [ai] and the message "Mode set to ai", the pump is
    off with no start time, the commands [set_mode] then [pump_stop]
    (reason [mode_change], carrying
    the run time) are published, and every observer receives the
    [status_update] of the stopped pump before the [mode_update]. *)
Theorem post_mode_ai_stops w c :
  pumpOn (sys w) = true -> mqttClient w = Some c -> connected c = true ->
  let s' := SystemState false AI None 0 (Some CmdStop) (Some (clock w)) in
  let '(r, w') := post_mode (Some (JStr "ai")) w in
  r = ApiOk [("success", JBool true); ("mode", JStr "ai"); ("message", JStr "Mode set to ai")] /\
  sys w' = s' /\
  published_msgs w' = published_msgs w ++
    [cmd_publish w "set_mode" [("mode", JStr "ai")];
     cmd_publish w "pump_stop" [("runTime", JNum (runTime_of (sys w) (clock w)));
                                ("reason", JStr "mode_change")]] /\
  hub w' = emit_all (ModeUpdate AI) (emit_all (StatusUpdate (status_of s' (clock w))) (hub w)).
Proof.
  intros Hon Hc Hcon. unfold post_mode. simpl. rewrite Hon. simpl.
  do 2 (split; [done|]). split; [|done].
  unfold published_msgs. simpl. rewrite Hc. simpl. rewrite Hcon. simpl.
  by rewrite <-app_assoc.
Qed.

(** ** Derived timing values *)

(** The remaining time never grows and is never negative. *)
Lemma remainingTime_mono s now1 now2 : now1 <= now2 -> remainingTime s now2 <= remainingTime s now1.
Proof. intros Hle. unfold remainingTime. destruct (pumpStartTime s); [destruct (_ && _)|]; lia. Qed.

Lemma remainingTime_nonneg s now : 0 <= remainingTime s now.
Proof. unfold remainingTime. destruct (pumpStartTime s); [destruct (_ && _)|]; lia. Qed.

(** Node's delay for a [setTimeout] of [ms] lies in [1, TIMEOUT_MAX]
    and equals [ms] exactly when [ms] is in that range. *)
Theorem timer_delay_bounds ms :
  1 <= timer_delay ms <= TIMEOUT_MAX /\ (timer_delay ms = ms <-> 1 <= ms <= TIMEOUT_MAX).
Proof.
  unfold timer_delay, TIMEOUT_MAX.
  destruct (Z.leb_spec 1 ms), (Z.leb_spec ms (2 ^ 31 - 1)); simpl; lia.
Qed.

(** C27: the remaining time reported to observers and to [GET /api/status]
    never increases as time passes, lies between 0 and the planned
    duration once the start time is not in the future, and is 0 right
    after any stop. *)
Theorem remainingTime_spec s now1 now2 w r :
  now1 <= now2 ->
  remainingTime s now2 <= remainingTime s now1 /\
  (forall t, pumpStartTime s = Some t -> t <= now1 ->
     0 <= remainingTime s now1 <= Z.max 0 (pumpDuration s)) /\
  remainingTime (sys (stopPumpInternal r w)) now1 = 0.
Proof.
  intros Hle. split; [by apply remainingTime_mono|split; [|done]].
  intros t Ht Hle1. unfold remainingTime. rewrite Ht. destruct (_ && _); lia.
Qed.

(** C28: the auto-stop delay is the planned duration only while it lies in
    Node's timer range: a start with a duration of 0 s or less, or of more
    than 2147483 s (about 24.8 days), arms a callback that fires after
    1 ms, so outside AI mode such a cycle is stopped almost at once. *)
Theorem start_out_of_range_fires_early d w :
  d <= 0 \/ 2147483 < d ->
  is_ai (mode (sys w)) = false -> pumpOn (sys w) = false ->
  timers (snd (post_pump_start (Some d) w)) = timers w ++ [clock w + 1].
Proof.
  intros Hd Hai Hoff. unfold post_pump_start. rewrite Hai, Hoff. simpl.
  rewrite timers_startPumpInternal, Hai. simpl. unfold timer_delay, TIMEOUT_MAX.
  destruct (Z.leb_spec 1 (d * 1000)), (Z.leb_spec (d * 1000) (2 ^ 31 - 1)); simpl;
    (done || lia).
Qed.

(** ** Examples *)

Lemma publish_disconnected_witness :
  publish "set_mode" [] (world_init (MqttEnv None None None) 0) =
  (false, world_init (MqttEnv None None None) 0).
Proof. apply publish_disconnected. intros c Hc. discriminate. Defined.

Lemma post_pump_start_ok_witness :
  timers (snd (post_pump_start (Some 5) (sample_world false Manual))) = [5000 + 5000].
Proof.
  destruct (post_pump_start_ok (Some 5) (sample_world false Manual) (MqttClient true [] []))
    as (_ & _ & H & _); [reflexivity..|]. exact H.
Defined.

Lemma post_pump_start_rejected_witness :
  post_pump_start None (sample_world false AI) = (ApiErr ModeConflict, sample_world false AI).
Proof. apply (post_pump_start_rejected None (sample_world false AI)). left; reflexivity. Defined.

Lemma post_mode_ai_stops_witness :
  sys (snd (post_mode (Some (JStr "ai")) (sample_world true Manual))) =
  SystemState false AI None 0 (Some CmdStop) (Some 5000).
Proof.
  destruct (post_mode_ai_stops (sample_world true Manual) (MqttClient true [] []))
    as (_ & H & _); [reflexivity..|]. exact H.
Defined.

Lemma remainingTime_spec_witness :
  remainingTime (sys (sample_world true Manual)) 9000 <=
  remainingTime (sys (sample_world true Manual)) 5000.
Proof.
  destruct (remainingTime_spec (sys (sample_world true Manual)) 5000 9000
              (sample_world true Manual) "manual_api") as (H & _); [lia|]. exact H.
Defined.

Lemma start_out_of_range_fires_early_witness :
  timers (snd (post_pump_start (Some 3000000) (sample_world false Manual))) = [5000 + 1].
Proof.
  apply (start_out_of_range_fires_early 3000000 (sample_world false Manual)); [right; lia|reflexivity..].
Defined.
