(* ===== verification/System.v ===== *)
(** * The backend process as a transition system.

    Every entry point of [backend/server.js] that the event loop can run is
    an [event]: an HTTP request, an MQTT session change or message, the
    close of an AI process, a due [setTimeout] callback, a Socket.IO
    connection or request, or the passing of time.  [run_event] runs one of
    them to completion ([None]: the event cannot happen in that state), and
    [reachable] is the set of states the process can be in.  Timers may
    fire in any order once due, and AI processes may close in any order: a
    superset of Node's schedules, so the invariants proved here hold for
    every real schedule. *)

From S2P Require Import Prelude Json Gateway AiAdapter Hub StateManager.
Import IoHub.

Open Scope irr_scope.
Open Scope Z_scope.

Inductive event :=
| EvPostMode (m : jsval)
| EvPostStart (duration : option Z)
| EvPostStop
| EvMqttStart
| EvMqttConnect
| EvMqttOffline
| EvMqttMessage (topic : string) (payload : option json)
| EvAiClose (i : nat) (stdout : option json)
| EvTimerFire (i : nat)
| EvTick (d : Z)
| EvIoConnect (id : nat)
| EvIoDisconnect (id : nat)
| EvGetSensors (id : nat)
| EvGetStatus (id : nat).

(** [connectMQTT()] (run once from [httpServer.listen]). *)
Definition connectMQTT (w : world) : world := set_client (Some mqtt_connect_client) w.

Definition run_event (e : event) (w : world) : option world :=
  match e with
  | EvPostMode m => Some (snd (post_mode m w))
  | EvPostStart d => Some (snd (post_pump_start d w))
  | EvPostStop => Some (snd (post_pump_stop w))
  | EvMqttStart =>
      match mqttClient w with None => Some (connectMQTT w) | Some _ => None end
  | EvMqttConnect =>
      match mqttClient w with
      | Some c => Some (set_client (Some (on_connect (cfg w) c)) w)
      | None => None
      end
  | EvMqttOffline =>
      match mqttClient w with
      | Some c => Some (set_client (Some (on_offline c)) w)
      | None => None
      end
  | EvMqttMessage t p => Some (on_mqtt_message t p w)
  | EvAiClose i out =>
      match ai_pending w !! i with
      | Some _ => Some (ai_continue (askPythonAI_result out)
                          (set_ai_pending (remove_nth i (ai_pending w)) w))
      | None => None
      end
  | EvTimerFire i =>
      match timers w !! i with
      | Some t => if t <=? clock w
                  then Some (auto_stop_callback (set_timers (remove_nth i (timers w)) w))
                  else None
      | None => None
      end
  | EvTick d => if 0 <=? d then Some (set_clock (clock w + d) w) else None
  | EvIoConnect id =>
      if decide (id ∈ observers (hub w)) then None else Some (on_io_connection id w)
  | EvIoDisconnect id =>
      if decide (id ∈ observers (hub w)) then Some (set_hub (detach id (hub w)) w) else None
  | EvGetSensors id =>
      if decide (id ∈ observers (hub w)) then Some (on_get_sensors id w) else None
  | EvGetStatus id =>
      if decide (id ∈ observers (hub w)) then Some (on_get_status id w) else None
  end.

Fixpoint run_trace (evs : list event) (w : world) : option world :=
  match evs with
  | [] => Some w
  | e :: rest => match run_event e w with Some w' => run_trace rest w' | None => None end
  end.

Section Reach.
(** The events the environment may send; [fun _ => True] for all. *)
Variable admissible : event -> Prop.

Inductive reachable : world -> Prop :=
| reach_init env now : reachable (world_init env now)
| reach_step e w w' :
    reachable w -> admissible e -> run_event e w = Some w' -> reachable w'.
End Reach.

#[export] Hint Constructors reachable : irr.

(** ** How an event changes [systemState] and the clock

    [sys_change P] is what any event may do to the pair
    ([systemState], [Date.now()]): nothing, let time pass, start the pump
    for a duration satisfying [P], stop it, or change the mode, in
    sequence. *)
Inductive sys_change (P : Z -> Prop) : system_state -> Z -> system_state -> Z -> Prop :=
| sc_tick s c c' : c <= c' -> sys_change P s c s c'
| sc_start s c ms : P ms ->
    sys_change P s c (SystemState true (mode s) (Some c) ms (Some CmdStart) (Some c)) c
| sc_stop s c :
    sys_change P s c (SystemState false (mode s) None 0 (Some CmdStop) (Some c)) c
| sc_mode s c m :
    sys_change P s c (SystemState (pumpOn s) m (pumpStartTime s) (pumpDuration s)
                                  (lastCommand s) (lastCommandTime s)) c
| sc_trans s1 c1 s2 c2 s3 c3 :
    sys_change P s1 c1 s2 c2 -> sys_change P s2 c2 s3 c3 -> sys_change P s1 c1 s3 c3.

#[export] Hint Constructors sys_change : irr.

(** ** Invariants of [systemState] *)

(** [pumpOn] holds exactly when [pumpStartTime] is set, and a stopped pump
    has [pumpDuration = 0]. *)
Definition pump_consistent (s : system_state) : bool :=
  match pumpOn s, pumpStartTime s with
  | true, Some _ => true
  | false, None => bool_decide (pumpDuration s = 0)
  | _, _ => false
  end.

(** The start time is never in the future. *)
Definition started_by (s : system_state) (now : Z) : bool :=
  match pumpStartTime s with Some t => bool_decide (t <= now) | None => true end.

Definition state_ok (s : system_state) (now : Z) : bool :=
  pump_consistent s && started_by s now.

(** The durations an event may start the pump with. *)
Definition event_ms (e : event) (ms : Z) : Prop :=
  ms = 10000 \/ exists d, e = EvPostStart (Some d) /\ ms = d * 1000.

(** Start requests with a positive duration, or none. *)
Definition positive_starts (e : event) : Prop :=
  match e with EvPostStart (Some d) => 0 < d | _ => True end.

(** The state a trace leads to from a fresh process started at time 1000
    with the default configuration (the initial state if the trace
    blocks). *)
Definition demo_init : world := world_init (MqttEnv None None None) 1000.
Definition trace_world (evs : list event) : world := default demo_init (run_trace evs demo_init).

(** A 10 s cycle stopped by hand after 1 s and restarted 1 s later, 8 s
    into the second cycle: the first cycle's timer is due. *)
Definition restart_trace : list event :=
  [EvMqttStart; EvMqttConnect; EvPostStart (Some 10); EvTick 1000; EvPostStop;
   EvTick 1000; EvPostStart (Some 10); EvTick 8000].

(** A 10 s cycle stopped by hand at once; 10 s later its timer is due. *)
Definition stopped_trace : list event :=
  [EvMqttStart; EvMqttConnect; EvPostStart (Some 10); EvPostStop; EvTick 10000].

(** AI mode, one sample sent, the consultation still pending. *)
Definition ai_trace : list event :=
  [EvMqttStart; EvMqttConnect; EvPostMode (Some (JStr "ai"));
   EvMqttMessage "device/sensor/data" (Some (JObj [("soil", JNum 15)]))].

(** The same, after switching back to manual mode. *)
Definition ai_manual_trace : list event := ai_trace ++ [EvPostMode (Some (JStr "manual"))].

Lemma run_trace_reachable adm evs w w' :
  reachable adm w -> Forall adm evs -> run_trace evs w = Some w' -> reachable adm w'.
Proof.
  revert w. induction evs as [|e evs IH]; intros w Hw Hadm; simpl.
  - by intros [= <-].
  - apply Forall_cons in Hadm as [He Hevs].
    destruct (run_event e w) as [w1|] eqn:E; [|done].
    apply IH; [|done]. by econstructor.
Qed.

Lemma trace_world_reachable adm evs :
  Forall adm evs -> is_Some (run_trace evs demo_init) -> reachable adm (trace_world evs).
Proof.
  intros Hadm [w Hw]. unfold trace_world. rewrite Hw.
  eapply run_trace_reachable; [apply reach_init|exact Hadm|exact Hw].
Qed.

Lemma sc_refl P s c : sys_change P s c s c.
Proof. apply sc_tick. lia. Qed.
#[export] Hint Resolve sc_refl : irr.

Section Changes.
Context (w : world).

Lemma change_start P d r :
  P (default 10 d * 1000) ->
  sys_change P (sys w) (clock w) (sys (startPumpInternal d r w)) (clock (startPumpInternal d r w)).
Proof.
  intros HP. rewrite sys_startPumpInternal. destruct (frame_startPumpInternal w d r) as (-> & _).
  by apply sc_start.
Qed.

Lemma change_stop P r :
  sys_change P (sys w) (clock w) (sys (stopPumpInternal r w)) (clock (stopPumpInternal r w)).
Proof. apply sc_stop. Qed.

Lemma change_auto_stop P :
  sys_change P (sys w) (clock w) (sys (auto_stop_callback w)) (clock (auto_stop_callback w)).
Proof. unfold auto_stop_callback. case_match; auto using change_stop with irr. Qed.

Lemma change_ai_continue P a :
  P 10000 ->
  sys_change P (sys w) (clock w) (sys (ai_continue a w)) (clock (ai_continue a w)).
Proof.
  intros HP. unfold ai_continue.
  destruct (ai_decide _ _); auto using change_start, change_stop with irr.
Qed.

Lemma change_post_mode P m :
  sys_change P (sys w) (clock w) (sys (snd (post_mode m w))) (clock (snd (post_mode m w))).
Proof.
  unfold post_mode. destruct (parse_mode m) as [m'|]; simpl; [|auto with irr].
  eapply sc_trans; [apply (sc_mode _ _ _ m')|].
  destruct (is_ai m' && _); simpl; [apply sc_stop|auto with irr].
Qed.

Lemma change_post_start P d :
  P (default 10 d * 1000) ->
  sys_change P (sys w) (clock w) (sys (snd (post_pump_start d w))) (clock (snd (post_pump_start d w))).
Proof.
  intros HP. unfold post_pump_start.
  destruct (is_ai _); [auto with irr|]. destruct (pumpOn _); [auto with irr|].
  by apply change_start.
Qed.

Lemma change_post_stop P :
  sys_change P (sys w) (clock w) (sys (snd (post_pump_stop w))) (clock (snd (post_pump_stop w))).
Proof. unfold post_pump_stop. destruct (negb _); simpl; auto using change_stop with irr. Qed.

Lemma change_mqtt_message P t p :
  sys_change P (sys w) (clock w) (sys (on_mqtt_message t p w)) (clock (on_mqtt_message t p w)).
Proof.
  unfold on_mqtt_message. destruct (negb _); [auto with irr|].
  destruct p as [data|]; [|auto with irr].
  destruct (update_sensors _ _ _); [|auto with irr]. simpl.
  destruct (is_ai _); simpl; auto with irr.
Qed.
End Changes.

Lemma run_event_change e w w' :
  run_event e w = Some w' -> sys_change (event_ms e) (sys w) (clock w) (sys w') (clock w').
Proof.
  destruct e; simpl; intros Hrun;
    repeat match type of Hrun with
    | context [match ?x with _ => _ end] => destruct x eqn:?
    | context [if ?b then _ else _] => destruct b eqn:?
    end; simplify_eq/=;
    eauto using change_post_mode, change_post_stop, change_mqtt_message, change_auto_stop with irr.
  - apply change_post_start. unfold event_ms. destruct duration; simpl; eauto.
  - apply (change_ai_continue (set_ai_pending (remove_nth i (ai_pending w)) w)). by left.
  - apply (change_auto_stop (set_timers (remove_nth i (timers w)) w)).
  - apply sc_tick. lia.
Qed.

Lemma sys_change_state_ok P s c s' c' :
  sys_change P s c s' c' -> state_ok s c = true -> state_ok s' c' = true.
Proof.
  unfold state_ok, pump_consistent, started_by.
  induction 1 as [s c c' Hle|s c ms _|s c|s c m|]; simpl; intros Hok; try done;
    repeat case_match; simplify_eq/=; rewrite ?andb_true_iff, ?bool_decide_eq_true in *;
    intuition (auto || lia).
Qed.

Lemma sys_change_mono (P Q : Z -> Prop) s c s' c' :
  (forall ms, P ms -> Q ms) -> sys_change P s c s' c' -> sys_change Q s c s' c'.
Proof. intros HPQ. induction 1; eauto with irr. Qed.

Lemma sys_change_duration_pos (P : Z -> Prop) s c s' c' :
  (forall ms, P ms -> 0 < ms) -> sys_change P s c s' c' ->
  (pumpOn s = true -> 0 < pumpDuration s) -> pumpOn s' = true -> 0 < pumpDuration s'.
Proof. intros HP. induction 1; simpl; auto; congruence. Qed.

(** C1: in every reachable state, [pumpOn] is true exactly when
    [pumpStartTime] is set, [pumpDuration] is 0 whenever the pump is off,
    and the start time is not later than [Date.now()]. *)
Theorem reachable_state_ok adm w :
  reachable adm w -> state_ok (sys w) (clock w) = true.
Proof.
  induction 1 as [env now|e w w' _ IH _ Hrun].
  - reflexivity.
  - eapply sys_change_state_ok; [|exact IH]. by eapply run_event_change.
Qed.

(** C26: if every start request carries a positive duration or none, a
    running pump always has a positive planned duration. *)
Theorem reachable_duration_pos adm w :
  (forall d, adm (EvPostStart (Some d)) -> 0 < d) ->
  reachable adm w -> pumpOn (sys w) = true -> 0 < pumpDuration (sys w).
Proof.
  intros Hadm. induction 1 as [env now|e w w' _ IH He Hrun]; [done|].
  eapply sys_change_duration_pos; [|eapply run_event_change; exact Hrun|exact IH].
  intros ms [->|(d & -> & ->)]; [lia|]. specialize (Hadm d He). lia.
Qed.

(** ** Timers *)

(** C2: a due auto-stop callback stops a running pump outside AI mode
    whatever cycle armed it: the callback checks only [pumpOn] and the
    mode, so a timer left over from an earlier cycle ends the current one
    before its planned duration has elapsed. *)
Theorem stale_timer_stops_cycle w i t st :
  pumpOn (sys w) = true -> is_ai (mode (sys w)) = false ->
  pumpStartTime (sys w) = Some st -> clock w - st < pumpDuration (sys w) ->
  timers w !! i = Some t -> t <= clock w ->
  exists w', run_event (EvTimerFire i) w = Some w' /\ pumpOn (sys w') = false /\
             lastCommand (sys w') = Some CmdStop.
Proof.
  intros Hon Hai _ _ Ht Hdue. simpl. rewrite Ht.
  destruct (Z.leb_spec t (clock w)); [|lia].
  eexists; split; [reflexivity|]. unfold auto_stop_callback. simpl. rewrite Hon, ?Hai. done.
Qed.

(** C7: the auto-stop callback re-checks at fire time: with the pump off,
    or in AI mode, firing it changes nothing but the list of pending
    timers. *)
Theorem auto_stop_rechecks w i t :
  pumpOn (sys w) = false \/ is_ai (mode (sys w)) = true ->
  timers w !! i = Some t -> t <= clock w ->
  run_event (EvTimerFire i) w = Some (set_timers (remove_nth i (timers w)) w).
Proof.
  intros Hc Ht Hdue. simpl. rewrite Ht.
  destruct (Z.leb_spec t (clock w)); [|lia]. unfold auto_stop_callback. simpl.
  by destruct Hc as [-> | ->]; [|rewrite andb_false_r].
Qed.

(** ** AI consultations *)

(** C3: a sensor message in AI mode always starts a new consultation, even
    while earlier ones are still pending: the handler has no single-flight
    guard. *)
Theorem ai_not_single_flight w data d :
  is_ai (mode (sys w)) = true ->
  update_sensors data (sensors w) (clock w) = Some d ->
  exists w', run_event (EvMqttMessage (topic_data (cfg w)) (Some data)) w = Some w' /\
             ai_pending w' = ai_pending w ++ [ai_request_of d].
Proof.
  intros Hai Hd. eexists; split; [reflexivity|].
  unfold on_mqtt_message. rewrite String.eqb_refl, Hd. simpl. by rewrite Hai.
Qed.

(** C23: when an AI process closes with output that cannot be parsed, the
    pump is off afterwards, whatever its state before. *)
Theorem ai_close_failsafe w i req :
  ai_pending w !! i = Some req ->
  exists w', run_event (EvAiClose i None) w = Some w' /\ pumpOn (sys w') = false /\
             ai_pending w' = remove_nth i (ai_pending w).
Proof.
  intros Hi. simpl. rewrite Hi. eexists; split; [reflexivity|].
  unfold ai_continue, ai_decide. simpl. destruct (pumpOn (sys w)) eqn:E; simpl; by rewrite ?E.
Qed.

(** C25: the continuation after [await askPythonAI] does not re-check the
    mode: a consultation issued in AI mode that resolves with [1] after the
    mode was switched to manual or automatic still starts the pump for
    10 s, and, the mode not being AI, arms an auto-stop timer. *)
Theorem ai_start_after_mode_change w i req :
  is_ai (mode (sys w)) = false -> pumpOn (sys w) = false ->
  ai_pending w !! i = Some req ->
  exists w', run_event (EvAiClose i (Some (JObj [("action", JNum 1)]))) w = Some w' /\
    pumpOn (sys w') = true /\ pumpDuration (sys w') = 10000 /\
    timers w' = timers w ++ [clock w + 10000].
Proof.
  intros Hai Hoff Hi. simpl. rewrite Hi. eexists; split; [reflexivity|].
  unfold ai_continue, ai_decide. simpl. rewrite Hoff. simpl.
  rewrite sys_startPumpInternal, timers_startPumpInternal. simpl. by rewrite Hai.
Qed.

(** ** Scenarios of the specification *)

(** in automatic mode with the pump off and the broker connected, a
    start request for 8 s publishes [pump_start] with [duration 8] and
    [durationMs 8000]; when 8000 ms later the armed callback fires (no
    stop in between), the pump stops and [pump_stop] is published with run
    time 8000 and reason [auto_timeout]. *)
Theorem automatic_cycle w c :
  mode (sys w) = Automatic -> pumpOn (sys w) = false -> 0 < clock w ->
  mqttClient w = Some c -> connected c = true ->
  exists w', run_trace [EvPostStart (Some 8); EvTick 8000; EvTimerFire (length (timers w))] w = Some w' /\
   pumpOn (sys w') = false /\ clock w' = clock w + 8000 /\
   published_msgs w' = published_msgs w ++
     [cmd_publish w "pump_start" [("duration", JNum 8); ("durationMs", JNum 8000); ("mode", JStr "automatic")];
      MqttPublish (topic_command (cfg w))
        (command_message "pump_stop" (clock w + 8000) [("runTime", JNum 8000); ("reason", JStr "auto_timeout")]) 1].
Proof.
  intros Hm Hoff Hclk Hc Hcon.
  destruct w as [cf clk [on md st dur lc lct] sd cl h tm ap]; simpl in *; subst.
  unfold published_msgs, cmd_publish. simpl.
  rewrite lookup_app_r, Nat.sub_diag by lia. simpl.
  rewrite Z.leb_refl. simpl.
  eexists; split; [reflexivity|]. simpl. rewrite Hcon. simpl.
  unfold runTime_of. simpl. destruct (Z.eqb_spec clk 0); [lia|].
  repeat split. rewrite <-app_assoc. simpl. repeat f_equal. lia.
Qed.

(** an MQTT message on the data topic whose payload is not JSON, or is
    [null], is dropped: nothing changes, no event is emitted and no AI
    consultation starts. *)
Theorem mqtt_malformed_dropped w p :
  p = None \/ p = Some JNull ->
  run_event (EvMqttMessage (topic_data (cfg w)) p) w = Some w.
Proof. intros [-> | ->]; simpl; unfold on_mqtt_message; by rewrite String.eqb_refl. Qed.

(** ** Examples *)

Lemma reachable_state_ok_witness :
  state_ok (sys (trace_world restart_trace)) (clock (trace_world restart_trace)) = true.
Proof.
  apply (reachable_state_ok (fun _ => True)).
  apply trace_world_reachable; [repeat constructor|vm_compute; eauto].
Defined.

Lemma reachable_duration_pos_witness :
  0 < pumpDuration (sys (trace_world [EvPostStart (Some 5)])).
Proof.
  apply (reachable_duration_pos positive_starts).
  - intros d Hd. exact Hd.
  - apply trace_world_reachable; [repeat constructor|vm_compute; eauto].
  - vm_compute. reflexivity.
Defined.

Lemma stale_timer_stops_cycle_witness :
  exists w', run_event (EvTimerFire 0) (trace_world restart_trace) = Some w' /\
             pumpOn (sys w') = false /\ lastCommand (sys w') = Some CmdStop.
Proof.
  apply (stale_timer_stops_cycle (trace_world restart_trace) 0 11000 3000);
    vm_compute; first [reflexivity | discriminate].
Defined.

Lemma auto_stop_rechecks_witness :
  run_event (EvTimerFire 0) (trace_world stopped_trace) =
  Some (set_timers (remove_nth 0 (timers (trace_world stopped_trace))) (trace_world stopped_trace)).
Proof.
  apply (auto_stop_rechecks (trace_world stopped_trace) 0 11000);
    vm_compute; first [left; reflexivity | reflexivity | discriminate].
Defined.

Lemma ai_not_single_flight_witness :
  exists w', run_event (EvMqttMessage "device/sensor/data" (Some (JObj [("soil", JNum 20)])))
               (trace_world ai_trace) = Some w' /\ length (ai_pending w') = 2%nat.
Proof.
  destruct (ai_not_single_flight (trace_world ai_trace) (JObj [("soil", JNum 20)])
              (default (sensorData_init 0) (update_sensors (JObj [("soil", JNum 20)])
                 (sensors (trace_world ai_trace)) (clock (trace_world ai_trace)))))
    as (w' & Hrun & Hp); [reflexivity|reflexivity|].
  exists w'. split; [exact Hrun|]. rewrite Hp. reflexivity.
Defined.

Lemma ai_close_failsafe_witness :
  exists w', run_event (EvAiClose 0 None) (trace_world ai_trace) = Some w' /\
             pumpOn (sys w') = false /\ ai_pending w' = [].
Proof.
  apply (ai_close_failsafe (trace_world ai_trace) 0 (AiRequest (Some (JNum 24)) (Some (JNum 66)) (Some (JNum 15)))).
  vm_compute. reflexivity.
Defined.

Lemma ai_start_after_mode_change_witness :
  exists w', run_event (EvAiClose 0 (Some (JObj [("action", JNum 1)])))
               (trace_world ai_manual_trace) = Some w' /\
    pumpOn (sys w') = true /\ pumpDuration (sys w') = 10000 /\
    timers w' = timers (trace_world ai_manual_trace) ++ [clock (trace_world ai_manual_trace) + 10000].
Proof.
  apply (ai_start_after_mode_change (trace_world ai_manual_trace) 0
           (AiRequest (Some (JNum 24)) (Some (JNum 66)) (Some (JNum 15))));
    vm_compute; reflexivity.
Defined.

Lemma automatic_cycle_witness :
  exists w', run_trace [EvPostStart (Some 8); EvTick 8000; EvTimerFire 0]
               (sample_world false Automatic) = Some w' /\ pumpOn (sys w') = false.
Proof.
  destruct (automatic_cycle (sample_world false Automatic) (MqttClient true [] []))
    as (w' & Hrun & Hoff & _); [reflexivity..|].
  exists w'. split; [exact Hrun|exact Hoff].
Defined.

Lemma mqtt_malformed_dropped_witness :
  run_event (EvMqttMessage "device/sensor/data" (Some JNull)) (sample_world true Manual) =
  Some (sample_world true Manual).
Proof. apply (mqtt_malformed_dropped (sample_world true Manual)). right; reflexivity. Defined.
