(* ===== verification/ClientServices.v ===== *)
(** * Frontend services: [frontend/src/services/apiService.js],
    [websocketService.js] and [confirmServices.js].

    [ApiService] is the HTTP client the dashboard uses for every route of
    the backend; its [request] turns a response into a value or an error,
    and its theorems connect the backend's answers
    ([StateManager.response_json]) to what the dashboard sees.
    [WebSocketService] keeps the listener table and the Socket.IO client
    sockets; [ConfirmService] is the pending-stop store with its two
    callbacks.  Callbacks are identified by numbers; whether one throws is
    an input of the model. *)

From S2P Require Import Prelude Json Gateway StateManager.

Open Scope irr_scope.
Open Scope Z_scope.

Module ApiService.

(** [import.meta.env.VITE_API_URL || 'http://localhost:3001/api']. *)
Definition API_BASE (env : option string) : string :=
  env_or env "http://localhost:3001/api".

(** [request] options: [method], [headers], [body]. *)
Record options := Options {
  opt_method : option string;
  opt_headers : option (list (string * json));
  opt_body : option json
}.

Definition no_options : options := Options None None None.

(** The [config] object: [{headers: {'Content-Type': ..., ...options.headers},
    ...options}], then the body replaced by its serialisation when it is an
    object.  [...options] comes last, so a caller's [headers] replace the
    merged ones; a serialised body is [JStr "<json>"] here, its text is
    not modelled. *)
Definition request_config (o : options) : list (string * json) :=
  let merged := obj_spread [("Content-Type", JStr "application/json")] (default [] (opt_headers o)) in
  let opts := (match opt_method o with Some m => [("method", JStr m)] | None => [] end) ++
              (match opt_headers o with Some h => [("headers", JObj h)] | None => [] end) ++
              (match opt_body o with Some b => [("body", b)] | None => [] end) in
  let config := obj_spread [("headers", JObj merged)] opts in
  match opt_body o with
  | Some (JObj _ as b) | Some (JArr _ as b) => obj_set config "body" (JStr "<json>")
  | _ => config
  end.

(** What [fetch] gives: a network failure, or a response with its [ok]
    flag, status and body ([None] when [response.json()] rejects). *)
Inductive fetch_result :=
| FetchFailed
| FetchResponse (ok : bool) (status : Z) (body : option json).

Inductive request_error :=
| NetworkError
| BodyNotJson
| TypeErrorOnNull
| HttpError (message : jsval).

(** [request(endpoint, options)] after [fetch]: the resolved data, or the
    error it rethrows. *)
Definition request_result (r : fetch_result) : json + request_error :=
  match r with
  | FetchFailed => inr NetworkError
  | FetchResponse ok status body =>
      match body with
      | None => inr BodyNotJson
      | Some data =>
          if ok then inl data
          else match data with
               | JNull => inr TypeErrorOnNull
               | _ => inr (HttpError (js_get data "error" |||
                                      Some (JStr ("HTTP error! status: " ++ pretty status))))
               end
      end
  end.

(** The endpoints and bodies of the service methods. *)
Definition startPump_options (duration : jsval) : options :=
  Options (Some "POST") None
          (Some (JObj (match duration with Some d => [("duration", d)] | None => [] end))).

(** [fetch] on the backend: status 2xx is [ok]. *)
Definition fetch_backend (r : api_response) (s : system_state) : fetch_result :=
  let '(status, body) := response_json r s in
  FetchResponse (bool_decide (200 <= status < 300)) status (Some body).

End ApiService.

Module WebSocketService.

(** A Socket.IO client socket created by [connect()]; its handlers stay
    attached until it is disconnected. *)
Record ws_socket := WsSocket { sock_id : nat; sock_connected : bool }.

Record ws_state := WsState {
  socket : option nat;                   (* this.socket *)
  sockets : list ws_socket;              (* live sockets, with their handlers *)
  listeners : list (string * list nat);  (* this.listeners *)
  next_socket : nat;
  outbox : list (nat * string)           (* socket.emit(...) requests *)
}.

(** The constructor: five events, no listener, no socket. *)
Definition ws_init : ws_state :=
  WsState None []
    [("sensor_update", []); ("status_update", []); ("mode_update", []);
     ("connect", []); ("disconnect", [])] 0 [].

Fixpoint lookup_listeners (ev : string) (ls : list (string * list nat)) : option (list nat) :=
  match ls with
  | [] => None
  | (k, cbs) :: rest => if String.eqb ev k then Some cbs else lookup_listeners ev rest
  end.

Fixpoint update_listeners (ev : string) (f : list nat -> list nat)
    (ls : list (string * list nat)) : list (string * list nat) :=
  match ls with
  | [] => []
  | (k, cbs) :: rest =>
      if String.eqb ev k then (k, f cbs) :: rest else (k, cbs) :: update_listeners ev f rest
  end.

Definition find_socket (id : nat) (st : ws_state) : option ws_socket :=
  List.find (fun s => Nat.eqb (sock_id s) id) (sockets st).

(** [this.socket?.connected]. *)
Definition current_connected (st : ws_state) : bool :=
  match socket st with
  | Some id => match find_socket id st with Some s => sock_connected s | None => false end
  | None => false
  end.

Definition set_sockets (ss : list ws_socket) (st : ws_state) : ws_state :=
  WsState (socket st) ss (listeners st) (next_socket st) (outbox st).

(** [connect()]: returns when the current socket is connected, otherwise
    creates a new socket and makes it current; an older socket is not
    closed and keeps its handlers. *)
Definition connect (st : ws_state) : ws_state :=
  if current_connected st then st
  else WsState (Some (next_socket st)) (sockets st ++ [WsSocket (next_socket st) false])
               (listeners st) (S (next_socket st)) (outbox st).

(** [disconnect()]: closes the current socket only. *)
Definition disconnect (st : ws_state) : ws_state :=
  match socket st with
  | Some id => WsState None (filter (fun s => negb (Nat.eqb (sock_id s) id)) (sockets st))
                       (listeners st) (next_socket st) (outbox st)
  | None => st
  end.

(** [on(event, callback)] and [off(event, callback)]: only the five
    known events have a listener array. *)
Definition on (ev : string) (cb : nat) (st : ws_state) : ws_state :=
  match lookup_listeners ev (listeners st) with
  | Some _ => WsState (socket st) (sockets st) (update_listeners ev (fun l => l ++ [cb]) (listeners st))
                      (next_socket st) (outbox st)
  | None => st
  end.

Definition off (ev : string) (cb : nat) (st : ws_state) : ws_state :=
  match lookup_listeners ev (listeners st) with
  | Some _ => WsState (socket st) (sockets st)
                (update_listeners ev (filter (fun c => negb (Nat.eqb c cb))) (listeners st))
                (next_socket st) (outbox st)
  | None => st
  end.

(** [emit(event, data)]: every listener is called in order inside its
    own [try]/[catch]; the result lists the callbacks called and those
    whose error was caught and logged ([throws] says which throw). *)
Definition emit (throws : nat -> bool) (ev : string) (st : ws_state) : list nat * list nat :=
  match lookup_listeners ev (listeners st) with
  | Some cbs => (cbs, filter throws cbs)
  | None => ([], [])
  end.

(** A Socket.IO event arriving on socket [id]: [connect] and
    [disconnect] update that socket, every event is forwarded to
    [emit] when the socket is live.  The [connect] listener first logs
    [this.socket.id]: when [disconnect()] has set [this.socket] to
    [null] (a socket left over from a second [connect()] can still
    connect), it throws a [TypeError] and forwards nothing. *)
Definition on_socket_event (id : nat) (ev : string) (st : ws_state) : ws_state * list string :=
  match find_socket id st with
  | None => (st, [])
  | Some _ =>
      let upd c := set_sockets (map (fun s => if Nat.eqb (sock_id s) id
                                              then WsSocket id c else s) (sockets st)) st in
      if String.eqb ev "connect" then (upd true, match socket st with Some _ => ["connect"] | None => [] end)
      else if String.eqb ev "disconnect" then (upd false, ["disconnect"])
      else if String.eqb ev "sensor_update" || String.eqb ev "status_update"
              || String.eqb ev "mode_update" then (st, [ev])
      else (st, [])
  end.

(** [requestSensors()] and [requestStatus()]. *)
Definition request (ev : string) (st : ws_state) : ws_state :=
  match socket st with
  | Some id => if current_connected st
               then WsState (socket st) (sockets st) (listeners st) (next_socket st)
                            (outbox st ++ [(id, ev)])
               else st
  | None => st
  end.

Definition requestSensors := request "get_sensors".
Definition requestStatus := request "get_status".

(** [isConnected()]. *)
Definition isConnected (st : ws_state) : bool := current_connected st.

End WebSocketService.

Module ConfirmService.

Record confirm_state := ConfirmState {
  pending : option json;      (* null when None *)
  onConfirmCallback : option nat;
  onCancelCallback : option nat
}.

Definition confirm_init : confirm_state := ConfirmState None None None.

(** [setPendingStop(data = {})]: an [undefined] argument is [{}]. *)
Definition setPendingStop (data : jsval) (st : confirm_state) : confirm_state :=
  ConfirmState (Some (default (JObj []) data)) (onConfirmCallback st) (onCancelCallback st).

Definition getPendingStop (st : confirm_state) : option json := pending st.

Definition clearPendingStop (st : confirm_state) : confirm_state := confirm_init.

(** [registerHandlers({onConfirm, onCancel})]; [None] is a value that
    is not a function. *)
Definition registerHandlers (onConfirm onCancel : option nat) (st : confirm_state) : confirm_state :=
  ConfirmState (pending st) onConfirm onCancel.

(** The outcome of [confirm()] or [cancel()]: the callback called with
    the pending value, if any, and whether the returned promise
    rejects (the callback's error is rethrown after [finally]). *)
Record outcome := Outcome { called : option (nat * option json); rejected : bool }.

Definition run_callback (throws : nat -> bool) (cb : option nat) (st : confirm_state)
  : outcome * confirm_state :=
  match cb with
  | Some f => (Outcome (Some (f, pending st)) (throws f), clearPendingStop st)
  | None => (Outcome None false, clearPendingStop st)
  end.

Definition confirm (throws : nat -> bool) (st : confirm_state) : outcome * confirm_state :=
  run_callback throws (onConfirmCallback st) st.

Definition cancel (throws : nat -> bool) (st : confirm_state) : outcome * confirm_state :=
  run_callback throws (onCancelCallback st) st.

End ConfirmService.

(** ** Properties *)

Import ApiService WebSocketService ConfirmService.

(** what the dashboard's [request] makes of each backend answer: a
    success yields the response body, and every rejected route yields an
    error whose message is exactly the backend's [error] string. *)
Theorem request_backend r s :
  request_result (fetch_backend r s) =
    match r with
    | ApiOk body => inl (JObj body)
    | ApiErr e => inr (HttpError (Some (JStr (error_message e))))
    end.
Proof. destruct r as [body|[]]; reflexivity. Qed.

(** a caller's [headers] option replaces the merged headers instead of
    extending them: the [Content-Type: application/json] default is lost
    unless the caller repeats it. *)
Theorem request_config_headers_replaced o h :
  opt_headers o = Some h ->
  js_get (JObj (request_config o)) "headers" = Some (JObj h).
Proof.
  destruct o as [[m|] h' [[]|]]; simpl; intros [= ->]; reflexivity.
Qed.

Lemma lookup_update_listeners_eq ev f ls cbs :
  lookup_listeners ev ls = Some cbs -> lookup_listeners ev (update_listeners ev f ls) = Some (f cbs).
Proof.
  induction ls as [|[k l] rest IH]; simpl; intros H; [done|].
  destruct (String.eqb_spec ev k) as [->|Hne].
  - injection H as <-. simpl. by rewrite String.eqb_refl.
  - simpl. destruct (String.eqb_spec ev k); [congruence|auto].
Qed.

Lemma lookup_on_same ev cb st cbs :
  lookup_listeners ev (listeners st) = Some cbs ->
  lookup_listeners ev (listeners (on ev cb st)) = Some (cbs ++ [cb]).
Proof. intros H. unfold on. rewrite H. by apply (lookup_update_listeners_eq ev (fun l => l ++ [cb])). Qed.

Lemma lookup_on_fold ev cbs st l :
  lookup_listeners ev (listeners st) = Some l ->
  lookup_listeners ev (listeners (fold_left (fun acc cb => on ev cb acc) cbs st)) = Some (l ++ cbs).
Proof.
  revert st l. induction cbs as [|cb cbs IH]; intros st l H; simpl.
  - by rewrite app_nil_r.
  - rewrite (IH _ (l ++ [cb])); [by rewrite <-app_assoc|by apply lookup_on_same].
Qed.

(** [emit] calls every listener registered for a known event, once and
    in registration order, whichever of them throw; the errors of the
    throwing ones are caught and logged. *)
Theorem emit_calls_all throws ev cbs :
  In ev ["sensor_update"; "status_update"; "mode_update"; "connect"; "disconnect"] ->
  emit throws ev (fold_left (fun acc cb => on ev cb acc) cbs ws_init) = (cbs, filter throws cbs).
Proof.
  intros Hev. unfold emit.
  assert (lookup_listeners ev (listeners ws_init) = Some []) as H0
    by (simpl in Hev; intuition subst; reflexivity).
  by rewrite (lookup_on_fold _ _ _ _ H0).
Qed.

(** [off] removes every registration of the callback for that event
    and keeps the others in order. *)
Theorem off_removes ev cb st cbs :
  lookup_listeners ev (listeners st) = Some cbs ->
  lookup_listeners ev (listeners (off ev cb st)) = Some (filter (fun c => negb (Nat.eqb c cb)) cbs) /\
  cb ∉ filter (fun c => negb (Nat.eqb c cb)) cbs.
Proof.
  intros H. unfold off. rewrite H. split; [by apply (lookup_update_listeners_eq ev (filter (fun c => negb (Nat.eqb c cb))))|].
  rewrite list_elem_of_filter. rewrite Nat.eqb_refl. naive_solver.
Qed.

Lemma find_socket_fresh (ss : list ws_socket) (id : nat) c :
  Forall (fun s => (sock_id s < id)%nat) ss ->
  List.find (fun s => Nat.eqb (sock_id s) id) (ss ++ [WsSocket id c]) = Some (WsSocket id c).
Proof.
  induction ss as [|s0 ss IH]; intros Hf; simpl; [by rewrite Nat.eqb_refl|].
  apply Forall_cons in Hf as [H0 Hf]. destruct (Nat.eqb_spec (sock_id s0) id); [lia|auto].
Qed.

Lemma find_socket_app ss ss' id s :
  List.find (fun s => Nat.eqb (sock_id s) id) ss = Some s ->
  List.find (fun s => Nat.eqb (sock_id s) id) (ss ++ ss') = Some s.
Proof. induction ss as [|s0 ss IH]; simpl; [done|]. by destruct (Nat.eqb _ _). Qed.

(** C35: [connect()] called while the current socket is not (yet or any
    more) connected creates a new socket without closing the old one:
    after two such calls both sockets are live, and a [sensor_update]
    arriving on either of them is forwarded to the listeners, so the
    dashboard handles each broadcast twice. *)
Theorem connect_twice_duplicates st :
  current_connected st = false ->
  Forall (fun s => (sock_id s < next_socket st)%nat) (sockets st) ->
  let st2 := connect (connect st) in
  sockets st2 = sockets st ++ [WsSocket (next_socket st) false; WsSocket (S (next_socket st)) false] /\
  snd (on_socket_event (next_socket st) "sensor_update" st2) = ["sensor_update"] /\
  snd (on_socket_event (S (next_socket st)) "sensor_update" st2) = ["sensor_update"].
Proof.
  intros Hc Hf. unfold connect at 2. rewrite Hc.
  assert (Hnew : find_socket (next_socket st)
            (WsState (Some (next_socket st)) (sockets st ++ [WsSocket (next_socket st) false])
                     (listeners st) (S (next_socket st)) (outbox st))
          = Some (WsSocket (next_socket st) false)) by (by apply find_socket_fresh).
  unfold connect, current_connected. cbn [socket]. rewrite Hnew. simpl.
  split; [by rewrite <-app_assoc|].
  unfold on_socket_event, find_socket. cbn [sockets].
  rewrite (find_socket_app _ _ _ (WsSocket (next_socket st) false)); [|by apply find_socket_fresh].
  rewrite find_socket_fresh; [done|].
  apply Forall_app. split; [|repeat constructor; simpl; lia].
  eapply Forall_impl; [exact Hf|]. simpl. lia.
Qed.

(** [confirm()] and [cancel()] always clear the pending stop and both
    callbacks, whether or not a callback is registered or throws; a
    registered callback receives the pending value, and its error makes
    the returned promise reject. *)
Theorem confirm_cancel_clear throws st :
  let '(o1, s1) := confirm throws st in
  let '(o2, s2) := cancel throws st in
  s1 = confirm_init /\ s2 = confirm_init /\
  called o1 = (fun f => (f, pending st)) <$> onConfirmCallback st /\
  called o2 = (fun f => (f, pending st)) <$> onCancelCallback st /\
  rejected o1 = default false (throws <$> onConfirmCallback st).
Proof.
  unfold confirm, cancel, run_callback.
  destruct (onConfirmCallback st), (onCancelCallback st); simpl; repeat split.
Qed.

(** ** Examples *)

Lemma request_config_headers_replaced_witness :
  js_get (JObj (request_config (Options (Some "POST") (Some [("X-Token", JStr "t")]) None))) "headers"
  = Some (JObj [("X-Token", JStr "t")]).
Proof. apply request_config_headers_replaced. reflexivity. Defined.

Lemma emit_calls_all_witness :
  emit (fun c => Nat.eqb c 1) "sensor_update"
       (fold_left (fun acc cb => on "sensor_update" cb acc) [1; 2]%nat ws_init) = ([1; 2]%nat, [1]%nat).
Proof. apply (emit_calls_all (fun c => Nat.eqb c 1) "sensor_update" [1; 2]%nat). simpl. tauto. Defined.

Lemma off_removes_witness :
  lookup_listeners "mode_update"
    (listeners (off "mode_update" 3 (fold_left (fun acc cb => on "mode_update" cb acc) [3; 4; 3]%nat ws_init)))
  = Some [4]%nat /\ (3 ∉ [4])%nat.
Proof.
  apply (off_removes "mode_update" 3 (fold_left (fun acc cb => on "mode_update" cb acc) [3; 4; 3]%nat ws_init)
           [3; 4; 3]%nat).
  reflexivity.
Defined.

Lemma connect_twice_duplicates_witness :
  sockets (connect (connect ws_init)) = [WsSocket 0 false; WsSocket 1 false] /\
  snd (on_socket_event 0 "sensor_update" (connect (connect ws_init))) = ["sensor_update"] /\
  snd (on_socket_event 1 "sensor_update" (connect (connect ws_init))) = ["sensor_update"].
Proof. apply (connect_twice_duplicates ws_init); [reflexivity|constructor]. Defined.
