(* ===== verification/Dashboard.v ===== *)
(** * The dashboard page: [frontend/src/pages/SmartWateringDashboard.jsx].

    The component's state ([useState] and [useRef] values) is the record
    [dash_state]; each handler or effect is a function of it that also
    returns the requests it sends to the backend ([dash_request]: the
    [apiService] and [websocketService] calls).  The handlers receive the
    backend's payloads as the backend builds them
    ([StateManager.status], [Gateway.sensor_data]), so the theorems can
    relate the page to the server state.  The JSX markup is not modelled,
    except the click handler of the pump button and the status text. *)

From S2P Require Import Prelude Json Gateway StateManager.
From Stdlib Require Import Sorted.

Open Scope irr_scope.
Open Scope Z_scope.

Module Dashboard.

(** [Math.ceil(ms / 1000)] for integer [ms]. *)
Definition ceil_div (a b : Z) : Z := - ((- a) / b).

(** [formatMs(ms)]. *)
Definition formatMs (ms : Z) : string :=
  if ms <=? 0 then "0s"
  else
    let s := ceil_div ms 1000 in
    if s <? 60 then pretty s ++ "s"
    else pretty (s / 60) ++ "m " ++ pretty (s mod 60) ++ "s".

Record dash_sensors := DashSensors {
  ds_temp : jsval; ds_hum : jsval; ds_soil : jsval; ds_level : jsval; ds_flow : jsval
}.

(** [stopConfirmData]. *)
Record stop_confirm := StopConfirm {
  sc_mode : string; sc_remainingMs : Z; sc_sensors : dash_sensors
}.

Record dash_state := DashState {
  d_mode : string;
  d_pumpOn : bool;
  d_sensors : dash_sensors;
  d_remainingMs : Z;
  pumpStartRef : option Z;
  pumpDurationRef : Z;
  manualDurationSec : Z;
  d_isConnected : bool;
  d_isLoading : bool;
  stopConfirmData : option stop_confirm;
  isStopSubmitting : bool
}.

(** The initial [useState] values. *)
Definition dash_init : dash_state :=
  DashState "automatic" false
    (DashSensors (Some (JNum 24)) (Some (JNum 66)) (Some (JNum 60)) (Some (JNum 56)) (Some (JNum 0)))
    0 None 0 10 false true None false.

(** Requests the page sends: [apiService.startPump(d)], [.stopPump()],
    [.setMode(m)], [websocketService.requestSensors()], [.requestStatus()]. *)
Inductive dash_request :=
| ReqStart (duration : Z)
| ReqStop
| ReqSetMode (m : string)
| ReqSensors
| ReqStatus.

Definition with_sensors (d : dash_sensors) (st : dash_state) : dash_state :=
  DashState (d_mode st) (d_pumpOn st) d (d_remainingMs st) (pumpStartRef st)
            (pumpDurationRef st) (manualDurationSec st) (d_isConnected st) (d_isLoading st)
            (stopConfirmData st) (isStopSubmitting st).

Definition with_mode (m : string) (st : dash_state) : dash_state :=
  DashState m (d_pumpOn st) (d_sensors st) (d_remainingMs st) (pumpStartRef st)
            (pumpDurationRef st) (manualDurationSec st) (d_isConnected st) (d_isLoading st)
            (stopConfirmData st) (isStopSubmitting st).

Definition with_remaining (r : Z) (st : dash_state) : dash_state :=
  DashState (d_mode st) (d_pumpOn st) (d_sensors st) r (pumpStartRef st)
            (pumpDurationRef st) (manualDurationSec st) (d_isConnected st) (d_isLoading st)
            (stopConfirmData st) (isStopSubmitting st).

Definition with_confirm (c : option stop_confirm) (st : dash_state) : dash_state :=
  DashState (d_mode st) (d_pumpOn st) (d_sensors st) (d_remainingMs st) (pumpStartRef st)
            (pumpDurationRef st) (manualDurationSec st) (d_isConnected st) (d_isLoading st)
            c (isStopSubmitting st).

(** [handleSensorUpdate(data)]: each reading is [data.x || 0]. *)
Definition handleSensorUpdate (d : sensor_data) (st : dash_state) : dash_state :=
  let z := Some (JNum 0) in
  with_sensors (DashSensors (temp d ||| z) (hum d ||| z) (soil d ||| z) (level d ||| z)
                            (flow d ||| z)) st.

(** [handleStatusUpdate(data)]. *)
Definition handleStatusUpdate (s : status) (st : dash_state) : dash_state :=
  let '(start, dur) :=
    match st_pumpStartTime s with
    | Some t => if t =? 0 then (None, 0) else (Some t, st_pumpDuration s)
    | None => (None, 0)
    end in
  DashState (mode_name (st_mode s)) (st_pumpOn s) (d_sensors st) (st_remainingTime s)
            start dur (manualDurationSec st) (d_isConnected st) (d_isLoading st)
            (stopConfirmData st) (isStopSubmitting st).

(** [handleModeUpdate(data)]: [setMode(data.mode || "automatic")]. *)
Definition handleModeUpdate (m : op_mode) (st : dash_state) : dash_state :=
  with_mode (mode_name m) st.

(** [handleConnect()]: connected, loaded, and asks for a snapshot. *)
Definition handleConnect (st : dash_state) : dash_state * list dash_request :=
  (DashState (d_mode st) (d_pumpOn st) (d_sensors st) (d_remainingMs st) (pumpStartRef st)
             (pumpDurationRef st) (manualDurationSec st) true false
             (stopConfirmData st) (isStopSubmitting st), [ReqSensors; ReqStatus]).

(** The automatic-rules effect: in mode ["automatic"], soil below 40,
    level above 20 and the pump off, [handleAutoStart()] requests an 8 s
    start. *)
Definition auto_rule (st : dash_state) : list dash_request :=
  if String.eqb (d_mode st) "automatic"
     && js_lt_num (ds_soil (d_sensors st)) 40 && js_gt_num (ds_level (d_sensors st)) 20
     && negb (d_pumpOn st)
  then [ReqStart 8] else [].

(** One tick (every 250 ms) of the remaining-time interval. *)
Definition countdown_tick (now : Z) (st : dash_state) : dash_state :=
  if d_pumpOn st && (0 <? d_remainingMs st) then
    match pumpStartRef st with
    | Some t => with_remaining (Z.max 0 (pumpDurationRef st - (now - t))) st
    | None => st
    end
  else st.

(** The interval's callbacks at the times [ticks].  The effect keeps an
    interval only while [pumpOn && remainingMs > 0] and re-creates it
    whenever [remainingMs] changes; [countdown_tick]'s guard is that
    lifetime: a tick at a time when no interval exists changes nothing. *)
Definition countdown_run (ticks : list Z) (st : dash_state) : dash_state :=
  fold_left (fun st t => countdown_tick t st) ticks st.

(** [startPump(modeLabel, durationSec)]: nothing while the pump runs. *)
Definition startPump (durationSec : Z) (st : dash_state) : list dash_request :=
  if d_pumpOn st then [] else [ReqStart durationSec].

(** [handleManualStart()]: [startPump("manual", manualDurationSec)]. *)
Definition handleManualStart (st : dash_state) : list dash_request := startPump (manualDurationSec st) st.

(** The start button's [onClick]: [handleManualStart()] in manual mode,
    [startPump("automatic", 8)] otherwise (the button is disabled in AI
    mode). *)
Definition start_button_click (st : dash_state) : list dash_request :=
  if String.eqb (d_mode st) "manual" then handleManualStart st
  else startPump 8 st.

(** [requestStopPump(modeLabel)]. *)
Definition requestStopPump (label : string) (st : dash_state) : dash_state :=
  if d_pumpOn st then with_confirm (Some (StopConfirm label (d_remainingMs st) (d_sensors st))) st
  else st.

(** [handleCancelStop()]. *)
Definition handleCancelStop (st : dash_state) : dash_state :=
  if isStopSubmitting st then st else with_confirm None st.

(** [stopPumpEarly]'s history duration: [result.runTime || (Date.now() - start)]. *)
Definition history_duration (result : json) (now : Z) (st : dash_state) : jsval :=
  js_get result "runTime" ||| Some (JNum (now - default now (pumpStartRef st))).

(** [handleModeToggle()]: the mode after the current one in
    [["manual", "automatic", "ai"]]; [indexOf] gives [-1] for another string. *)
Definition modes : list string := ["manual"; "automatic"; "ai"].

Fixpoint index_of (x : string) (l : list string) : Z :=
  match l with
  | [] => -1
  | y :: rest => if String.eqb x y then 0 else
                 let i := index_of x rest in if i =? -1 then -1 else i + 1
  end.

Definition handleModeToggle (st : dash_state) : list dash_request :=
  let i := index_of (d_mode st) modes in
  [ReqSetMode (default "manual" (modes !! Z.to_nat ((i + 1) mod 3)))].

(** The status text under the pump. *)
Definition statusText (st : dash_state) : string :=
  if d_pumpOn st then "Watering — remaining " ++ formatMs (d_remainingMs st)
  else "Not watering".

(** The success branch of [fetchInitialData], run when both
    [apiService.getSensors()] and [apiService.getStatus()] have answered:
    the readings as in [handleSensorUpdate], the pump flag, mode and
    remaining time of the snapshot, and [pumpStartRef] only when the
    snapshot's start time is truthy ([pumpDurationRef] is not touched). *)
Definition handleInitialData (sd : sensor_data) (s : status) (st : dash_state) : dash_state :=
  let z := Some (JNum 0) in
  let start :=
    match st_pumpStartTime s with
    | Some t => if t =? 0 then pumpStartRef st else Some t
    | None => pumpStartRef st
    end in
  DashState (mode_name (st_mode s)) (st_pumpOn s)
            (DashSensors (temp sd ||| z) (hum sd ||| z) (soil sd ||| z) (level sd ||| z)
                         (flow sd ||| z))
            (st_remainingTime s) start (pumpDurationRef st) (manualDurationSec st)
            (d_isConnected st) false (stopConfirmData st) (isStopSubmitting st).

(** [fetchInitialData()] when its two requests settle: both answers
    ([handleInitialData]), or the [catch], which only clears [isLoading]. *)
Definition fetchInitialData (res : option (sensor_data * status)) (st : dash_state) : dash_state :=
  match res with
  | Some (sd, s) => handleInitialData sd s st
  | None => DashState (d_mode st) (d_pumpOn st) (d_sensors st) (d_remainingMs st) (pumpStartRef st)
                      (pumpDurationRef st) (manualDurationSec st) (d_isConnected st) false
                      (stopConfirmData st) (isStopSubmitting st)
  end.

End Dashboard.

(** ** Properties *)

Import Dashboard.

(** The page's countdown inputs are the server's: its pump flag, and the
    start and duration refs of a cycle the server counts down (no start
    ref when the server's remaining time is 0 throughout). *)
Definition tracks (s : system_state) (st : dash_state) : Prop :=
  d_pumpOn st = pumpOn s /\
  match pumpStartRef st with
  | Some t => pumpStartTime s = Some t /\ t <> 0 /\ pumpDurationRef st = pumpDuration s
  | None => forall x, remainingTime s x = 0
  end.

Lemma tracks_status s now st : tracks s (handleStatusUpdate (status_of s now) st).
Proof.
  unfold tracks, handleStatusUpdate, status_of. cbn [st_pumpStartTime st_pumpOn st_pumpDuration].
  unfold remainingTime. destruct (pumpStartTime s) as [t|]; [|done].
  destruct (Z.eqb_spec t 0) as [->|Ht]; cbn; [|done]. split; [done|]. intros x. by destruct (pumpOn s).
Qed.

Lemma status_fields s now st :
  let st' := handleStatusUpdate (status_of s now) st in
  d_pumpOn st' = pumpOn s /\ d_mode st' = mode_name (mode s) /\ d_remainingMs st' = remainingTime s now.
Proof.
  unfold handleStatusUpdate, status_of. cbn [st_pumpStartTime].
  destruct (pumpStartTime s) as [t|]; [destruct (t =? 0)|]; done.
Qed.

Lemma remainingTime_off s x : pumpOn s = false -> remainingTime s x = 0.
Proof. intros Hoff. unfold remainingTime. rewrite Hoff. by destruct (pumpStartTime s). Qed.

(** A tick at a later time [y] keeps the page tracking the server and
    shows the server's remaining time at [y]. *)
Lemma countdown_tick_tracks s st x y :
  tracks s st -> d_remainingMs st = remainingTime s x -> x <= y ->
  tracks s (countdown_tick y st) /\ d_remainingMs (countdown_tick y st) = remainingTime s y.
Proof.
  intros [Hon Href] Hx Hxy. pose proof (remainingTime_mono s x y Hxy). pose proof (remainingTime_nonneg s y).
  unfold countdown_tick. destruct (d_pumpOn st && (0 <? d_remainingMs st)) eqn:Hg.
  - apply andb_true_iff in Hg as [Hp Hr%Z.ltb_lt]. destruct (pumpStartRef st) as [t|] eqn:Ht.
    + destruct Href as (Hs & Ht0 & Hd). split; [unfold tracks; cbn; by rewrite Ht|].
      cbn. unfold remainingTime. rewrite Hs, <-Hon, Hp, Hd. cbn. by rewrite (proj2 (Z.eqb_neq t 0) Ht0).
    + rewrite Hx, Href in Hr. lia.
  - split; [by split|]. apply andb_false_iff in Hg as [Hp|Hr%Z.ltb_ge].
    + rewrite Hon in Hp. by rewrite Hx, !remainingTime_off.
    + lia.
Qed.

Lemma countdown_run_tracks s st x ticks :
  tracks s st -> d_remainingMs st = remainingTime s x -> Sorted Z.le (x :: ticks) ->
  d_remainingMs (countdown_run ticks st) = remainingTime s (List.last ticks x).
Proof.
  revert st x. induction ticks as [|y ticks IH]; intros st x Ht Hx Hs; [done|].
  apply Sorted_inv in Hs as [Hs Hh]. apply HdRel_inv in Hh.
  destruct (countdown_tick_tracks s st x y Ht Hx Hh) as [Ht' Hx'].
  change (countdown_run (y :: ticks) st) with (countdown_run ticks (countdown_tick y st)).
  rewrite (IH _ y Ht' Hx' Hs). destruct ticks as [|z ticks]; [done|]. by rewrite (last_cons_default z ticks y x).
Qed.

(** C36: the page mirrors the server: after handling the [status_update]
    the backend emits for state [s] at time [now], its pump flag, mode and
    remaining time are the server's, and its countdown, whose interval
    lives while the pump runs and the remaining time is positive, shows
    after any later ticks exactly the server's [remainingTime] at the last
    one: it never runs ahead of or lags behind the server, and stops at 0. *)
Theorem countdown_matches_server s now st :
  let st' := handleStatusUpdate (status_of s now) st in
  d_pumpOn st' = pumpOn s /\ d_mode st' = mode_name (mode s) /\
  d_remainingMs st' = remainingTime s now /\
  forall ticks, Sorted Z.le (now :: ticks) ->
    d_remainingMs (countdown_run ticks st') = remainingTime s (List.last ticks now).
Proof.
  intros st'. destruct (status_fields s now st) as (H1 & H2 & H3). split_and!; [done..|].
  intros ticks Hs. by apply countdown_run_tracks; [apply tracks_status|..].
Qed.

Lemma auto_rule_fires st :
  auto_rule st = [ReqStart 8] -> d_mode st = "automatic" /\ d_pumpOn st = false.
Proof.
  unfold auto_rule. destruct (String.eqb_spec (d_mode st) "automatic"), (d_pumpOn st);
    rewrite ?andb_false_r; simpl; try done; by destruct (_ && _).
Qed.

Lemma handleStatusUpdate_mirror s st :
  d_mode (handleStatusUpdate s st) = mode_name (st_mode s) /\
  d_pumpOn (handleStatusUpdate s st) = st_pumpOn s.
Proof. unfold handleStatusUpdate. destruct (st_pumpStartTime s) as [t|]; [destruct (t =? 0)|]; done. Qed.

(** when the page's mirror is up to date (it handled the backend's
    last [status_update]) and its automatic rule fires, the backend
    accepts the 8 s start it requests and arms the auto-stop for 8000 ms. *)
Theorem auto_rule_accepted st w :
  let st' := handleStatusUpdate (status_of (sys w) (clock w)) st in
  auto_rule st' = [ReqStart 8] ->
  http_status (fst (post_pump_start (Some 8) w)) = 200 /\
  timers (snd (post_pump_start (Some 8) w)) = timers w ++ [clock w + 8000].
Proof.
  intros st' Hr. subst st'. destruct (auto_rule_fires _ Hr) as [Hm Hon].
  destruct (handleStatusUpdate_mirror (status_of (sys w) (clock w)) st) as [Hm' Hon'].
  rewrite Hm in Hm'. rewrite Hon in Hon'. simpl in Hm', Hon'.
  assert (mode (sys w) = Automatic) as Hauto by (destruct (mode (sys w)); done).
  unfold post_pump_start. rewrite Hauto, <-Hon'. simpl.
  rewrite timers_startPumpInternal, Hauto. done.
Qed.

Lemma index_of_modes m : index_of (mode_name m) modes = match m with Manual => 0 | Automatic => 1 | AI => 2 end.
Proof. by destruct m. Qed.

(** the mode toggle always requests one of the three modes the
    backend accepts (the mode after the current one, [manual] after an
    unknown string), and three toggles return to the starting mode. *)
Theorem mode_toggle_valid st :
  exists m, handleModeToggle st = [ReqSetMode (mode_name m)] /\
            parse_mode (Some (JStr (mode_name m))) = Some m /\
            (index_of (d_mode st) modes = -1 -> m = Manual) /\
            (forall m0, d_mode st = mode_name m0 ->
               let t st0 := match handleModeToggle st0 with [ReqSetMode x] => with_mode x st0 | _ => st0 end in
               d_mode (t (t (t st))) = mode_name m0).
Proof.
  unfold handleModeToggle.
  assert (Hidx : index_of (d_mode st) modes = -1 \/ exists m0, d_mode st = mode_name m0).
  { unfold modes. simpl. destruct (String.eqb_spec (d_mode st) "manual") as [->|]; [right; by exists Manual|].
    destruct (String.eqb_spec (d_mode st) "automatic") as [->|]; [right; by exists Automatic|].
    destruct (String.eqb_spec (d_mode st) "ai") as [->|]; [right; by exists AI|]. by left. }
  destruct Hidx as [Hi|[m0 Hm0]].
  - exists Manual. rewrite Hi. split; [reflexivity|]. split; [reflexivity|]. split; [done|].
    intros m0 Hm0. rewrite Hm0, index_of_modes in Hi. by destruct m0.
  - destruct m0; [exists AI|exists Automatic|exists Manual]; rewrite Hm0, index_of_modes;
      (split; [reflexivity|]); (split; [reflexivity|]); (split; [intros Hc; discriminate Hc|]);
      intros m1 Hm1; (destruct m1; try discriminate); simpl;
      rewrite ?Hm0; reflexivity.
Qed.

(** [formatMs] shows the smallest whole number of seconds that
    covers the remaining milliseconds, as ["<s>s"] below a minute and
    as ["<m>m <r>s"] with [m * 60 + r] seconds and [r < 60] from a minute
    on; zero and negative values show ["0s"]. *)
Theorem formatMs_ceil ms :
  (ms <= 0 -> formatMs ms = "0s") /\
  (0 < ms ->
   let s := ceil_div ms 1000 in
   (s - 1) * 1000 < ms <= s * 1000 /\
   (s < 60 -> formatMs ms = (pretty s ++ "s")%string) /\
   (60 <= s -> exists m r, formatMs ms = (pretty m ++ "m " ++ pretty r ++ "s")%string /\
                           m * 60 + r = s /\ 0 <= r < 60)).
Proof.
  unfold formatMs, ceil_div. split; [intros H; by rewrite (proj2 (Z.leb_le _ _) H)|].
  intros Hpos. rewrite (proj2 (Z.leb_gt _ _) Hpos). simpl.
  pose proof (Z.div_mod (- ms) 1000 ltac:(lia)). pose proof (Z.mod_pos_bound (- ms) 1000 ltac:(lia)).
  split; [lia|]. split.
  - intros Hs. by rewrite (proj2 (Z.ltb_lt _ _) Hs).
  - intros Hs. rewrite (proj2 (Z.ltb_ge _ _) Hs).
    exists (- (- ms / 1000) / 60), (- (- ms / 1000) mod 60). split; [done|].
    pose proof (Z.div_mod (- (- ms / 1000)) 60 ltac:(lia)).
    pose proof (Z.mod_pos_bound (- (- ms / 1000)) 60 ltac:(lia)). lia.
Qed.

(** the backend's answer to a stop request carries no [runTime], so
    the duration the page records in its history is always its own
    [Date.now()] minus the start time it mirrored, not the run time the
    backend computed and published. *)
Theorem stop_history_uses_client_clock w now st :
  pumpOn (sys w) = true ->
  history_duration (snd (response_json (fst (post_pump_stop w)) (sys w))) now st =
    Some (JNum (now - default now (pumpStartRef st))).
Proof. intros Hon. unfold post_pump_stop. by rewrite Hon. Qed.

(** ** Examples *)

Lemma countdown_matches_server_witness :
  d_remainingMs (countdown_run [5250; 5500; 7000; 20000; 20250]
    (handleStatusUpdate (status_of (sys (sample_world true Manual)) 5000) dash_init))
  = remainingTime (sys (sample_world true Manual)) 20250.
Proof.
  destruct (countdown_matches_server (sys (sample_world true Manual)) 5000 dash_init)
    as (_ & _ & _ & H).
  apply (H [5250; 5500; 7000; 20000; 20250]). repeat constructor; lia.
Defined.

Lemma auto_rule_accepted_witness :
  http_status (fst (post_pump_start (Some 8) (sample_world false Automatic))) = 200.
Proof.
  destruct (auto_rule_accepted
              (handleSensorUpdate (SensorData None None (Some (JNum 15)) (Some (JNum 50))
                                              None None 0) dash_init)
              (sample_world false Automatic)) as [H _]; [vm_compute; reflexivity|]. exact H.
Defined.

Lemma mode_toggle_valid_witness :
  exists m, handleModeToggle dash_init = [ReqSetMode (mode_name m)] /\
            parse_mode (Some (JStr (mode_name m))) = Some m.
Proof.
  destruct (mode_toggle_valid dash_init) as (m & H1 & H2 & _). exists m. split; [exact H1|exact H2].
Defined.

Lemma formatMs_ceil_witness :
  (ceil_div 61500 1000 - 1) * 1000 < 61500 <= ceil_div 61500 1000 * 1000.
Proof. destruct (formatMs_ceil 61500) as [_ H]. destruct (H ltac:(lia)) as [Hb _]. exact Hb. Defined.

Lemma stop_history_uses_client_clock_witness :
  history_duration (snd (response_json (fst (post_pump_stop (sample_world true Manual)))
                                       (sys (sample_world true Manual)))) 9000
    (handleStatusUpdate (status_of (sys (sample_world true Manual)) 5000) dash_init)
  = Some (JNum (9000 - 1000)).
Proof. apply (stop_history_uses_client_clock (sample_world true Manual)). reflexivity. Defined.
