(* ===== verification/Refinement.v ===== *)
(** * Abstract specification of the mode/pump state machine and its
    refinement by the backend.

    The specification's state machine (mode x pump) is [abs_state]; its
    operations are those the specification names: an explicit start
    ([AStartApi], refused in AI mode or while running), a start on the AI
    trigger path ([AStartAi], refused while running), a stop, the
    auto-stop timer (acts only on a running pump outside AI mode) and a
    mode change (entering AI forces the pump off).  [ops_of] says which
    abstract operations an event of the backend performs, and
    [run_event_refines] shows that every event moves the backend's
    (mode, pumpOn) exactly as the abstract machine does. *)

From S2P Require Import Prelude Json Gateway AiAdapter Hub StateManager System.

Open Scope irr_scope.
Open Scope Z_scope.

Record abs_state := Abs { a_mode : op_mode; a_on : bool }.

Inductive abs_op :=
| AStartApi
| AStartAi
| AStop
| ATimer
| ASetMode (m : op_mode).

Definition abs_step (op : abs_op) (a : abs_state) : abs_state :=
  match op with
  | AStartApi => if is_ai (a_mode a) || a_on a then a else Abs (a_mode a) true
  | AStartAi => if a_on a then a else Abs (a_mode a) true
  | AStop => Abs (a_mode a) false
  | ATimer => if a_on a && negb (is_ai (a_mode a)) then Abs (a_mode a) false else a
  | ASetMode m => Abs m (if is_ai m then false else a_on a)
  end.

Definition abs_run (ops : list abs_op) (a : abs_state) : abs_state :=
  fold_left (fun acc op => abs_step op acc) ops a.

(** The abstraction of a backend state. *)
Definition abs_of (w : world) : abs_state := Abs (mode (sys w)) (pumpOn (sys w)).

(** The abstract operations an event performs; an AI close performs the
    one its resolved action selects. *)
Definition ops_of (e : event) : list abs_op :=
  match e with
  | EvPostMode m => match parse_mode m with Some m' => [ASetMode m'] | None => [] end
  | EvPostStart _ => [AStartApi]
  | EvPostStop => [AStop]
  | EvAiClose _ out =>
      let a := askPythonAI_result out in
      if js_eq_num a 1 then [AStartAi] else if js_eq_num a 0 then [AStop] else []
  | EvTimerFire _ => [ATimer]
  | _ => []
  end.

Lemma abs_run_one op a : abs_run [op] a = abs_step op a.
Proof. reflexivity. Qed.

Lemma abs_of_start w d r : abs_of (startPumpInternal d r w) = Abs (mode (sys w)) true.
Proof. unfold abs_of. by rewrite sys_startPumpInternal. Qed.

Lemma abs_of_stop w r : abs_of (stopPumpInternal r w) = Abs (mode (sys w)) false.
Proof. reflexivity. Qed.

Lemma abs_of_mqtt_message w t p : abs_of (on_mqtt_message t p w) = abs_of w.
Proof.
  unfold on_mqtt_message, abs_of. destruct (negb _); [done|].
  destruct p; [|done]. destruct (update_sensors _ _ _); [|done]. simpl. by destruct (is_ai _).
Qed.

Lemma js_eq_num_1_0 a : js_eq_num a 1 = true -> js_eq_num a 0 = false.
Proof. destruct a as [[]|]; simpl; try done. intros H. apply Z.eqb_eq in H as ->. done. Qed.

Lemma abs_of_ai_continue w a :
  abs_of (ai_continue a w) =
    abs_run (if js_eq_num a 1 then [AStartAi] else if js_eq_num a 0 then [AStop] else []) (abs_of w).
Proof.
  unfold ai_continue, ai_decide, abs_run. simpl. pose proof (js_eq_num_1_0 a) as H10.
  destruct (js_eq_num a 1), (pumpOn (sys w)) eqn:Hon, (js_eq_num a 0); simpl;
    try (specialize (H10 eq_refl); discriminate);
    rewrite ?abs_of_start, ?abs_of_stop; unfold abs_of; rewrite ?Hon; done.
Qed.

Lemma abs_of_auto_stop w : abs_of (auto_stop_callback w) = abs_step ATimer (abs_of w).
Proof.
  unfold auto_stop_callback. simpl. destruct (pumpOn (sys w) && _); [apply abs_of_stop|done].
Qed.

Lemma run_event_abs e w w' :
  run_event e w = Some w' -> abs_of w' = abs_run (ops_of e) (abs_of w).
Proof.
  destruct e; intros Hrun; cbn [run_event] in Hrun; cbn [ops_of];
    repeat match type of Hrun with
    | context [match ?x with _ => _ end] => destruct x eqn:?
    | context [if ?b then _ else _] => destruct b eqn:?
    end; simplify_eq; rewrite ?abs_run_one; try reflexivity.
  - (* POST /api/mode *)
    unfold post_mode. destruct (parse_mode m) as [m'|]; [|done].
    rewrite abs_run_one. cbn [snd].
    destruct (is_ai m') eqn:Hai, (pumpOn (sys w)) eqn:Hon; unfold abs_of, abs_step; cbn;
      rewrite ?Hai, ?Hon; done.
  - (* POST /api/pump/start *)
    unfold post_pump_start, abs_step, abs_of. cbn [a_mode a_on].
    destruct (is_ai (mode (sys w))) eqn:Hai; [done|]. destruct (pumpOn (sys w)) eqn:Hon; [cbn; by rewrite Hon|].
    cbn [snd orb]. rewrite sys_startPumpInternal. done.
  - (* POST /api/pump/stop *)
    unfold post_pump_stop, abs_step, abs_of. cbn [a_mode a_on]. destruct (pumpOn (sys w)) eqn:Hon; [done|]. cbn. by rewrite Hon.
  - apply abs_of_mqtt_message.
  - rewrite abs_of_ai_continue. reflexivity.
  - rewrite abs_of_auto_stop. reflexivity.
Qed.

(** C8: every event the backend can run moves its (mode, pumpOn) exactly
    as the specification's state machine does under the abstract
    operations the event performs: the start route is the explicit start,
    the AI continuation the AI-trigger start or a stop, the timer the
    auto-stop, the mode route a mode change, and every other event leaves
    mode and pump alone. *)
Theorem run_event_refines e w w' :
  run_event e w = Some w' -> abs_of w' = abs_run (ops_of e) (abs_of w).
Proof. apply run_event_abs. Qed.

(** ** Examples *)

Lemma run_event_refines_witness :
  abs_of (default demo_init (run_event (EvPostMode (Some (JStr "ai"))) (trace_world restart_trace)))
  = abs_run [ASetMode AI] (abs_of (trace_world restart_trace)).
Proof.
  apply (run_event_refines (EvPostMode (Some (JStr "ai")))). vm_compute. reflexivity.
Defined.

