(* ===== verification/Ordering.v ===== *)
(** * Order of delivery to Socket.IO observers.

    Every handler of the backend changes the hub only through [io.emit]
    (to all observers) and, in the Socket.IO handlers, through
    [socket.emit] to the requesting socket, connection and
    disconnection.  [hub_step P w w'] says that [w'] is [w] after a list
    of hub operations each satisfying [P]; [run_event_hub_step] shows it
    for every event with [P] the operations that treat two observers alike
    unless the event concerns one of them.  With the fan-out lemma of
    [Hub.v] (proved against the [Broadcast] interface) this gives the
    ordering guarantee: two observers connected throughout a run receive
    the same events in the same order. *)

From S2P Require Import Prelude Json Gateway AiAdapter Hub StateManager System.
Import IoHub.

Open Scope Z_scope.

Definition hub_step (P : hub_op io_event -> Prop) (w w' : world) : Prop :=
  exists ops, Forall P ops /\ hub w' = hub_run ops (hub w).

(** The operation treats [s1] and [s2] alike and neither joins nor leaves. *)
Definition neutral (s1 s2 : nat) (op : hub_op io_event) : Prop :=
  stays s1 op /\ stays s2 op /\ addressed s1 op = addressed s2 op.

(** The event is not a connection, disconnection or [get_sensors] request
    of [s1] or [s2]. *)
Definition avoids (s1 s2 : nat) (e : event) : Prop :=
  match e with
  | EvIoConnect id | EvIoDisconnect id | EvGetSensors id => id <> s1 /\ id <> s2
  | _ => True
  end.

(** Close [hub_step] goals whose hub changes by at most two broadcasts. *)
Ltac hub_emits :=
  first [ exists []; split; [constructor|reflexivity]
        | eexists [HEmit _]; split; [repeat constructor; auto|reflexivity]
        | eexists [HEmit _; HEmit _]; split; [repeat constructor; auto|reflexivity] ].

Section Steps.
Context (P : hub_op io_event -> Prop) (HP : forall e, P (HEmit e)).

Lemma hub_step_trans w1 w2 w3 : hub_step P w1 w2 -> hub_step P w2 w3 -> hub_step P w1 w3.
Proof.
  intros (o1 & H1 & E1) (o2 & H2 & E2). exists (o1 ++ o2).
  split; [by apply Forall_app|]. rewrite E2, E1. unfold hub_run. by rewrite fold_left_app.
Qed.

Lemma hub_step_start w d r : hub_step P w (startPumpInternal d r w).
Proof. unfold startPumpInternal. destruct (is_ai _); hub_emits. Qed.

Lemma hub_step_stop w r : hub_step P w (stopPumpInternal r w).
Proof. hub_emits. Qed.

Lemma hub_step_auto_stop w : hub_step P w (auto_stop_callback w).
Proof. unfold auto_stop_callback. case_match; hub_emits. Qed.

Lemma hub_step_ai_continue w a : hub_step P w (ai_continue a w).
Proof. unfold ai_continue. case_match; [apply hub_step_start|apply hub_step_stop|hub_emits]. Qed.

Lemma hub_step_post_mode w m : hub_step P w (snd (post_mode m w)).
Proof.
  unfold post_mode. destruct (parse_mode m) as [m'|]; [|hub_emits].
  simpl. destruct (_ && _); hub_emits.
Qed.

Lemma hub_step_post_start w d : hub_step P w (snd (post_pump_start d w)).
Proof.
  unfold post_pump_start. destruct (is_ai _); [hub_emits|].
  destruct (pumpOn _); [hub_emits|apply hub_step_start].
Qed.

Lemma hub_step_post_stop w : hub_step P w (snd (post_pump_stop w)).
Proof. unfold post_pump_stop. destruct (negb _); hub_emits. Qed.

Lemma hub_step_mqtt_message w t p : hub_step P w (on_mqtt_message t p w).
Proof.
  unfold on_mqtt_message. destruct (negb _); [hub_emits|].
  destruct p; [|hub_emits]. destruct (update_sensors _ _ _); [|hub_emits].
  simpl. destruct (is_ai _); hub_emits.
Qed.
End Steps.

Lemma neutral_emit s1 s2 e : neutral s1 s2 (HEmit e).
Proof. repeat split. Qed.

Lemma neutral_other s1 s2 id e :
  id <> s1 -> id <> s2 ->
  neutral s1 s2 (HAttach id) /\ neutral s1 s2 (HDetach id) /\ neutral s1 s2 (HEmitTo id e).
Proof.
  intros H1 H2. unfold neutral; simpl. repeat split; try congruence.
  by rewrite !decide_False.
Qed.

Lemma run_event_hub_step s1 s2 e w w' :
  avoids s1 s2 e -> run_event e w = Some w' -> hub_step (neutral s1 s2) w w'.
Proof.
  pose proof (neutral_emit s1 s2) as HE.
  destruct e as [| | | | | | | | |d|id|id|id|id]; simpl; intros Hav Hrun;
    repeat match type of Hrun with
    | context [match ?x with _ => _ end] => destruct x eqn:?
    | context [if ?b then _ else _] => destruct b eqn:?
    end; simplify_eq/=;
    try solve [eauto using hub_step_post_mode, hub_step_post_start, hub_step_post_stop,
                     hub_step_mqtt_message];
    try hub_emits.
  - exact (hub_step_ai_continue _ HE (set_ai_pending (remove_nth i (ai_pending w)) w) _).
  - exact (hub_step_auto_stop _ HE (set_timers (remove_nth i (timers w)) w)).
  - destruct Hav as [H1 H2].
    destruct (neutral_other s1 s2 id (SensorUpdate (sensors w)) H1 H2) as (Ha & _ & Ht).
    exists [HAttach id; HEmitTo id (SensorUpdate (sensors w));
            HEmit (StatusUpdate (status_of (sys w) (clock w)))].
    split; [repeat (constructor; [auto|]); constructor|done].
  - destruct Hav as [H1 H2].
    destruct (neutral_other s1 s2 id (SensorUpdate (sensors w)) H1 H2) as (_ & Hd & _).
    exists [HDetach id]. split; [repeat (constructor; [auto|]); constructor|done].
  - destruct Hav as [H1 H2].
    destruct (neutral_other s1 s2 id (SensorUpdate (sensors w)) H1 H2) as (_ & _ & Ht).
    exists [HEmitTo id (SensorUpdate (sensors w))]. split; [repeat (constructor; [auto|]); constructor|done].
Qed.

Lemma run_trace_hub_step s1 s2 evs w w' :
  Forall (avoids s1 s2) evs -> run_trace evs w = Some w' -> hub_step (neutral s1 s2) w w'.
Proof.
  revert w. induction evs as [|e evs IH]; intros w Hav Hrun; simpl in Hrun.
  - injection Hrun as <-. exists []. split; [constructor|done].
  - apply Forall_cons in Hav as [He Hevs].
    destruct (run_event e w) as [w1|] eqn:Hr; [|done].
    eapply hub_step_trans; [eapply run_event_hub_step; eauto|by apply IH].
Qed.

Lemma neutral_addressed s1 s2 ops :
  Forall (neutral s1 s2) ops -> mjoin (addressed s1 <$> ops) = mjoin (addressed s2 <$> ops).
Proof.
  induction 1 as [|op ops (_ & _ & Hop) _ IH]; [done|]. csimpl. by rewrite Hop, IH.
Qed.

(** C18: two observers connected when a run of the backend starts, and
    neither disconnected nor sent an individual [sensor_update] by it,
    receive the same events, in the same order, during the whole run
    (the ordering guarantee of the broadcast hub). *)
Theorem observers_same_order s1 s2 evs w w' :
  s1 ∈ observers (hub w) -> s2 ∈ observers (hub w) ->
  Forall (avoids s1 s2) evs -> run_trace evs w = Some w' ->
  exists X, received (hub w') s1 = received (hub w) s1 ++ X /\
            received (hub w') s2 = received (hub w) s2 ++ X.
Proof.
  intros H1 H2 Hav Hrun. destruct (run_trace_hub_step _ _ _ _ _ Hav Hrun) as (ops & Hops & ->).
  exists (mjoin (addressed s1 <$> ops)). split.
  - apply received_hub_run; [|done]. eapply Forall_impl; [exact Hops|]. by intros ? [? _].
  - rewrite (neutral_addressed _ _ _ Hops). apply received_hub_run; [|done].
    eapply Forall_impl; [exact Hops|]. by intros ? (_ & ? & _).
Qed.

(** ** Examples *)

Lemma observers_same_order_witness :
  exists X,
    received (hub (trace_world ([EvIoConnect 1; EvIoConnect 2] ++ restart_trace))) 1 =
      received (hub (trace_world [EvIoConnect 1; EvIoConnect 2])) 1 ++ X /\
    received (hub (trace_world ([EvIoConnect 1; EvIoConnect 2] ++ restart_trace))) 2 =
      received (hub (trace_world [EvIoConnect 1; EvIoConnect 2])) 2 ++ X.
Proof.
  apply (observers_same_order 1 2 restart_trace (trace_world [EvIoConnect 1; EvIoConnect 2])).
  - apply (bool_decide_unpack _). vm_compute. reflexivity.
  - apply (bool_decide_unpack _). vm_compute. reflexivity.
  - repeat constructor.
  - vm_compute. reflexivity.
Defined.
