(* ===== verification/Mirror.v ===== *)
(** * The page and the server together: the dashboard's mirror of [systemState].

    [SmartWateringDashboard] registers [handleSensorUpdate],
    [handleStatusUpdate] and [handleModeUpdate] with [websocketService]
    for the three events the backend emits; [dash_handle] dispatches one
    event to its listener and [dash_replay] runs a socket's received events
    through them, in order.  [synced w] says that every connected page,
    whatever its state when it connected, mirrors [systemState] (pump flag,
    mode name, start and duration refs) once it has handled what it
    received.  It holds initially and every event preserves it, because
    each handler of [server.js] that changes [systemState] ends with
    [emitSystemState()] or, for a mode change, [io.emit('mode_update')].
    The page's own HTTP fetch of a snapshot ([fetchInitialData]) is outside
    this guarantee: a late answer overwrites a newer mirror. *)

From S2P Require Import Prelude Json Gateway AiAdapter Hub StateManager System Dashboard.
Import IoHub Dashboard.

Open Scope Z_scope.

(** The [websocketService.on] registrations of the page's mount effect. *)
Definition dash_handle (e : io_event) (st : dash_state) : dash_state :=
  match e with
  | SensorUpdate d => handleSensorUpdate d st
  | StatusUpdate s => handleStatusUpdate s st
  | ModeUpdate m => handleModeUpdate m st
  end.

Definition dash_replay (evs : list io_event) (st : dash_state) : dash_state :=
  fold_left (fun st e => dash_handle e st) evs st.

(** The part of the page's state that mirrors [systemState]. *)
Definition dash_mirror (st : dash_state) : bool * string * option Z * Z :=
  (d_pumpOn st, d_mode st, pumpStartRef st, pumpDurationRef st).

(** What the page should show for [s]: a start time of [0] is falsy. *)
Definition start_ref (s : system_state) : option Z * Z :=
  match pumpStartTime s with
  | Some t => if t =? 0 then (None, 0) else (Some t, pumpDuration s)
  | None => (None, 0)
  end.

Definition sys_mirror (s : system_state) : bool * string * option Z * Z :=
  (pumpOn s, mode_name (mode s), fst (start_ref s), snd (start_ref s)).

Definition synced_to (h : gmap nat (list io_event)) (s : system_state) : Prop :=
  forall ob st, ob ∈ observers h -> dash_mirror (dash_replay (received h ob) st) = sys_mirror s.

Definition synced (w : world) : Prop := synced_to (hub w) (sys w).

(** ** Listeners *)

Lemma dash_replay_snoc evs e st : dash_replay (evs ++ [e]) st = dash_handle e (dash_replay evs st).
Proof. unfold dash_replay. by rewrite fold_left_app. Qed.

Lemma mirror_status s now st : dash_mirror (handleStatusUpdate (status_of s now) st) = sys_mirror s.
Proof.
  unfold handleStatusUpdate, sys_mirror, start_ref; simpl.
  destruct (pumpStartTime s) as [t|]; [destruct (t =? 0)|]; done.
Qed.

Lemma mirror_sensor d st : dash_mirror (handleSensorUpdate d st) = dash_mirror st.
Proof. done. Qed.

Lemma mirror_mode s s' st :
  dash_mirror st = sys_mirror s ->
  pumpOn s' = pumpOn s -> pumpStartTime s' = pumpStartTime s -> pumpDuration s' = pumpDuration s ->
  dash_mirror (handleModeUpdate (mode s') st) = sys_mirror s'.
Proof.
  unfold dash_mirror, sys_mirror. intros Heq Hon Ht Hd. unfold start_ref. rewrite Hon, Ht, Hd.
  destruct st; simpl in *. by simplify_eq.
Qed.

(** ** The hub operations *)

Section HubOps.
Context (h : gmap nat (list io_event)) (s : system_state).

Lemma synced_to_empty : synced_to ∅ s.
Proof. intros ob st Hin. simpl in Hin. set_solver. Qed.

Lemma synced_to_emit_status now : synced_to (emit_all (StatusUpdate (status_of s now)) h) s.
Proof.
  intros ob st Hin. rewrite observers_emit_all in Hin.
  rewrite received_emit_all, decide_True, dash_replay_snoc by done. apply mirror_status.
Qed.

Lemma synced_to_emit_sensor d : synced_to h s -> synced_to (emit_all (SensorUpdate d) h) s.
Proof.
  intros Hs ob st Hin. rewrite observers_emit_all in Hin.
  rewrite received_emit_all, decide_True, dash_replay_snoc by done. by apply Hs.
Qed.

Lemma synced_to_emit_to_sensor id d : synced_to h s -> synced_to (emit_to id (SensorUpdate d) h) s.
Proof.
  intros Hs ob st Hin. rewrite observers_emit_to in Hin.
  rewrite received_emit_to. case_decide; rewrite ?dash_replay_snoc; by apply Hs.
Qed.

Lemma synced_to_detach id : synced_to h s -> synced_to (detach id h) s.
Proof.
  intros Hs ob st Hin. rewrite observers_detach in Hin.
  rewrite received_detach_ne by set_solver. apply Hs. set_solver.
Qed.

Lemma synced_to_emit_mode s' :
  synced_to h s ->
  pumpOn s' = pumpOn s -> pumpStartTime s' = pumpStartTime s -> pumpDuration s' = pumpDuration s ->
  synced_to (emit_all (ModeUpdate (mode s')) h) s'.
Proof.
  intros Hs Hon Ht Hd ob st Hin. rewrite observers_emit_all in Hin.
  rewrite received_emit_all, decide_True, dash_replay_snoc by done.
  by apply mirror_mode with s; [apply Hs| | |].
Qed.
End HubOps.

#[export] Hint Resolve synced_to_empty synced_to_emit_status synced_to_emit_sensor
  synced_to_emit_to_sensor synced_to_detach : irr.

(** ** The handlers of [server.js] *)

Lemma synced_frame w w' : synced w -> hub w' = hub w -> sys w' = sys w -> synced w'.
Proof. unfold synced. by intros ? -> ->. Qed.

Lemma synced_emitSystemState w : synced (emitSystemState w).
Proof. apply synced_to_emit_status. Qed.

Lemma synced_stop w r : synced (stopPumpInternal r w).
Proof. apply synced_emitSystemState. Qed.

Lemma synced_start w d r : synced (startPumpInternal d r w).
Proof. unfold startPumpInternal. destruct (is_ai _); apply synced_emitSystemState. Qed.

#[local] Hint Resolve synced_emitSystemState synced_stop synced_start : irr.
#[local] Hint Extern 3 (synced _) =>
  eapply synced_frame; [eassumption|reflexivity|reflexivity] : irr.

Lemma synced_auto_stop w : synced w -> synced (auto_stop_callback w).
Proof. unfold auto_stop_callback. case_match; auto with irr. Qed.

Lemma synced_ai_continue w a : synced w -> synced (ai_continue a w).
Proof. unfold ai_continue. case_match; auto with irr. Qed.

Lemma synced_post_start w d : synced w -> synced (snd (post_pump_start d w)).
Proof. unfold post_pump_start. destruct (is_ai (mode (sys w))), (pumpOn (sys w)); simpl; auto with irr. Qed.

Lemma synced_post_stop w : synced w -> synced (snd (post_pump_stop w)).
Proof. unfold post_pump_stop. destruct (negb _); simpl; auto with irr. Qed.

Lemma synced_post_mode w m : synced w -> synced (snd (post_mode m w)).
Proof.
  unfold post_mode. destruct (parse_mode m) as [m'|]; [|done]. intros Hs. simpl.
  destruct (is_ai m' && pumpOn (sys w)).
  - eapply synced_to_emit_mode; [apply synced_stop|done..].
  - by eapply synced_to_emit_mode.
Qed.

Lemma synced_mqtt_message w t p : synced w -> synced (on_mqtt_message t p w).
Proof.
  unfold on_mqtt_message. intros Hs. destruct (negb _); [done|].
  destruct p as [data|]; [|done]. destruct (update_sensors _ _ _); [|done].
  simpl. destruct (is_ai _); by apply synced_to_emit_sensor.
Qed.

Lemma synced_io_connection w id : synced (on_io_connection id w).
Proof. apply synced_emitSystemState. Qed.

Lemma synced_io_disconnect w id : synced w -> synced (set_hub (detach id (hub w)) w).
Proof. apply synced_to_detach. Qed.

Lemma synced_get_sensors w id : synced w -> synced (on_get_sensors id w).
Proof. apply synced_to_emit_to_sensor. Qed.

#[local] Hint Resolve synced_io_disconnect synced_get_sensors synced_io_connection synced_auto_stop synced_ai_continue synced_post_start synced_post_stop
  synced_post_mode synced_mqtt_message : irr.

Lemma synced_run_event e w w' : synced w -> run_event e w = Some w' -> synced w'.
Proof.
  intros Hs. destruct e; cbv beta iota delta [run_event];
    repeat match goal with
    | |- context [match ?x with _ => _ end] => destruct x eqn:?
    | |- context [if ?b then _ else _] => destruct b eqn:?
    end; intros; simplify_eq; auto with irr.
Qed.

Lemma synced_reachable adm w : reachable adm w -> synced w.
Proof. induction 1; [apply synced_to_empty|eauto using synced_run_event]. Qed.

(** A page that mirrors the server, shows the pump off and is not in AI
    mode has its start request accepted. *)
Lemma mirror_start_accepted w st d :
  dash_mirror st = sys_mirror (sys w) -> d_pumpOn st = false -> d_mode st <> "ai" ->
  http_status (fst (post_pump_start (Some d) w)) = 200 /\
  pumpOn (sys (snd (post_pump_start (Some d) w))) = true /\
  pumpDuration (sys (snd (post_pump_start (Some d) w))) = d * 1000.
Proof.
  intros Hm Hoff Hai. unfold dash_mirror, sys_mirror in Hm. injection Hm as H1 H2 _ _.
  assert (mode (sys w) <> AI) as Hnai by (intros E; rewrite E in H2; simpl in H2; congruence).
  unfold post_pump_start. replace (is_ai (mode (sys w))) with false
    by (destruct (mode (sys w)); done).
  replace (pumpOn (sys w)) with false by congruence. simpl.
  rewrite sys_startPumpInternal. done.
Qed.

Lemma start_requests_pump_off st d :
  ReqStart d ∈ start_button_click st ++ auto_rule st -> d_pumpOn st = false.
Proof.
  unfold start_button_click, handleManualStart, startPump, auto_rule. destruct (d_pumpOn st); [|done].
  rewrite andb_false_r. destruct (String.eqb _ _); simpl; set_solver.
Qed.

(** [POST /api/pump/start] only emits to the sockets already connected. *)
Lemma observers_post_start w d : observers (hub (snd (post_pump_start d w))) = observers (hub w).
Proof.
  unfold post_pump_start, startPumpInternal, emitSystemState, io_emit.
  repeat case_match; cbn; by rewrite ?dom_fmap_L.
Qed.

(** ** Properties *)

(** C19: in every reachable state, every connected page that has handled
    the events its socket received mirrors [systemState]: its pump flag,
    its mode name and its start/duration refs are the server's, whatever
    the page's state was when it connected (no observer is left stale). *)
Theorem dashboard_mirrors_server adm w ob st :
  reachable adm w -> ob ∈ observers (hub w) ->
  let st' := dash_replay (received (hub w) ob) st in
  d_pumpOn st' = pumpOn (sys w) /\ d_mode st' = mode_name (mode (sys w)) /\
  (pumpStartRef st', pumpDurationRef st') = start_ref (sys w).
Proof.
  intros Hr Hin st'. pose proof (synced_reachable _ _ Hr ob st Hin) as Hm.
  unfold dash_mirror, sys_mirror in Hm. injection Hm as H1 H2 H3 H4.
  repeat split; [done|done|]. transitivity (fst (start_ref (sys w)), snd (start_ref (sys w))).
  - by f_equal.
  - by destruct (start_ref _).
Qed.

(** a start request that an up-to-date page sends, from its start
    button or its automatic rule, is accepted by [POST /api/pump/start]
    whenever the page's mode is not ["ai"] (the button is disabled in AI
    mode); the accepted request starts the pump for the requested
    duration. *)
Theorem synced_start_accepted adm w ob st d :
  reachable adm w -> ob ∈ observers (hub w) ->
  let st' := dash_replay (received (hub w) ob) st in
  ReqStart d ∈ start_button_click st' ++ auto_rule st' -> d_mode st' <> "ai" ->
  http_status (fst (post_pump_start (Some d) w)) = 200 /\
  pumpOn (sys (snd (post_pump_start (Some d) w))) = true /\
  pumpDuration (sys (snd (post_pump_start (Some d) w))) = d * 1000.
Proof.
  intros Hr Hin st' Hreq Hai. apply (mirror_start_accepted _ st'); [|by apply start_requests_pump_off in Hreq|done].
  apply (synced_reachable _ _ Hr ob st Hin).
Qed.

(** C22: the page's initial HTTP fetch is not ordered with the socket
    events.  In any reachable state with the pump off outside AI mode, a
    connected page that has handled its events sees an accepted
    [POST /api/pump/start] and mirrors the running pump; when the answer
    to a [GET /api/status] taken before the start then reaches its
    [fetchInitialData], the page shows the pump off while it runs (and
    keeps doing so until the next broadcast, at the end of the cycle). *)
Theorem initial_fetch_stale adm w ob st d :
  reachable adm w -> ob ∈ observers (hub w) -> pumpOn (sys w) = false -> mode (sys w) <> AI ->
  let w1 := snd (post_pump_start (Some d) w) in
  let st1 := dash_replay (received (hub w1) ob) st in
  http_status (fst (post_pump_start (Some d) w)) = 200 /\
  pumpOn (sys w1) = true /\ d_pumpOn st1 = true /\
  d_pumpOn (fetchInitialData (Some (sensors w, get_status w)) st1) = false.
Proof.
  intros Hr Hin Hoff Hai w1 st1. pose proof (synced_reachable _ _ Hr) as Hs.
  pose proof (Hs ob st Hin) as Hm.
  destruct (mirror_start_accepted w _ d Hm) as (H200 & Hon & _).
  { unfold dash_mirror, sys_mirror in Hm. congruence. }
  { pose proof (f_equal (fun x => x.1.1.2) Hm) as H2.
    cbv beta iota delta [dash_mirror sys_mirror fst snd] in H2. rewrite H2. by destruct (mode (sys w)). }
  split_and!; [done|done| |exact Hoff].
  pose proof (synced_post_start w (Some d) Hs ob st) as H1.
  rewrite observers_post_start in H1. specialize (H1 Hin).
  unfold dash_mirror, sys_mirror in H1. unfold st1, w1. congruence.
Qed.

(** ** Examples *)

Lemma dashboard_mirrors_server_witness :
  let w := trace_world ([EvIoConnect 1] ++ restart_trace) in
  let st' := dash_replay (received (hub w) 1) dash_init in
  d_pumpOn st' = pumpOn (sys w) /\ d_mode st' = mode_name (mode (sys w)) /\
  (pumpStartRef st', pumpDurationRef st') = start_ref (sys w).
Proof.
  apply (dashboard_mirrors_server (fun _ => True)).
  - apply trace_world_reachable; [repeat constructor|vm_compute; eauto].
  - apply (bool_decide_unpack _). vm_compute. reflexivity.
Defined.

Lemma synced_start_accepted_witness :
  let w := trace_world [EvIoConnect 1] in
  http_status (fst (post_pump_start (Some 8) w)) = 200 /\
  pumpOn (sys (snd (post_pump_start (Some 8) w))) = true /\
  pumpDuration (sys (snd (post_pump_start (Some 8) w))) = 8 * 1000.
Proof.
  apply (synced_start_accepted (fun _ => True) _ 1 dash_init).
  - apply trace_world_reachable; [repeat constructor|vm_compute; eauto].
  - apply (bool_decide_unpack _). vm_compute. reflexivity.
  - vm_compute. left.
  - vm_compute. intros H. discriminate H.
Defined.

(** A page connected to a fresh server sees a 5 s manual start, then
    handles the status snapshot fetched before it. *)
Lemma initial_fetch_stale_witness :
  let w := trace_world [EvIoConnect 1] in
  let st1 := dash_replay (received (hub (snd (post_pump_start (Some 5) w))) 1) dash_init in
  d_pumpOn st1 = true /\ d_pumpOn (fetchInitialData (Some (sensors w, get_status w)) st1) = false.
Proof.
  destruct (initial_fetch_stale (fun _ => True) (trace_world [EvIoConnect 1]) 1 dash_init 5)
    as (_ & _ & H1 & H2).
  - apply trace_world_reachable; [repeat constructor|vm_compute; eauto].
  - apply (bool_decide_unpack _). vm_compute. reflexivity.
  - reflexivity.
  - vm_compute. intros H. discriminate H.
  - split; [exact H1|exact H2].
Defined.
