(* ===== verification/JsonText.v ===== *)
(** * JSON text: [JSON.stringify] and [JSON.parse] on [Json.json].

    The frontend keeps its watering history in [localStorage] as JSON text
    and reads it back with [JSON.parse].  [stringify] prints a value as
    ECMAScript's [JSON.stringify] does without indentation (integers in
    decimal, strings quoted with QuoteJSONString's escapes, array elements
    and object members separated by commas, no white space).  [parse] reads
    JSON text as [JSON.parse] does (white space, literals, integers without
    leading zeros, strings with every escape, arrays, objects); it answers
    [None] where [JSON.parse] throws a [SyntaxError], and also on the two
    inputs the value type cannot hold: numbers with a fraction or an
    exponent, and [\u] escapes above [\u00ff].  The parser runs on fuel;
    [S (String.length s)] is enough, since every call consumes a character before
    it recurses, and the round trip [parse_stringify] is proved with it. *)

From S2P Require Import Prelude Json.
From Stdlib Require Import Ascii.

Open Scope Z_scope.

Definition ch (n : nat) : ascii := ascii_of_nat n.
Definition dquote : ascii := ch 34.
Definition bslash : ascii := ch 92.

(** ** Printing *)

Definition hex_digit (n : nat) : ascii := if (n <? 10)%nat then ch (48 + n) else ch (87 + n).

(** QuoteJSONString on one code unit. *)
Definition escape_char (c : ascii) : string :=
  let n := nat_of_ascii c in
  if (n =? 8)%nat then String bslash "b"
  else if (n =? 9)%nat then String bslash "t"
  else if (n =? 10)%nat then String bslash "n"
  else if (n =? 12)%nat then String bslash "f"
  else if (n =? 13)%nat then String bslash "r"
  else if (n =? 34)%nat then String bslash (String dquote "")
  else if (n =? 92)%nat then String bslash (String bslash "")
  else if (n <? 32)%nat then
    String bslash ("u00" +:+ String (hex_digit (n / 16)) (String (hex_digit (n mod 16)) ""))
  else String c "".

Fixpoint escape (s : string) : string :=
  match s with
  | EmptyString => ""
  | String c r => escape_char c +:+ escape r
  end.

Definition quote (s : string) : string := String dquote (escape s +:+ String dquote "").

Fixpoint join_comma (l : list string) : string :=
  match l with
  | [] => ""
  | [x] => x
  | x :: rest => x +:+ String "," (join_comma rest)
  end.

Fixpoint stringify (j : json) : string :=
  match j with
  | JNull => "null"
  | JBool true => "true"
  | JBool false => "false"
  | JNum z => pretty z
  | JStr s => quote s
  | JArr l => String "[" (join_comma (map stringify l) +:+ "]")
  | JObj kvs =>
      String "{" (join_comma (map (fun kv => quote kv.1 +:+ String ":" (stringify kv.2)) kvs) +:+ "}")
  end.

(** ** Parsing *)

Definition is_ws (c : ascii) : bool :=
  let n := nat_of_ascii c in (n =? 32)%nat || (n =? 9)%nat || (n =? 10)%nat || (n =? 13)%nat.

Fixpoint skip_ws (s : string) : string :=
  match s with
  | String c r => if is_ws c then skip_ws r else s
  | EmptyString => EmptyString
  end.

Definition hex_value (c : ascii) : option nat :=
  let n := nat_of_ascii c in
  if (48 <=? n)%nat && (n <=? 57)%nat then Some (n - 48)%nat
  else if (97 <=? n)%nat && (n <=? 102)%nat then Some (n - 87)%nat
  else if (65 <=? n)%nat && (n <=? 70)%nat then Some (n - 55)%nat
  else None.

(** The code unit of the escape [\uABCD], when it is one the value type holds. *)
Definition unicode_escape (a b c d : ascii) : option ascii :=
  match hex_value a, hex_value b, hex_value c, hex_value d with
  | Some 0%nat, Some 0%nat, Some h, Some l => Some (ch (16 * h + l))
  | _, _, _, _ => None
  end.

(** The character after a backslash, other than [u]. *)
Definition simple_escape (e : ascii) : option ascii :=
  let n := nat_of_ascii e in
  if (n =? 34)%nat || (n =? 92)%nat || (n =? 47)%nat then Some e
  else if (n =? 98)%nat then Some (ch 8)
  else if (n =? 102)%nat then Some (ch 12)
  else if (n =? 110)%nat then Some (ch 10)
  else if (n =? 114)%nat then Some (ch 13)
  else if (n =? 116)%nat then Some (ch 9)
  else None.

Definition cons_fst (c : ascii) (r : option (string * string)) : option (string * string) :=
  match r with Some (x, rest) => Some (String c x, rest) | None => None end.

(** The body of a string literal after its opening quote. *)
Fixpoint p_string (s : string) : option (string * string) :=
  match s with
  | EmptyString => None
  | String c r =>
      if Ascii.eqb c dquote then Some (EmptyString, r)
      else if Ascii.eqb c bslash then
        match r with
        | String "u" (String a (String b (String c' (String d r')))) =>
            match unicode_escape a b c' d with
            | Some u => cons_fst u (p_string r')
            | None => None
            end
        | String e r' =>
            match simple_escape e with
            | Some u => cons_fst u (p_string r')
            | None => None
            end
        | EmptyString => None
        end
      else if (nat_of_ascii c <? 32)%nat then None
      else cons_fst c (p_string r)
  end.

(** Greedy digits after the first one. *)
Fixpoint p_digits (s : string) (acc : Z) : Z * string :=
  match s with
  | String c r =>
      match digit_value c with
      | Some d => p_digits r (10 * acc + d)
      | None => (acc, s)
      end
  | EmptyString => (acc, EmptyString)
  end.

(** A number continues with a fraction or an exponent. *)
Definition number_continues (s : string) : bool :=
  match s with
  | String c _ => bool_decide (c = "."%char \/ c = "e"%char \/ c = "E"%char)
  | EmptyString => false
  end.

Definition p_unsigned (s : string) : option (Z * string) :=
  match s with
  | String c r =>
      match digit_value c with
      | Some 0 => Some (0, r)
      | Some d => Some (p_digits r d)
      | None => None
      end
  | EmptyString => None
  end.

(** [Some rest] when [s] starts with [x]. *)
Definition head_is (x : ascii) (s : string) : option string :=
  match s with
  | String c r => if Ascii.eqb c x then Some r else None
  | EmptyString => None
  end.

Definition p_number (s : string) : option (json * string) :=
  let '(neg, s1) := match head_is "-" s with Some r => (true, r) | None => (false, s) end in
  match p_unsigned s1 with
  | Some (v, r) => if number_continues r then None else Some (JNum (if neg then - v else v), r)
  | None => None
  end.

(** [Some rest] when [s] starts with the word [p]. *)
Fixpoint strip_prefix (p s : string) : option string :=
  match p with
  | EmptyString => Some s
  | String c p' => match head_is c s with Some r => strip_prefix p' r | None => None end
  end.

Definition p_literal (s : string) : option (json * string) :=
  match strip_prefix "null" s with
  | Some r => Some (JNull, r)
  | None =>
      match strip_prefix "true" s with
      | Some r => Some (JBool true, r)
      | None => match strip_prefix "false" s with Some r => Some (JBool false, r) | None => None end
      end
  end.

Fixpoint p_value (n : nat) (s : string) {struct n} : option (json * string) :=
  match n with
  | O => None
  | S n =>
      let s := skip_ws s in
      match head_is "[" s with
      | Some r =>
          match head_is "]" (skip_ws r) with
          | Some r' => Some (JArr [], r')
          | None =>
              match p_value n r with
              | Some (v, r') => p_elems n [v] r'
              | None => None
              end
          end
      | None =>
      match head_is "{" s with
      | Some r =>
          match head_is "}" (skip_ws r) with
          | Some r' => Some (JObj [], r')
          | None =>
              match p_member n r with
              | Some (kv, r') => p_members n [kv] r'
              | None => None
              end
          end
      | None =>
      match head_is dquote s with
      | Some r => match p_string r with Some (x, r') => Some (JStr x, r') | None => None end
      | None => match p_literal s with Some x => Some x | None => p_number s end
      end
      end
      end
  end
(** After an array element: more elements or the closing bracket. *)
with p_elems (n : nat) (acc : list json) (s : string) {struct n} : option (json * string) :=
  match n with
  | O => None
  | S n =>
      let s := skip_ws s in
      match head_is "," s with
      | Some r =>
          match p_value n r with
          | Some (v, r') => p_elems n (acc ++ [v]) r'
          | None => None
          end
      | None => match head_is "]" s with Some r => Some (JArr acc, r) | None => None end
      end
  end
(** One object member: a string key, a colon and a value. *)
with p_member (n : nat) (s : string) {struct n} : option ((string * json) * string) :=
  match n with
  | O => None
  | S n =>
      match head_is dquote (skip_ws s) with
      | Some r =>
          match p_string r with
          | Some (k, r') =>
              match head_is ":" (skip_ws r') with
              | Some r'' =>
                  match p_value n r'' with
                  | Some (v, r3) => Some ((k, v), r3)
                  | None => None
                  end
              | None => None
              end
          | None => None
          end
      | None => None
      end
  end
(** After an object member: more members or the closing brace. *)
with p_members (n : nat) (acc : list (string * json)) (s : string) {struct n}
  : option (json * string) :=
  match n with
  | O => None
  | S n =>
      let s := skip_ws s in
      match head_is "," s with
      | Some r =>
          match p_member n r with
          | Some (kv, r') => p_members n (acc ++ [kv]) r'
          | None => None
          end
      | None => match head_is "}" s with Some r => Some (JObj acc, r) | None => None end
      end
  end.

(** [JSON.parse(s)]: one value and nothing but white space after it. *)
Definition parse (s : string) : option json :=
  match p_value (S (String.length s)) s with
  | Some (v, r) => match skip_ws r with EmptyString => Some v | _ => None end
  | None => None
  end.

(** What may follow a number: not a digit and no fraction or exponent. *)
Definition num_stop (r : string) : bool :=
  match r with
  | String c _ => bool_decide (digit_value c = None) && negb (number_continues r)
  | EmptyString => true
  end.

(** The members of an array or object after the first, each after a comma. *)
Fixpoint commas (l : list string) : string :=
  match l with
  | [] => ""
  | y :: l => String "," (y +:+ commas l)
  end.

Definition member (kv : string * json) : string := quote kv.1 +:+ String ":" (stringify kv.2).

(** [j]'s text, followed by anything a number may be followed by, parses
    back to [j] with any fuel at least its length. *)
Definition parses_back (j : json) : Prop :=
  forall n r, (String.length (stringify j) <= n)%nat -> num_stop r = true ->
              p_value n (stringify j +:+ r) = Some (j, r).

(** The characters a JSON text's value can start with: a bracket, a
    brace, a quote, the first letter of a literal, a minus or a digit. *)
Definition value_start (c : ascii) : bool :=
  bool_decide (c ∈ ["["; "{"; dquote; "t"; "f"; "n"; "-"]%char) || bool_decide (digit_value c <> None).

(** Whether the first character after white space can start a value. *)
Definition starts_value (s : string) : bool :=
  match skip_ws s with String c _ => value_start c | EmptyString => false end.

(** ** Strings *)

Lemma sapp_cons c s t : String c s +:+ t = String c (s +:+ t).
Proof. reflexivity. Qed.

Lemma sapp_assoc a b c : (a +:+ b) +:+ c = a +:+ (b +:+ c).
Proof. induction a as [|x a IH]; [done|]. by rewrite !sapp_cons, IH. Qed.

Lemma sapp_nil_r a : a +:+ "" = a.
Proof. induction a as [|x a IH]; [done|]. by rewrite sapp_cons, IH. Qed.

Lemma slength_app a b : String.length (a +:+ b) = (String.length a + String.length b)%nat.
Proof. induction a as [|x a IH]; [done|]. rewrite sapp_cons. simpl. by rewrite IH. Qed.

Lemma skip_ws_nonws c r : is_ws c = false -> skip_ws (String c r) = String c r.
Proof. intros H. simpl. by rewrite H. Qed.

Lemma head_is_ne x c r : c <> x -> head_is x (String c r) = None.
Proof. intros H. unfold head_is. by destruct (Ascii.eqb_spec c x). Qed.

Lemma join_comma_cons a l : join_comma (a :: l) = a +:+ commas l.
Proof.
  revert a. induction l as [|b l IH]; intros a; [simpl; by rewrite sapp_nil_r|].
  change (join_comma (a :: b :: l)) with (a +:+ String "," (join_comma (b :: l))).
  by rewrite IH.
Qed.

Lemma num_stop_punct c r : c = ","%char \/ c = "]"%char \/ c = "}"%char -> num_stop (String c r) = true.
Proof. intros [->|[->| ->]]; reflexivity. Qed.

Lemma num_stop_nc r : num_stop r = true -> number_continues r = false.
Proof. destruct r; [done|]. simpl. intros H. apply andb_true_iff in H as [_ H]. by destruct (bool_decide _). Qed.

Lemma p_digits_stop s acc : num_stop s = true -> p_digits s acc = (acc, s).
Proof.
  destruct s as [|c s]; [done|]. intros H. apply andb_true_iff in H as [H _].
  apply bool_decide_eq_true in H. simpl. by rewrite H.
Qed.

(** ** Escapes *)

Lemma ascii_ne c n : nat_of_ascii c <> n -> c <> ch n -> Ascii.eqb c (ch n) = false.
Proof. intros _ H. by destruct (Ascii.eqb_spec c (ch n)). Qed.

Lemma p_string_escape_char c r : p_string (escape_char c +:+ r) = cons_fst c (p_string r).
Proof.
  unfold escape_char. pose proof (nat_ascii_bounded c) as Hb.
  assert (Hc : c = ch (nat_of_ascii c)) by (symmetry; apply ascii_nat_embedding).
  set (n := nat_of_ascii c) in *. clearbody n. subst c.
  destruct (Nat.eqb_spec n 8) as [->|]; [reflexivity|].
  destruct (Nat.eqb_spec n 9) as [->|]; [reflexivity|].
  destruct (Nat.eqb_spec n 10) as [->|]; [reflexivity|].
  destruct (Nat.eqb_spec n 12) as [->|]; [reflexivity|].
  destruct (Nat.eqb_spec n 13) as [->|]; [reflexivity|].
  destruct (Nat.eqb_spec n 34) as [->|]; [reflexivity|].
  destruct (Nat.eqb_spec n 92) as [->|]; [reflexivity|].
  destruct (Nat.ltb_spec n 32) as [Hlt|Hge].
  - do 32 (destruct n as [|n]; [reflexivity|]). lia.
  - rewrite sapp_cons. simpl.
    assert (Ascii.eqb (ch n) dquote = false /\ Ascii.eqb (ch n) bslash = false) as [-> ->].
    { split; apply Ascii.eqb_neq; intros E%(f_equal nat_of_ascii);
        unfold dquote, bslash, ch in E; rewrite !nat_ascii_embedding in E by lia; lia. }
    unfold ch. rewrite nat_ascii_embedding by lia.
    by destruct (Nat.ltb_spec n 32); [lia|].
Qed.

Lemma p_string_quote s r : p_string (escape s +:+ String dquote r) = Some (s, r).
Proof.
  induction s as [|c s IH]; [reflexivity|].
  change (escape (String c s)) with (escape_char c +:+ escape s).
  by rewrite sapp_assoc, p_string_escape_char, IH.
Qed.

(** ** Numbers *)

Lemma digit_value_char d : (d < 10)%N -> digit_value (pretty_N_char d) = Some (Z.of_N d).
Proof.
  intros Hd. assert (d = 0 \/ d = 1 \/ d = 2 \/ d = 3 \/ d = 4 \/ d = 5 \/ d = 6 \/ d = 7 \/ d = 8 \/ d = 9)%N
    as Hc by lia.
  destruct_or! Hc; subst d; reflexivity.
Qed.

Lemma pretty_N_go_app x s t : pretty_N_go x (s +:+ t) = pretty_N_go x s +:+ t.
Proof.
  revert s. induction (N.lt_wf_0 x) as [x _ IH]; intros s.
  destruct (decide (x = 0)%N) as [->|Hx]; [by rewrite !pretty_N_go_0|].
  rewrite !(pretty_N_go_step x) by lia. rewrite <-sapp_cons. apply IH, N.div_lt; lia.
Qed.

Lemma p_digits_pretty x s acc :
  exists k : nat, p_digits (pretty_N_go x s) acc = p_digits s (acc * 10 ^ Z.of_nat k + Z.of_N x).
Proof.
  revert s acc. induction (N.lt_wf_0 x) as [x _ IH]; intros s acc.
  destruct (decide (x = 0)%N) as [->|Hx].
  - exists 0%nat. rewrite pretty_N_go_0. f_equal. lia.
  - rewrite pretty_N_go_step by lia.
    destruct (IH (x `div` 10)%N ltac:(apply N.div_lt; lia) (String (pretty_N_char (x `mod` 10)) s) acc)
      as [k ->].
    exists (k + 1)%nat. simpl. rewrite digit_value_char by (apply N.mod_lt; lia). f_equal.
    pose proof (N.div_mod x 10 ltac:(lia)) as Hdm. apply (f_equal Z.of_N) in Hdm.
    rewrite N2Z.inj_add, N2Z.inj_mul in Hdm. change (Z.of_N 10) with 10 in Hdm.
    rewrite Nat2Z.inj_add, Z.pow_add_r, Z.pow_1_r by lia. lia.
Qed.

Lemma pretty_N_go_head x s :
  (0 < x)%N -> exists d r, (0 < d < 10)%N /\ pretty_N_go x s = String (pretty_N_char d) r.
Proof.
  revert s. induction (N.lt_wf_0 x) as [x _ IH]; intros s Hx.
  rewrite pretty_N_go_step by lia.
  destruct (decide (x `div` 10 = 0)%N) as [Hq|Hq].
  - rewrite Hq, pretty_N_go_0. exists (x `mod` 10)%N, s. split; [|done].
    pose proof (N.div_mod x 10 ltac:(lia)). pose proof (N.mod_lt x 10 ltac:(lia)). lia.
  - apply IH; [apply N.div_lt; lia|]. apply N.neq_0_lt_0, Hq.
Qed.

Lemma digit_char_ne d c : (d < 10)%N -> digit_value c = None -> pretty_N_char d <> c.
Proof. intros Hd Hc <-. by rewrite digit_value_char in Hc. Qed.

Lemma p_unsigned_pos p r :
  num_stop r = true -> p_unsigned (pretty_N_go (Npos p) r) = Some (Zpos p, r).
Proof.
  intros Hr. destruct (pretty_N_go_head (Npos p) r ltac:(lia)) as (d & r' & Hd & Hhead).
  pose proof (p_digits_pretty (Npos p) r 0) as [k Hk]. rewrite Hhead in Hk |- *.
  simpl in Hk |- *. rewrite digit_value_char in Hk |- * by lia.
  destruct d as [|q]; [lia|]. simpl in Hk |- *.
  replace (10 * 0 + Z.pos q) with (Z.pos q) in Hk by lia.
  replace (0 * 10 ^ Z.of_nat k + Z.pos p) with (Z.pos p) in Hk by lia.
  by rewrite Hk, p_digits_stop.
Qed.

Lemma pretty_pos p r : pretty (Zpos p) +:+ r = pretty_N_go (Npos p) r.
Proof.
  change (pretty (Zpos p)) with (pretty (Npos p)). unfold pretty, pretty_N.
  rewrite decide_False by done. by rewrite <-pretty_N_go_app.
Qed.

Lemma p_number_pretty z r : num_stop r = true -> p_number (pretty z +:+ r) = Some (JNum z, r).
Proof.
  intros Hr. unfold p_number. destruct z as [|p|p].
  - change (pretty 0 +:+ r) with (String "0" r). simpl. by rewrite (num_stop_nc _ Hr).
  - rewrite pretty_pos. destruct (pretty_N_go_head (Npos p) r ltac:(lia)) as (d & r' & Hd & Hhead).
    rewrite Hhead, head_is_ne by (apply digit_char_ne; [lia|done]). rewrite <-Hhead.
    by rewrite p_unsigned_pos, (num_stop_nc _ Hr).
  - change (pretty (Zneg p) +:+ r) with (String "-" (pretty (Zpos p) +:+ r)). simpl.
    by rewrite pretty_pos, p_unsigned_pos, (num_stop_nc _ Hr).
Qed.

(** ** Values *)

Lemma json_ind_nested (P : json -> Prop)
  (Hnull : P JNull) (Hbool : forall b, P (JBool b)) (Hnum : forall z, P (JNum z))
  (Hstr : forall s, P (JStr s)) (Harr : forall l, Forall P l -> P (JArr l))
  (Hobj : forall kvs, Forall (fun kv => P kv.2) kvs -> P (JObj kvs)) :
  forall j, P j.
Proof.
  fix IH 1. intros [| | | |l|kvs]; [apply Hnull|apply Hbool|apply Hnum|apply Hstr| |].
  - apply Harr. induction l as [|x l IHl]; constructor; [apply IH|exact IHl].
  - apply Hobj. induction kvs as [|[k v] kvs IHk]; constructor; [apply IH|exact IHk].
Qed.

Lemma digit_ne c x : digit_value c <> None -> digit_value x = None -> c <> x.
Proof. by intros H Hx <-. Qed.

Lemma digit_not_ws c : digit_value c <> None -> is_ws c = false.
Proof.
  unfold digit_value, is_ws. intros H.
  destruct ((48 <=? nat_of_ascii c)%nat && (nat_of_ascii c <=? 57)%nat) eqn:E; [|done].
  apply andb_true_iff in E as [E1%Nat.leb_le E2%Nat.leb_le].
  rewrite !(proj2 (Nat.eqb_neq _ _)) by lia. done.
Qed.

Lemma pretty_head (z : Z) r :
  exists c r', pretty z +:+ r = String c r' /\ (digit_value c <> None \/ c = "-"%char).
Proof.
  destruct z as [|p|p].
  - exists "0"%char, r. split; [done|]. left. done.
  - rewrite pretty_pos. destruct (pretty_N_go_head (Npos p) r ltac:(lia)) as (d & r' & Hd & ->).
    exists (pretty_N_char d), r'. split; [done|]. left. rewrite digit_value_char; [done|lia].
  - exists "-"%char, (pretty (Zpos p) +:+ r). split; [reflexivity|by right].
Qed.

Lemma stringify_head j r :
  exists c r', stringify j +:+ r = String c r' /\ is_ws c = false /\ c <> "]"%char /\ c <> "}"%char.
Proof.
  destruct j as [|[]|z|s|l|kvs]; try by eexists _, _.
  destruct (pretty_head z r) as (c & r' & Heq & [Hd| ->]); [|by eexists _, _].
  exists c, r'. split; [done|]. split; [by apply digit_not_ws|].
  split; apply digit_ne; done.
Qed.

Lemma p_value_number n c r :
  digit_value c <> None \/ c = "-"%char -> p_value (S n) (String c r) = p_number (String c r).
Proof.
  intros [Hc| ->]; [|reflexivity]. cbn [p_value]. rewrite skip_ws_nonws by by apply digit_not_ws.
  rewrite !head_is_ne by (apply digit_ne; done). unfold p_literal. cbn [strip_prefix].
  rewrite !head_is_ne by (apply digit_ne; done). reflexivity.
Qed.

Lemma parses_back_num z : parses_back (JNum z).
Proof.
  intros n r Hn Hr. destruct n as [|n]; [destruct (pretty_head z "") as (? & ? & Hh & _);
    rewrite sapp_nil_r in Hh; simpl in Hn; rewrite Hh in Hn; simpl in Hn; lia|].
  simpl stringify. destruct (pretty_head z r) as (c & r' & Hh & Hc).
  rewrite Hh, p_value_number, <-Hh by done. by apply p_number_pretty.
Qed.

Lemma sapp_nil_l s : "" +:+ s = s.
Proof. reflexivity. Qed.

Lemma head_is_eq x r : head_is x (String x r) = Some r.
Proof. unfold head_is. by rewrite Ascii.eqb_refl. Qed.

Lemma num_stop_commas M c r :
  c = "]"%char \/ c = "}"%char -> num_stop (commas M +:+ String c r) = true.
Proof. intros Hc. destruct M; apply num_stop_punct; naive_solver. Qed.

Lemma p_elems_stringify l :
  Forall parses_back l -> forall acc k r,
  (String.length (commas (map stringify l)) < k)%nat -> num_stop r = true ->
  p_elems k acc (commas (map stringify l) +:+ String "]" r) = Some (JArr (acc ++ l), r).
Proof.
  induction 1 as [|y l Hy _ IH]; intros acc k r Hk Hr; (destruct k as [|k]; [lia|]).
  - rewrite sapp_nil_l, app_nil_r. reflexivity.
  - change (commas (map stringify (y :: l))) with (String "," (stringify y +:+ commas (map stringify l))) in Hk |- *.
    simpl in Hk. rewrite slength_app in Hk. rewrite sapp_cons, sapp_assoc.
    cbn [p_elems]. rewrite skip_ws_nonws, head_is_eq by reflexivity.
    rewrite Hy by (lia || (apply num_stop_commas; auto)).
    rewrite IH by (done || lia). by rewrite <-app_assoc.
Qed.

Lemma member_text k v r :
  member (k, v) +:+ r = String dquote (escape k +:+ String dquote (String ":" (stringify v +:+ r))).
Proof. unfold member, quote. cbn [fst snd]. rewrite !sapp_assoc, !sapp_cons, !sapp_assoc. reflexivity. Qed.

Lemma member_length k v :
  String.length (member (k, v)) = (3 + String.length (escape k) + String.length (stringify v))%nat.
Proof. rewrite <-(sapp_nil_r (member (k, v))), member_text, sapp_nil_r. simpl. rewrite slength_app. simpl. lia. Qed.

Lemma p_member_stringify kv n r :
  parses_back kv.2 -> (String.length (member kv) <= n)%nat -> num_stop r = true ->
  p_member n (member kv +:+ r) = Some (kv, r).
Proof.
  destruct kv as [k v]. cbn [snd]. intros Hv Hn Hr. rewrite member_text. rewrite member_length in Hn.
  destruct n as [|n]; [lia|]. cbn [p_member].
  rewrite skip_ws_nonws, head_is_eq by reflexivity. rewrite p_string_quote. rewrite skip_ws_nonws, head_is_eq by reflexivity.
  rewrite Hv by (done || lia). done.
Qed.

Lemma p_members_stringify kvs :
  Forall (fun kv => parses_back kv.2) kvs -> forall acc k r,
  (String.length (commas (map member kvs)) < k)%nat -> num_stop r = true ->
  p_members k acc (commas (map member kvs) +:+ String "}" r) = Some (JObj (acc ++ kvs), r).
Proof.
  induction 1 as [|kv kvs Hkv _ IH]; intros acc k r Hk Hr; (destruct k as [|k]; [lia|]).
  - rewrite sapp_nil_l, app_nil_r. reflexivity.
  - change (commas (map member (kv :: kvs))) with (String "," (member kv +:+ commas (map member kvs))) in Hk |- *.
    cbn [String.length] in Hk. rewrite slength_app in Hk. rewrite sapp_cons, sapp_assoc.
    cbn [p_members]. rewrite skip_ws_nonws, head_is_eq by reflexivity.
    rewrite p_member_stringify by (done || lia || (apply num_stop_commas; auto)).
    rewrite IH by (done || lia). by rewrite <-app_assoc.
Qed.

Lemma stringify_arr_text x l r :
  stringify (JArr (x :: l)) +:+ r =
    String "[" (stringify x +:+ (commas (map stringify l) +:+ String "]" r)).
Proof.
  change (stringify (JArr (x :: l))) with (String "[" (join_comma (map stringify (x :: l)) +:+ "]")).
  cbn [map]. rewrite join_comma_cons, sapp_cons, !sapp_assoc. reflexivity.
Qed.

Lemma stringify_obj_text kv kvs r :
  stringify (JObj (kv :: kvs)) +:+ r =
    String "{" (member kv +:+ (commas (map member kvs) +:+ String "}" r)).
Proof.
  change (stringify (JObj (kv :: kvs))) with (String "{" (join_comma (map member (kv :: kvs)) +:+ "}")).
  cbn [map]. rewrite join_comma_cons, sapp_cons, !sapp_assoc. reflexivity.
Qed.

Lemma stringify_parses_back j : parses_back j.
Proof.
  induction j as [| b | z | s | l Hl | kvs Hkvs] using json_ind_nested;
    try (apply parses_back_num); intros n r Hn Hr.
  - destruct n; [simpl in Hn; lia|]. reflexivity.
  - destruct b, n; simpl in Hn; (lia || reflexivity).
  - destruct n as [|n]; [unfold stringify, quote in Hn; simpl in Hn; lia|].
    change (stringify (JStr s) +:+ r) with (String dquote (escape s +:+ String dquote "") +:+ r).
    rewrite (sapp_cons dquote), sapp_assoc, (sapp_cons dquote ""), sapp_nil_l.
    cbn [p_value]. simpl. by rewrite p_string_quote.
  - destruct n as [|n]; [simpl in Hn; lia|]. destruct Hl as [|x l Hx Hl].
    { reflexivity. }
    pose proof Hn as Hlen. rewrite <-(sapp_nil_r (stringify _)), stringify_arr_text in Hlen.
    simpl in Hlen. rewrite !slength_app in Hlen. simpl in Hlen.
    rewrite stringify_arr_text. cbn [p_value]. rewrite skip_ws_nonws, head_is_eq by reflexivity.
    destruct (stringify_head x (commas (map stringify l) +:+ String "]" r)) as (c & r' & Hc & Hws & Hb & _).
    rewrite Hc, skip_ws_nonws, head_is_ne by done. rewrite <-Hc.
    rewrite Hx by (lia || (apply num_stop_commas; auto)).
    apply p_elems_stringify; [done|lia|done].
  - destruct n as [|n]; [simpl in Hn; lia|]. destruct Hkvs as [|kv kvs Hkv Hkvs].
    { reflexivity. }
    pose proof Hn as Hlen. rewrite <-(sapp_nil_r (stringify _)), stringify_obj_text in Hlen.
    cbn [String.length] in Hlen. rewrite !slength_app in Hlen. cbn [String.length] in Hlen.
    rewrite stringify_obj_text. cbn [p_value]. rewrite skip_ws_nonws by reflexivity.
    rewrite head_is_ne, head_is_eq by done. destruct kv as [k v].
    rewrite member_text, skip_ws_nonws, head_is_ne by done. rewrite <-member_text.
    rewrite p_member_stringify by (done || lia || (apply num_stop_commas; auto)).
    apply p_members_stringify; [done|lia|done].
Qed.

(** [JSON.parse(JSON.stringify(v))] gives [v] back. *)
Lemma parse_stringify j : parse (stringify j) = Some j.
Proof.
  unfold parse. pose proof (stringify_parses_back j (S (String.length (stringify j))) "") as H.
  rewrite sapp_nil_r in H. rewrite H; [done|lia|done].
Qed.

(** ** Fuel

    Every call of the parser consumes a character before it recurses, so
    fuel above the length of the text is never exhausted: more fuel gives
    the same answer. *)

Lemma skip_ws_len s : (String.length (skip_ws s) <= String.length s)%nat.
Proof. induction s as [|c s IH]; simpl; [lia|]. destruct (is_ws c); simpl; lia. Qed.

Lemma head_is_len x s r : head_is x s = Some r -> (String.length r < String.length s)%nat.
Proof. destruct s as [|c s]; simpl; [done|]. destruct (Ascii.eqb c x); intros; simplify_eq/=; lia. Qed.

Lemma cons_fst_len c o x r (k : nat) :
  (forall x' r', o = Some (x', r') -> (String.length r' < k)%nat) ->
  cons_fst c o = Some (x, r) -> (String.length r < k)%nat.
Proof. destruct o as [[x' r']|]; simpl; [|done]. intros H ?. simplify_eq. by apply (H x'). Qed.

Lemma p_string_len_aux n : forall s x r,
  (String.length s <= n)%nat -> p_string s = Some (x, r) -> (String.length r < String.length s)%nat.
Proof.
  induction n as [|n IH]; intros [|c s] x r Hn; simpl in Hn |- *; try (done || lia).
  assert (Hrec : forall s' x' r', p_string s' = Some (x', r') ->
            (String.length s' <= String.length s)%nat -> (String.length r' < S (String.length s))%nat).
  { intros s' x' r' Hp Hs'. pose proof (IH s' x' r' ltac:(lia) Hp). lia. }
  destruct (Ascii.eqb c dquote); [intros; simplify_eq; lia|].
  destruct (Ascii.eqb c bslash).
  - repeat case_match; simplify_eq; try done; intros Hc;
      (eapply cons_fst_len; [|exact Hc]); intros x' r' Hp; subst;
      (eapply Hrec; [exact Hp|simpl; lia]).
  - destruct (_ <? 32)%nat; [done|]. apply cons_fst_len. intros x' r' Hp.
    eapply Hrec; [exact Hp|lia].
Qed.

Lemma p_string_len s x r : p_string s = Some (x, r) -> (String.length r < String.length s)%nat.
Proof. apply p_string_len_aux with (String.length s). lia. Qed.

Lemma p_digits_len s acc : (String.length (snd (p_digits s acc)) <= String.length s)%nat.
Proof.
  revert acc. induction s as [|c s IH]; intros acc; simpl; [lia|].
  destruct (digit_value c); simpl; [specialize (IH (10 * acc + z)); lia|lia].
Qed.

Lemma p_unsigned_len s v r : p_unsigned s = Some (v, r) -> (String.length r < String.length s)%nat.
Proof.
  destruct s as [|c s]; [done|]. simpl. destruct (digit_value c) as [[|d|d]|]; try done;
    intros H; injection H as H; try (simplify_eq; simpl; lia);
    [pose proof (p_digits_len s (Zpos d))|pose proof (p_digits_len s (Zneg d))];
    rewrite H in *; simpl in *; lia.
Qed.

Lemma p_number_len s j r : p_number s = Some (j, r) -> (String.length r < String.length s)%nat.
Proof.
  unfold p_number. destruct (head_is "-" s) as [s1|] eqn:E; [apply head_is_len in E|];
    cbv beta iota; (destruct (p_unsigned _) as [[v r']|] eqn:Eu; [apply p_unsigned_len in Eu|done]);
    destruct (number_continues r'); intros; simplify_eq; lia.
Qed.

Lemma strip_prefix_len p s r :
  strip_prefix p s = Some r -> (String.length r + String.length p = String.length s)%nat.
Proof.
  revert s. induction p as [|c p IH]; intros s; simpl; [intros; simplify_eq; lia|].
  destruct (head_is c s) as [s'|] eqn:E; [|done]. intros H%IH.
  destruct s as [|c' s]; simpl in E |- *; [done|]. destruct (Ascii.eqb c' c); simplify_eq. lia.
Qed.

Lemma p_literal_len s j r : p_literal s = Some (j, r) -> (String.length r < String.length s)%nat.
Proof.
  unfold p_literal.
  destruct (strip_prefix "null" s) as [a|] eqn:Ea; [apply strip_prefix_len in Ea; simpl in Ea|];
  [|destruct (strip_prefix "true" s) as [b|] eqn:Eb; [apply strip_prefix_len in Eb; simpl in Eb|];
    [|destruct (strip_prefix "false" s) as [c|] eqn:Ec; [apply strip_prefix_len in Ec; simpl in Ec|]]];
  intros; simplify_eq; lia.
Qed.

Lemma p_consume n :
  (forall s j r, p_value n s = Some (j, r) -> (String.length r < String.length s)%nat) /\
  (forall acc s j r, p_elems n acc s = Some (j, r) -> (String.length r < String.length s)%nat) /\
  (forall s kv r, p_member n s = Some (kv, r) -> (String.length r < String.length s)%nat) /\
  (forall acc s j r, p_members n acc s = Some (j, r) -> (String.length r < String.length s)%nat).
Proof.
  induction n as [|n (IHv & IHe & IHm & IHms)]; [split_and!; done|].
  split_and!.
  - intros s j r. cbn [p_value]. pose proof (skip_ws_len s) as Hs.
    destruct (head_is "[" (skip_ws s)) as [r1|] eqn:E1; [apply head_is_len in E1|].
    { pose proof (skip_ws_len r1). destruct (head_is "]" (skip_ws r1)) as [r2|] eqn:E2.
      - apply head_is_len in E2. intros; simplify_eq. lia.
      - destruct (p_value n r1) as [[v r2]|] eqn:E3; [|done]. apply IHv in E3.
        intros Hr%IHe. lia. }
    destruct (head_is "{" (skip_ws s)) as [r1|] eqn:E1'; [apply head_is_len in E1'|].
    { pose proof (skip_ws_len r1). destruct (head_is "}" (skip_ws r1)) as [r2|] eqn:E2.
      - apply head_is_len in E2. intros; simplify_eq. lia.
      - destruct (p_member n r1) as [[kv r2]|] eqn:E3; [|done]. apply IHm in E3.
        intros Hr%IHms. lia. }
    destruct (head_is dquote (skip_ws s)) as [r1|] eqn:E5; [apply head_is_len in E5|].
    { destruct (p_string r1) as [[x r2]|] eqn:E6; [|done]. apply p_string_len in E6.
      intros; simplify_eq. lia. }
    destruct (p_literal (skip_ws s)) as [[j' r']|] eqn:E7.
    { apply p_literal_len in E7. intros; simplify_eq. lia. }
    intros Hr%p_number_len. lia.
  - intros acc s j r. cbn [p_elems]. pose proof (skip_ws_len s) as Hs.
    destruct (head_is "," (skip_ws s)) as [r1|] eqn:E1; [apply head_is_len in E1|].
    + destruct (p_value n r1) as [[v r2]|] eqn:E2; [|done]. apply IHv in E2. intros Hr%IHe. lia.
    + destruct (head_is "]" (skip_ws s)) as [r1|] eqn:E3; [|done]. apply head_is_len in E3.
      intros; simplify_eq. lia.
  - intros s kv r. cbn [p_member]. pose proof (skip_ws_len s) as Hs.
    destruct (head_is dquote (skip_ws s)) as [r1|] eqn:E1; [apply head_is_len in E1|done].
    destruct (p_string r1) as [[k r2]|] eqn:E2; [apply p_string_len in E2|done].
    pose proof (skip_ws_len r2).
    destruct (head_is ":" (skip_ws r2)) as [r3|] eqn:E3; [apply head_is_len in E3|done].
    destruct (p_value n r3) as [[v r4]|] eqn:E4; [apply IHv in E4|done].
    intros; simplify_eq. lia.
  - intros acc s j r. cbn [p_members]. pose proof (skip_ws_len s) as Hs.
    destruct (head_is "," (skip_ws s)) as [r1|] eqn:E1; [apply head_is_len in E1|].
    + destruct (p_member n r1) as [[kv r2]|] eqn:E2; [|done]. apply IHm in E2. intros Hr%IHms. lia.
    + destruct (head_is "}" (skip_ws s)) as [r1|] eqn:E3; [|done]. apply head_is_len in E3.
      intros; simplify_eq. lia.
Qed.

Lemma p_fuel_mono n :
  (forall s m, (String.length s < n <= m)%nat -> p_value m s = p_value n s) /\
  (forall acc s m, (String.length s < n <= m)%nat -> p_elems m acc s = p_elems n acc s) /\
  (forall s m, (String.length s < n <= m)%nat -> p_member m s = p_member n s) /\
  (forall acc s m, (String.length s < n <= m)%nat -> p_members m acc s = p_members n acc s).
Proof.
  induction n as [|n (IHv & IHe & IHm & IHms)]; [split_and!; intros; lia|].
  destruct (p_consume n) as (Cv & Ce & Cm & Cms).
  split_and!; intros; (destruct m as [|m]; [lia|]); pose proof (skip_ws_len s) as Hs.
  - cbn [p_value].
    destruct (head_is "[" (skip_ws s)) as [r1|] eqn:E1; [apply head_is_len in E1|].
    { destruct (head_is "]" (skip_ws r1)); [done|]. rewrite (IHv r1 m) by lia.
      destruct (p_value n r1) as [[v r2]|] eqn:E3; [|done]. apply Cv in E3.
      apply IHe. lia. }
    destruct (head_is "{" (skip_ws s)) as [r1|] eqn:E1'; [apply head_is_len in E1'|done].
    destruct (head_is "}" (skip_ws r1)); [done|]. rewrite (IHm r1 m) by lia.
    destruct (p_member n r1) as [[kv r2]|] eqn:E3; [|done]. apply Cm in E3.
    apply IHms. lia.
  - cbn [p_elems].
    destruct (head_is "," (skip_ws s)) as [r1|] eqn:E1; [apply head_is_len in E1|done].
    rewrite (IHv r1 m) by lia.
    destruct (p_value n r1) as [[v r2]|] eqn:E3; [|done]. apply Cv in E3. apply IHe. lia.
  - cbn [p_member].
    destruct (head_is dquote (skip_ws s)) as [r1|] eqn:E1; [apply head_is_len in E1|done].
    destruct (p_string r1) as [[k r2]|] eqn:E2; [apply p_string_len in E2|done].
    pose proof (skip_ws_len r2).
    destruct (head_is ":" (skip_ws r2)) as [r3|] eqn:E3; [apply head_is_len in E3|done].
    by rewrite (IHv r3 m) by lia.
  - cbn [p_members].
    destruct (head_is "," (skip_ws s)) as [r1|] eqn:E1; [apply head_is_len in E1|done].
    rewrite (IHm r1 m) by lia.
    destruct (p_member n r1) as [[kv r2]|] eqn:E3; [|done]. apply Cm in E3. apply IHms. lia.
Qed.

(** Fuel above the length of the text gives the answer of [parse]. *)
Lemma p_value_fuel s n :
  (String.length s < n)%nat -> p_value n s = p_value (S (String.length s)) s.
Proof. intros H. apply (p_fuel_mono (S (String.length s))). lia. Qed.

(** A text whose first non-blank character cannot start a value is not
    JSON: [JSON.parse] throws on it. *)
Lemma parse_not_value s : starts_value s = false -> parse s = None.
Proof.
  unfold parse, starts_value. cbn [p_value].
  destruct (skip_ws s) as [|c r]; intros Hv; [reflexivity|].
  apply orb_false_iff in Hv as [Hl Hd]. apply bool_decide_eq_false in Hl, Hd.
  assert (Hne : forall x, x ∈ ["["; "{"; dquote; "t"; "f"; "n"; "-"]%char -> Ascii.eqb c x = false).
  { intros x Hx. apply Ascii.eqb_neq. intros ->. by apply Hl. }
  assert (Hdv : digit_value c = None) by (destruct (digit_value c); [exfalso; by apply Hd|done]).
  unfold p_literal, p_number, p_unsigned, strip_prefix, head_is.
  rewrite !Hne by set_solver.
  by rewrite Hdv.
Qed.
