(* ===== verification/History.v ===== *)
(** * Watering history and last-watered time in [localStorage].

    [SmartWateringDashboard.jsx] appends an entry to the history with
    [addHistoryEntry] (read the key, [JSON.parse], [push], [JSON.stringify],
    write back, all inside [try]/[catch]) and records the time of the last
    watering with [markLastWatered] ([ts.toString()]).  [pages/History.jsx]
    reads the history with [JSON.parse] and shows it newest first;
    [components/LastWatered.jsx] reads the time back with [parseInt] and
    shows it with [formatElapsed].  [localStorage] is a [gmap] from key to
    string; JSON text goes through [JsonText.stringify] and
    [JsonText.parse].  The theorems show that the writes are read back
    exactly, that a stored history that is JSON but not an array
    blocks every later write, and bound the error of [formatElapsed].
    [history_cells] and [history_page_of] are the table as React renders
    it: a row with an object where a child is expected throws, and the
    whole page is blank. *)

From S2P Require Import Prelude Json JsonText.
From Stdlib Require Import Ascii.

Open Scope Z_scope.

Module History.

Abbreviation storage := (gmap string string).

Definition LS_KEY : string := "smart-watering-lastWatered".
Definition LS_HISTORY : string := "smart-watering-history".

(** [raw ? JSON.parse(raw) : []]: [None] when [JSON.parse] throws. *)
Definition read_history (raw : option string) : option json :=
  match raw with
  | Some s => if String.eqb s "" then Some (JArr []) else parse s
  | None => Some (JArr [])
  end.

(** [addHistoryEntry(entry)]: the new storage and whether
    ["wateringHistoryUpdated"] was dispatched.  A throwing [JSON.parse]
    and [arr.push] on a value that is not an array are caught: nothing is
    written. *)
Definition addHistoryEntry (entry : json) (ls : storage) : storage * bool :=
  match read_history (ls !! LS_HISTORY) with
  | Some (JArr arr) => (<[LS_HISTORY := stringify (JArr (arr ++ [entry]))]> ls, true)
  | _ => (ls, false)
  end.

Definition add_all (es : list json) (ls : storage) : storage :=
  fold_left (fun ls e => fst (addHistoryEntry e ls)) es ls.

(** The History page's [rows] state: [None] when [JSON.parse] throws. *)
Definition history_rows (ls : storage) : option json := read_history (ls !! LS_HISTORY).

(** What the History page renders: the empty message when
    [rows.length === 0] (an empty array or string, an object whose
    [length] is 0), the rows newest first ([rows.slice().reverse()]), or
    a render error ([JSON.parse] threw, [rows] is [null], or it has no
    [slice] or no [reverse]). *)
Inductive history_view := NoRecords | Rows (rows : list json) | PageError.

Definition history_view_of (ls : storage) : history_view :=
  match history_rows ls with
  | Some (JArr []) => NoRecords
  | Some (JArr l) => Rows (rev l)
  | Some (JStr s) => if String.eqb s "" then NoRecords else PageError
  | Some (JObj _ as o) =>
      match js_get o "length" with Some (JNum 0) => NoRecords | _ => PageError end
  | _ => PageError
  end.

(** [clearAll()] after the [confirm] dialog answered [confirmed]. *)
Definition clearAll (confirmed : bool) (ls : storage) : storage :=
  if confirmed then delete LS_HISTORY ls else ls.

(** [markLastWatered(ts)]: [localStorage.setItem(LS_KEY, ts.toString())]. *)
Definition markLastWatered (ts : Z) (ls : storage) : storage := <[LS_KEY := pretty ts]> ls.

(** [parseInt(s, 10)]: leading white space, a sign, then the longest run of
    digits; [None] is NaN. *)
Definition parse_int (s : string) : option Z :=
  let s := skip_ws s in
  let '(neg, s1) :=
    match head_is "-" s with
    | Some r => (true, r)
    | None => match head_is "+" s with Some r => (false, r) | None => (false, s) end
    end in
  match s1 with
  | String c r =>
      match digit_value c with
      | Some d => let v := fst (p_digits r d) in Some (if neg then - v else v)
      | None => None
      end
  | EmptyString => None
  end.

(** [v ? parseInt(v, 10) : null] in LastWatered's state initialiser. *)
Definition stored_last_watered (ls : storage) : option Z :=
  match ls !! LS_KEY with
  | Some v => if String.eqb v "" then None else parse_int v
  | None => None
  end.

(** ** CSV export *)

(** [String(v)] in a template literal: integers print all their digits
    (numbers are integers in the model; [String] and [toFixed] print every
    digit below [10^21]), an array is its elements joined by commas with
    [null] as the empty string, an object is ["[object Object]"]. *)
Fixpoint js_string_json (j : json) : string :=
  match j with
  | JNull => "null"
  | JBool b => if b then "true" else "false"
  | JNum z => pretty z
  | JStr s => s
  | JArr l => join_comma (map (fun x => match x with JNull => "" | _ => js_string_json x end) l)
  | JObj _ => "[object Object]"
  end.

Definition js_string (v : jsval) : string :=
  match v with Some j => js_string_json j | None => "undefined" end.

(** [v.toFixed(3)]: a TypeError ([None]) unless [v] is a number. *)
Definition to_fixed3 (v : jsval) : option string :=
  match v with Some (JNum z) => Some (pretty z +:+ ".000") | _ => None end.

Definition csv_header : string := "timestamp,mode,duration_ms,liters,temp,hum,soil,level,flow".

(** The nine values of [exportCSV]'s template for row [r]; [None] when the
    template throws ([r] is [null], [estimatedLiters] is not a number,
    [sensors] is [null] or [undefined]). *)
Definition csv_fields (r : json) : option (list string) :=
  match r with
  | JNull => None
  | _ =>
      match to_fixed3 (js_get r "estimatedLiters"), js_get r "sensors" with
      | Some liters, Some s =>
          match s with
          | JNull => None
          | _ => Some [js_string (js_get r "timestamp"); js_string (js_get r "mode");
                       js_string (js_get r "durationMs"); liters;
                       js_string (js_get s "temp"); js_string (js_get s "hum");
                       js_string (js_get s "soil"); js_string (js_get s "level");
                       js_string (js_get s "flow")]
          end
      | _, _ => None
      end
  end.

Definition csv_line (r : json) : option string := join_comma <$> csv_fields r.

Definition nl : string := String (ascii_of_nat 10) "".

Fixpoint join_nl (l : list string) : string :=
  match l with [] => "" | [x] => x | x :: rest => x +:+ nl +:+ join_nl rest end.

(** [exportCSV()]: the alert ["No data"], the CSV text handed to the
    download, or a TypeError of the template. *)
Inductive csv_result := NoData | Csv (text : string) | CsvError.

Definition export_csv (rows : list json) : csv_result :=
  match rows with
  | [] => NoData
  | _ => match mapM csv_line rows with Some lines => Csv (join_nl (csv_header :: lines)) | None => CsvError end
  end.

(** Splitting a line at its commas, as a CSV reader does. *)
Fixpoint split_comma (s : string) : list string :=
  match s with
  | EmptyString => [""]
  | String c r =>
      if Ascii.eqb c "," then "" :: split_comma r
      else match split_comma r with f :: fs => String c f :: fs | [] => [String c ""] end
  end.

Fixpoint has_comma (s : string) : bool :=
  match s with EmptyString => false | String c r => Ascii.eqb c "," || has_comma r end.

Section Table.
(** [formatDate(ts)]: [new Date(ts).toLocaleString()], which depends on
    the browser's locale. *)
Variable formatDate : jsval -> string.

(** The keys of the sensor cells, in the table's column order. *)
Definition sensor_keys : list string := ["temp"; "hum"; "soil"; "level"; "flow"].

(** [{Math.round(r.durationMs)} ms]. *)
Definition duration_cell (v : jsval) : string :=
  match to_number v with Some z => pretty z | None => "NaN" end +:+ " ms".

(** The nine cells of the row [r] renders; [None] when rendering it throws:
    [r] is [null], [r.estimatedLiters.toFixed] is not a function, [r.sensors]
    is [null] or [undefined], or [r.mode] or a reading is an object, which
    React refuses as a child. *)
Definition history_cells (r : json) : option (list string) :=
  match r with
  | JNull => None
  | _ =>
      liters ← to_fixed3 (js_get r "estimatedLiters");
      s ← js_get r "sensors";
      match s with
      | JNull => None
      | _ =>
          m ← react_child (js_get r "mode");
          readings ← mapM react_child (js_get s <$> sensor_keys);
          Some (formatDate (js_get r "timestamp") :: m :: duration_cell (js_get r "durationMs") :: liters :: readings)
      end
  end.

(** The History page as rendered: the empty message, the table with its
    rows newest first, or nothing at all when the render throws (the
    Export and Clear buttons are part of the same render). *)
Inductive history_page := PageEmpty | PageTable (rows : list (list string)) | PageBlank.

Definition history_page_of (ls : storage) : history_page :=
  match history_view_of ls with
  | NoRecords => PageEmpty
  | Rows rs => match mapM history_cells rs with Some t => PageTable t | None => PageBlank end
  | PageError => PageBlank
  end.
End Table.

Section Elapsed.
(** [new Date(ts).toLocaleString()] depends on the browser's locale. *)
Variable toLocaleString : Z -> string.

(** [formatElapsed(ts)] at time [now]. *)
Definition formatElapsed (ts now : Z) : string :=
  if ts =? 0 then "Never" else
  let sec := (now - ts) / 1000 in
  if sec <? 5 then "Just now"
  else if sec <? 60 then pretty sec +:+ "s ago"
  else if sec <? 3600 then pretty (sec / 60) +:+ "m ago"
  else if sec <? 86400 then
    let h := sec / 3600 in
    let m := (sec mod 3600) / 60 in
    if m =? 0 then pretty h +:+ "h ago" else pretty h +:+ "h " +:+ pretty m +:+ "m ago"
  else toLocaleString ts.

(** The text under "Last watered": [ts ? formatElapsed(ts) : "Never"]
    (NaN and 0 are falsy). *)
Definition last_watered_text (ls : storage) (now : Z) : string :=
  match stored_last_watered ls with
  | Some ts => if ts =? 0 then "Never" else formatElapsed ts now
  | None => "Never"
  end.
(** C34: [formatElapsed] never overstates the time since watering and
    understates it by less than its unit: below 5 s it says "Just now",
    below a minute it shows the whole seconds, below an hour the whole
    minutes [m] with [m] minutes elapsed and not [m + 1], below a day the
    whole hours and minutes likewise ([h] in 1..23, [m] in 0..59, the
    minutes left out when 0), and from a day on the locale date. *)
Theorem formatElapsed_bounds ts now :
  ts <> 0 ->
  let e := now - ts in
  (e < 5000 -> formatElapsed ts now = "Just now") /\
  (5000 <= e < 60000 -> formatElapsed ts now = pretty (e / 1000) +:+ "s ago" /\
                         (e / 1000) * 1000 <= e < (e / 1000 + 1) * 1000) /\
  (60000 <= e < 3600000 -> exists m, formatElapsed ts now = pretty m +:+ "m ago" /\
                         1 <= m <= 59 /\ m * 60000 <= e < (m + 1) * 60000) /\
  (3600000 <= e < 86400000 -> exists h m, 1 <= h <= 23 /\ 0 <= m <= 59 /\
                         h * 3600000 + m * 60000 <= e < h * 3600000 + (m + 1) * 60000 /\
                         formatElapsed ts now =
                           if m =? 0 then pretty h +:+ "h ago" else pretty h +:+ "h " +:+ pretty m +:+ "m ago") /\
  (86400000 <= e -> formatElapsed ts now = toLocaleString ts).
Proof.
  intros Hts. cbv zeta. unfold formatElapsed. rewrite (proj2 (Z.eqb_neq ts 0) Hts).
  remember (now - ts) as e eqn:He0. clear He0.
  split_and!; intros He; zltb.
  - done.
  - split; [done|zlia].
  - exists (e / 1000 / 60). split; [done|zlia].
  - exists (e / 1000 / 3600), (e / 1000 mod 3600 / 60). split_and!; [zlia..|done].
  - done.
Qed.

End Elapsed.

(** ** Examples *)

(** Watered at 1000, looked at 1 h 5 min 30 s later: "1h 5m ago". *)
Lemma formatElapsed_bounds_witness :
  exists h m, 1 <= h <= 23 /\ 0 <= m <= 59 /\
    h * 3600000 + m * 60000 <= 3931000 - 1000 < h * 3600000 + (m + 1) * 60000 /\
    formatElapsed (fun _ => "") 1000 3931000 =
      if m =? 0 then pretty h +:+ "h ago" else pretty h +:+ "h " +:+ pretty m +:+ "m ago".
Proof.
  destruct (formatElapsed_bounds (fun _ => "") 1000 3931000 ltac:(lia)) as (_ & _ & _ & H & _).
  apply H. lia.
Defined.

End History.

Import History.

(** ** Reading back *)

Lemma LS_KEY_ne : LS_KEY <> LS_HISTORY.
Proof. done. Qed.

Lemma stringify_nonempty j : String.eqb (stringify j) "" = false.
Proof.
  destruct (stringify_head j "") as (c & r & Hc & _). rewrite sapp_nil_r in Hc. by rewrite Hc.
Qed.

Lemma read_history_stringify j : read_history (Some (stringify j)) = Some j.
Proof. simpl. by rewrite stringify_nonempty, parse_stringify. Qed.

Lemma addHistoryEntry_arr e l ls :
  read_history (ls !! LS_HISTORY) = Some (JArr l) ->
  addHistoryEntry e ls = (<[LS_HISTORY := stringify (JArr (l ++ [e]))]> ls, true).
Proof. unfold addHistoryEntry. by intros ->. Qed.

Lemma add_all_arr es l ls :
  read_history (ls !! LS_HISTORY) = Some (JArr l) ->
  read_history (add_all es ls !! LS_HISTORY) = Some (JArr (l ++ es)).
Proof.
  revert l ls. induction es as [|e es IH]; intros l ls Hl; cbn [add_all fold_left]; [by rewrite app_nil_r|].
  rewrite (addHistoryEntry_arr _ _ _ Hl). cbn [fst]. rewrite (IH (l ++ [e])), <-app_assoc; [done|].
  by rewrite lookup_insert_eq, read_history_stringify.
Qed.

Lemma add_all_stuck es ls :
  (forall l, read_history (ls !! LS_HISTORY) <> Some (JArr l)) -> add_all es ls = ls.
Proof.
  intros Hs. induction es as [|e es IH] in ls, Hs |- *; [done|]. cbn [add_all fold_left].
  assert (addHistoryEntry e ls = (ls, false)) as ->; [|by apply IH].
  unfold addHistoryEntry. destruct (read_history (ls !! LS_HISTORY)) as [[| | | |l|]|]; try done.
  by destruct (Hs l).
Qed.

Lemma parse_int_pretty ts : 0 < ts -> parse_int (pretty ts) = Some ts.
Proof.
  intros Hts. destruct ts as [|p|p]; [lia| |lia].
  pose proof (p_unsigned_pos p "" eq_refl) as Hu.
  rewrite <-(sapp_nil_r (pretty _)), pretty_pos.
  destruct (pretty_N_go_head (Npos p) "" ltac:(lia)) as (d & r & Hd & Hh).
  rewrite Hh in Hu |- *. unfold parse_int.
  assert (digit_value (pretty_N_char d) = Some (Z.of_N d)) as Hdv by (apply digit_value_char; lia).
  rewrite skip_ws_nonws by (apply digit_not_ws; by rewrite Hdv).
  rewrite !head_is_ne by (apply digit_ne; [by rewrite Hdv|done]).
  simpl in Hu. rewrite Hdv in Hu |- *. destruct d as [|q]; [lia|]. simpl in Hu |- *.
  by injection Hu as ->.
Qed.

(** ** Properties *)

(** ** CSV lines *)

Lemma split_comma_plain x : has_comma x = false -> split_comma x = [x].
Proof.
  induction x as [|c x IH]; [done|]. cbn [has_comma split_comma].
  intros [Hc Hx]%orb_false_iff. by rewrite Hc, IH.
Qed.

Lemma split_comma_app x t :
  has_comma x = false -> split_comma (x +:+ String "," t) = x :: split_comma t.
Proof.
  induction x as [|c x IH]; [done|]. rewrite sapp_cons. cbn [has_comma split_comma].
  intros [Hc Hx]%orb_false_iff. by rewrite Hc, IH.
Qed.

(** A line whose values contain no comma splits back into its values. *)
Lemma split_join fs :
  fs <> [] -> Forall (fun f => has_comma f = false) fs -> split_comma (join_comma fs) = fs.
Proof.
  induction fs as [|x [|y fs] IH]; intros Hne Hfs; [done|..]; apply Forall_cons in Hfs as [Hx Hfs].
  - by apply split_comma_plain.
  - change (join_comma (x :: y :: fs)) with (x +:+ String "," (join_comma (y :: fs))).
    rewrite split_comma_app by done. f_equal. by apply IH.
Qed.

(** Rows that all have their values export as the header and one line
    per row, in stored order. *)
Lemma export_csv_rows rows lines :
  rows <> [] -> Forall2 (fun r line => csv_line r = Some line) rows lines ->
  export_csv rows = Csv (join_nl (csv_header :: lines)).
Proof.
  intros Hne Hl. destruct rows as [|r rows]; [done|]. unfold export_csv.
  by rewrite (proj2 (mapM_Some csv_line (r :: rows) lines) Hl).
Qed.

Lemma export_csv_error rows :
  rows <> [] -> export_csv rows = CsvError <-> Exists (fun r => csv_fields r = None) rows.
Proof.
  destruct rows as [|r rows]; [done|]. intros _. unfold export_csv.
  transitivity (mapM csv_line (r :: rows) = None); [by destruct (mapM _ _)|].
  rewrite mapM_None. apply Exists_proper; [|done]. intros x. apply fmap_None.
Qed.

(** Marking the watering time leaves the history alone and is read back. *)
Lemma history_view_rows ls l : history_rows ls = Some (JArr l) -> l <> [] -> history_view_of ls = Rows (rev l).
Proof. unfold history_view_of. intros -> ?. by destruct l. Qed.

Lemma history_cells_row fd r s z m :
  r <> JNull -> s <> JNull -> js_get r "estimatedLiters" = Some (JNum z) -> js_get r "sensors" = Some s ->
  react_child (js_get r "mode") = Some m ->
  history_cells fd r =
    (rs ← mapM react_child (js_get s <$> sensor_keys);
     Some (fd (js_get r "timestamp") :: m :: duration_cell (js_get r "durationMs") ::
           (pretty z +:+ ".000") :: rs)).
Proof.
  intros Hr Hs0 Hl Hs Hm. unfold history_cells. destruct r; try done; rewrite Hl, Hs;
    destruct s; try done; by rewrite Hm.
Qed.

Lemma history_rows_mark ts ls : history_rows (markLastWatered ts ls) = history_rows ls.
Proof. unfold history_rows, markLastWatered. by rewrite lookup_insert_ne by done. Qed.

Lemma stored_mark ts ls : 0 < ts -> stored_last_watered (markLastWatered ts ls) = Some ts.
Proof.
  intros Hts. unfold stored_last_watered, markLastWatered. rewrite lookup_insert_eq.
  destruct (pretty_head ts "") as (c & r & Hc & _). rewrite sapp_nil_r in Hc.
  replace (String.eqb (pretty ts) "") with false by (by rewrite Hc). by apply parse_int_pretty.
Qed.

Lemma history_rows_add e ls l :
  history_rows ls = Some (JArr l) ->
  history_rows (fst (addHistoryEntry e ls)) = Some (JArr (l ++ [e])).
Proof.
  unfold history_rows. intros Hl. rewrite (addHistoryEntry_arr e l ls Hl). cbn [fst].
  by rewrite lookup_insert_eq, read_history_stringify.
Qed.

(** C31: the page's two records of a watering are read back exactly: from
    a history that reads as the array [l] (absent, empty or written by the
    page), appending the entries [es] and then marking the time [ts] leaves
    a history the History page reads as [l ++ es] and shows newest first,
    and a last-watered time LastWatered reads back as [ts]. *)
Theorem history_roundtrip es ls l ts :
  read_history (ls !! LS_HISTORY) = Some (JArr l) -> 0 < ts ->
  let ls' := markLastWatered ts (add_all es ls) in
  history_rows ls' = Some (JArr (l ++ es)) /\
  history_view_of ls' = (if decide (l ++ es = []) then NoRecords else Rows (rev (l ++ es))) /\
  stored_last_watered ls' = Some ts.
Proof.
  intros Hl Hts ls'.
  assert (history_rows ls' = Some (JArr (l ++ es))) as Hrows.
  { unfold ls'. rewrite history_rows_mark. by apply add_all_arr. }
  split; [done|]. split; [|by apply stored_mark].
  unfold history_view_of. rewrite Hrows. by destruct (l ++ es); case_decide.
Qed.

(** C32: a stored history that is JSON but not an array (for instance
    [null], an object or a number left under the key) blocks the history
    for good: every later [addHistoryEntry] fails inside its [try], writes
    nothing and dispatches nothing, and the History page cannot render any
    row. *)
Theorem history_corrupt_stuck es ls j :
  ls !! LS_HISTORY = Some (stringify j) -> (forall l, j <> JArr l) ->
  add_all es ls = ls /\ (forall e, snd (addHistoryEntry e ls) = false) /\
  (forall rows, history_view_of ls <> Rows rows).
Proof.
  intros Hj Hnot. assert (Hr : read_history (ls !! LS_HISTORY) = Some j)
    by by rewrite Hj, read_history_stringify.
  assert (Hs : forall l, read_history (ls !! LS_HISTORY) <> Some (JArr l))
    by (intros l; rewrite Hr; congruence).
  split; [by apply add_all_stuck|]. split.
  - intros e. unfold addHistoryEntry. rewrite Hr. destruct j; try done. by destruct (Hnot l).
  - intros rows. unfold history_view_of, history_rows. rewrite Hr.
    destruct j as [| | | s | l |]; try done; try by repeat case_match. by destruct (Hnot l).
Qed.

(** ** Examples *)

Lemma history_roundtrip_witness :
  let e := JObj [("timestamp", JNum 1700000000000); ("mode", JStr "manual");
                 ("durationMs", JNum 8000); ("stoppedEarly", JBool true)] in
  let ls' := markLastWatered 1700000000000 (add_all [e] ∅) in
  history_rows ls' = Some (JArr ([] ++ [e])) /\
  history_view_of ls' = (if decide ([] ++ [e] = []) then NoRecords else Rows (rev ([] ++ [e]))) /\
  stored_last_watered ls' = Some 1700000000000.
Proof. intros e. apply history_roundtrip; [reflexivity|lia]. Defined.

Lemma history_corrupt_stuck_witness :
  add_all [JNum 1] {[LS_HISTORY := "null"]} = {[LS_HISTORY := "null"]} /\
  (forall e, snd (addHistoryEntry e {[LS_HISTORY := "null"]}) = false) /\
  (forall rows, history_view_of {[LS_HISTORY := "null"]} <> Rows rows).
Proof. apply (history_corrupt_stuck _ _ JNull); [vm_compute; reflexivity|done]. Defined.

