(* ===== verification/Liveness.v ===== *)
(** * Liveness of the auto-stop: a pump handed over from AI mode never stops by itself.

    [startPumpInternal] arms the auto-stop timer only when the mode is not
    AI, and [POST /api/mode] stops the pump only when the new mode is AI.
    A pump the AI started (no timer) keeps running after the user switches
    to manual or automatic mode: no timer is pending, no consultation is
    made outside AI mode, and a start request is refused while it runs.
    [stuck_on] is that situation; every event other than the stop and
    mode routes preserves it, so along every such schedule the pump stays
    on.  The situation is reachable from a fresh process
    ([handover_trace]). *)

From S2P Require Import Prelude Json Gateway AiAdapter Hub StateManager System.

Open Scope Z_scope.

(** Pump on outside AI mode, with nothing scheduled that could stop it. *)
Definition stuck_on (w : world) : Prop :=
  pumpOn (sys w) = true /\ is_ai (mode (sys w)) = false /\ timers w = [] /\ ai_pending w = [].

(** Every event except a request to the stop route or the mode route. *)
Definition no_user_stop (e : event) : Prop :=
  match e with EvPostStop | EvPostMode _ => False | _ => True end.

(** AI mode, one sample, the AI answers [action: 1] (a 10 s start, no
    timer), then the user switches to manual mode. *)
Definition handover_trace : list event :=
  ai_trace ++ [EvAiClose 0 (Some (JObj [("action", JNum 1)])); EvPostMode (Some (JStr "manual"))].

Section Stuck.
Context (w : world) (Hw : stuck_on w).

Lemma stuck_on_frame w' :
  sys w' = sys w -> timers w' = timers w -> ai_pending w' = ai_pending w -> stuck_on w'.
Proof. destruct Hw as (? & ? & ? & ?). unfold stuck_on. intros -> -> ->. by repeat split. Qed.

Lemma stuck_on_mqtt_message t p : stuck_on (on_mqtt_message t p w).
Proof.
  destruct Hw as (_ & Hai & _ & _). unfold on_mqtt_message.
  destruct (negb _); [by apply stuck_on_frame|].
  destruct p as [data|]; [|by apply stuck_on_frame].
  destruct (update_sensors _ _ _); [|by apply stuck_on_frame].
  cbn [sys set_sensors io_emit set_hub]. rewrite Hai. by apply stuck_on_frame.
Qed.

Lemma stuck_on_post_start d : stuck_on (snd (post_pump_start d w)).
Proof.
  destruct Hw as (Hon & Hai & _ & _). unfold post_pump_start. rewrite Hai, Hon. exact Hw.
Qed.
End Stuck.

Lemma stuck_on_step e w w' :
  no_user_stop e -> stuck_on w -> run_event e w = Some w' -> stuck_on w'.
Proof.
  intros He Hw. pose proof Hw as (_ & _ & Ht & Hp).
  destruct e; cbv beta iota delta [run_event]; try done;
    repeat match goal with
    | |- context [match ?x with _ => _ end] => destruct x eqn:?
    | |- context [if ?b then _ else _] => destruct b eqn:?
    end; intros; simplify_eq;
    first [ by eapply stuck_on_frame; [exact Hw|..]
          | by apply stuck_on_mqtt_message
          | by apply stuck_on_post_start
          | rewrite Hp in *; discriminate
          | rewrite Ht in *; discriminate ].
Qed.

Lemma stuck_on_trace evs w w' :
  Forall no_user_stop evs -> stuck_on w -> run_trace evs w = Some w' -> stuck_on w'.
Proof.
  revert w. induction evs as [|e evs IH]; intros w Hevs Hw Hrun; simpl in Hrun.
  - by injection Hrun as <-.
  - apply Forall_cons in Hevs as [He Hevs].
    destruct (run_event e w) as [w1|] eqn:Hr; [|done].
    apply (IH w1); [done| |done]. by apply (stuck_on_step e w).
Qed.

(** C9: a pump the AI started keeps running for ever once the user
    switches to manual mode: that state is reachable, and along every
    schedule without a stop or mode request (time passing, sensor
    messages, start requests, broker and observer events) the pump is
    still on at the end, its 10 s duration notwithstanding. *)
Theorem ai_handover_never_stops :
  let w := trace_world handover_trace in
  reachable (fun _ => True) w /\ pumpOn (sys w) = true /\ pumpDuration (sys w) = 10000 /\
  forall evs w', Forall no_user_stop evs -> run_trace evs w = Some w' -> pumpOn (sys w') = true.
Proof.
  intros w. assert (Hw : stuck_on w) by (vm_compute; repeat split).
  split; [apply trace_world_reachable; [repeat constructor|vm_compute; eauto]|].
  split; [apply Hw|]. split; [vm_compute; reflexivity|].
  intros evs w' Hevs Hrun. apply (stuck_on_trace evs w w' Hevs Hw Hrun).
Qed.

(** ** Examples *)

Lemma ai_handover_never_stops_witness :
  exists w', run_trace [EvTick 60000; EvPostStart (Some 5); EvTick 3600000]
               (trace_world handover_trace) = Some w' /\ pumpOn (sys w') = true.
Proof.
  destruct ai_handover_never_stops as (_ & _ & _ & H).
  eexists; split; [vm_compute; reflexivity|].
  apply (H [EvTick 60000; EvPostStart (Some 5); EvTick 3600000]); [repeat constructor|].
  vm_compute. reflexivity.
Defined.
