(* ===== verification/Page.v ===== *)
(** * The dashboard's mount effect and the websocket service.

    [SmartWateringDashboard]'s mount effect calls [websocketService.connect()],
    registers five closures with [websocketService.on], and runs
    [handleConnect] at once when the socket is already connected; its
    cleanup removes the five closures with [off].  React may run the effect
    again after a cleanup (development mode, remounts); every run creates
    new closures, numbered here [5 * k + i] for the [k]-th run.  [page_runs n]
    is the service after [n + 1] runs with a cleanup between two runs, and
    [page_deliver] is the path an event from the server takes: the socket
    forwards it ([on_socket_event]), [emit] calls the listeners registered
    under its name, and each runs its handler.  The theorem shows this path
    equal to the direct dispatch [Mirror.dash_handle] the composed model
    uses: each event runs exactly one handler, the matching one, however
    many times the effect ran. *)

From S2P Require Import Prelude Json Gateway StateManager ClientServices Dashboard Mirror.
Import WebSocketService Dashboard.

Open Scope Z_scope.

(** What arrives on a socket: an event the server emitted, or Socket.IO's
    own [connect] and [disconnect]. *)
Inductive sock_event := SockServer (e : io_event) | SockConnect | SockDisconnect.

Definition sock_name (ev : sock_event) : string :=
  match ev with
  | SockServer (SensorUpdate _) => "sensor_update"
  | SockServer (StatusUpdate _) => "status_update"
  | SockServer (ModeUpdate _) => "mode_update"
  | SockConnect => "connect"
  | SockDisconnect => "disconnect"
  end.

(** The page: the shared [websocketService] instance and the component's state. *)
Record page := Page { pg_ws : ws_state; pg_dash : dash_state }.

(** The five closures of one run of the mount effect. *)
Inductive page_handler := HSensor | HStatus | HMode | HConnect | HDisconnect.

Definition handler_of (cb : nat) : page_handler :=
  match (cb mod 5)%nat with
  | 0 => HSensor | 1 => HStatus | 2 => HMode | 3 => HConnect | _ => HDisconnect
  end%nat.

(** [handleDisconnect()]: [setIsConnected(false)]. *)
Definition handleDisconnect (st : dash_state) : dash_state :=
  DashState (d_mode st) (d_pumpOn st) (d_sensors st) (d_remainingMs st) (pumpStartRef st)
            (pumpDurationRef st) (manualDurationSec st) false (d_isLoading st)
            (stopConfirmData st) (isStopSubmitting st).

(** The [handleConnect] closure: the state changes of
    [Dashboard.handleConnect] and its two requests on the service. *)
Definition page_connect (p : page) : page :=
  Page (requestStatus (requestSensors (pg_ws p))) (fst (handleConnect (pg_dash p))).

(** A closure called by [emit] with the event's payload. *)
Definition run_handler (h : page_handler) (ev : sock_event) (p : page) : page :=
  match h, ev with
  | HSensor, SockServer (SensorUpdate d) => Page (pg_ws p) (handleSensorUpdate d (pg_dash p))
  | HStatus, SockServer (StatusUpdate s) => Page (pg_ws p) (handleStatusUpdate s (pg_dash p))
  | HMode, SockServer (ModeUpdate m) => Page (pg_ws p) (handleModeUpdate m (pg_dash p))
  | HConnect, _ => page_connect p
  | HDisconnect, _ => Page (pg_ws p) (handleDisconnect (pg_dash p))
  | _, _ => p
  end.

(** The [websocketService.on] calls of run [k]. *)
Definition register (k : nat) (ws : ws_state) : ws_state :=
  on "disconnect" (5 * k + 4) (on "connect" (5 * k + 3) (on "mode_update" (5 * k + 2)
    (on "status_update" (5 * k + 1) (on "sensor_update" (5 * k) ws)))).

(** The cleanup of run [k]: [websocketService.off] of the same closures. *)
Definition unregister (k : nat) (ws : ws_state) : ws_state :=
  off "disconnect" (5 * k + 4) (off "connect" (5 * k + 3) (off "mode_update" (5 * k + 2)
    (off "status_update" (5 * k + 1) (off "sensor_update" (5 * k) ws)))).

(** Run [k] of the mount effect: [connect()], the registrations, and
    [handleConnect()] at once when the socket is already connected. *)
Definition page_mount (k : nat) (p : page) : page :=
  let p1 := Page (register k (connect (pg_ws p))) (pg_dash p) in
  if isConnected (pg_ws p1) then page_connect p1 else p1.

Definition page_unmount (k : nat) (p : page) : page := Page (unregister k (pg_ws p)) (pg_dash p).

(** [n + 1] runs of the effect, each but the last followed by its cleanup. *)
Fixpoint page_runs (n : nat) (p : page) : page :=
  match n with
  | O => page_mount 0 p
  | S n' => page_mount n (page_unmount n' (page_runs n' p))
  end.

(** An event arriving on socket [sid]: the socket's handler updates it and
    forwards the event to [emit], which calls the listeners of its name. *)
Definition page_deliver (sid : nat) (ev : sock_event) (p : page) : page :=
  let '(ws', evs) := on_socket_event sid (sock_name ev) (pg_ws p) in
  fold_left (fun p name =>
    fold_left (fun p cb => run_handler (handler_of cb) ev p) (fst (emit (fun _ => false) name (pg_ws p))) p)
    evs (Page ws' (pg_dash p)).

(** The closure a run registers under the name of [ev]. *)
Definition listener_of (ev : sock_event) : page_handler :=
  match ev with
  | SockServer (SensorUpdate _) => HSensor
  | SockServer (StatusUpdate _) => HStatus
  | SockServer (ModeUpdate _) => HMode
  | SockConnect => HConnect
  | SockDisconnect => HDisconnect
  end.

(** The listener table after run [k]. *)
Definition page_table (k : nat) : list (string * list nat) :=
  [("sensor_update", [5 * k]); ("status_update", [5 * k + 1]); ("mode_update", [5 * k + 2]);
   ("connect", [5 * k + 3]); ("disconnect", [5 * k + 4])]%nat.

(** ** The listener table *)

Lemma listeners_connect ws : listeners (connect ws) = listeners ws.
Proof. unfold connect. by destruct (current_connected ws). Qed.

Lemma listeners_request ev ws : listeners (request ev ws) = listeners ws.
Proof. unfold request. repeat case_match; done. Qed.

Lemma listeners_register k ws :
  listeners ws = listeners ws_init -> listeners (register k ws) = page_table k.
Proof. intros H. unfold register, on. rewrite H. reflexivity. Qed.

Lemma listeners_unregister k ws :
  listeners ws = page_table k -> listeners (unregister k ws) = listeners ws_init.
Proof. intros H. unfold unregister, off. rewrite H. cbn. by rewrite !Nat.eqb_refl. Qed.

Lemma listeners_page_connect p : listeners (pg_ws (page_connect p)) = listeners (pg_ws p).
Proof. unfold page_connect, requestStatus, requestSensors. simpl. by rewrite !listeners_request. Qed.

Lemma listeners_page_mount k p :
  listeners (pg_ws p) = listeners ws_init -> listeners (pg_ws (page_mount k p)) = page_table k.
Proof.
  intros H. unfold page_mount. case_match; [rewrite listeners_page_connect|]; simpl;
    apply listeners_register; by rewrite listeners_connect.
Qed.

Lemma listeners_page_runs n ws st :
  listeners ws = listeners ws_init -> listeners (pg_ws (page_runs n (Page ws st))) = page_table n.
Proof.
  intros H. induction n as [|n IH]; cbn [page_runs]; apply listeners_page_mount; [done|].
  unfold page_unmount; cbn [pg_ws]. by apply listeners_unregister.
Qed.

Lemma handler_of_run k i : handler_of (5 * k + i) = handler_of i.
Proof.
  unfold handler_of. by rewrite Nat.add_comm, Nat.mul_comm, Nat.Div0.mod_add.
Qed.

Lemma handler_of_run0 k : handler_of (5 * k) = HSensor.
Proof. rewrite <- (Nat.add_0_r (5 * k)). apply handler_of_run. Qed.

(** ** Delivery through the service *)

(** Whether the socket handler forwards the event: always, but a
    [connect] while [this.socket] is [null]. *)
Lemma on_socket_event_live sid ev ws s :
  find_socket sid ws = Some s -> ev <> SockConnect \/ socket ws <> None ->
  on_socket_event sid (sock_name ev) ws = (fst (on_socket_event sid (sock_name ev) ws), [sock_name ev]) /\
  listeners (fst (on_socket_event sid (sock_name ev) ws)) = listeners ws.
Proof.
  intros H Hc. unfold on_socket_event. rewrite H.
  destruct ev as [[]| |]; try done. destruct Hc as [Hc|Hc]; [done|]. by destruct (socket ws).
Qed.

Lemma on_socket_event_connect_null sid ws s :
  find_socket sid ws = Some s -> socket ws = None ->
  on_socket_event sid "connect" ws = (fst (on_socket_event sid "connect" ws), []).
Proof. intros H Hn. unfold on_socket_event. by rewrite H, Hn. Qed.

Lemma on_socket_event_server sid e ws s :
  find_socket sid ws = Some s -> fst (on_socket_event sid (sock_name (SockServer e)) ws) = ws.
Proof. intros H. unfold on_socket_event. rewrite H. by destruct e. Qed.

Lemma run_handler_ws h ev p : h <> HConnect -> pg_ws (run_handler h ev p) = pg_ws p.
Proof. intros. destruct h, ev as [[]| |]; done. Qed.

(** On a live socket, delivery runs the listeners the table has under the
    event's name, on the socket's updated service. *)
Lemma page_deliver_table n sid ev p s :
  listeners (pg_ws p) = page_table n -> find_socket sid (pg_ws p) = Some s ->
  ev <> SockConnect \/ socket (pg_ws p) <> None ->
  page_deliver sid ev p =
    fold_left (fun p cb => run_handler (handler_of cb) ev p)
      (default [] (lookup_listeners (sock_name ev) (page_table n)))
      (Page (fst (on_socket_event sid (sock_name ev) (pg_ws p))) (pg_dash p)).
Proof.
  intros Hl Hf Hc. destruct (on_socket_event_live sid ev _ _ Hf Hc) as [He Hl'].
  unfold page_deliver. rewrite He. cbn [fold_left pg_ws fst]. unfold emit. rewrite Hl'. rewrite Hl. by destruct (lookup_listeners _ _).
Qed.

Lemma page_deliver_one n sid ev p s :
  listeners (pg_ws p) = page_table n -> find_socket sid (pg_ws p) = Some s ->
  ev <> SockConnect \/ socket (pg_ws p) <> None ->
  page_deliver sid ev p =
    run_handler (listener_of ev) ev (Page (fst (on_socket_event sid (sock_name ev) (pg_ws p))) (pg_dash p)).
Proof.
  intros Hl Hf Hc. rewrite (page_deliver_table n sid ev p s Hl Hf Hc).
  destruct ev as [[]| |]; cbn -[Nat.mul Nat.add handler_of run_handler on_socket_event];
    rewrite ?handler_of_run0, ?handler_of_run; reflexivity.
Qed.

(** ** Properties *)

(** C10: the page's registration through [websocketService] is equivalent
    to direct dispatch, however many times the mount effect ran with its
    cleanup in between: on a live socket, a server event runs exactly the
    matching handler once ([Mirror.dash_handle]) and leaves the service
    unchanged, a [connect] runs [handleConnect] once (one pair of
    snapshot requests, not one per run) while the service holds a
    socket, and no handler once [disconnect()] has set it to [null] (the
    socket's [connect] listener throws on [this.socket.id]), a
    [disconnect] runs [handleDisconnect] once. *)
Theorem page_dispatch_equiv n st p sid :
  listeners (pg_ws p) = listeners (pg_ws (page_runs n (Page ws_init st))) ->
  find_socket sid (pg_ws p) <> None ->
  (forall e, page_deliver sid (SockServer e) p = Page (pg_ws p) (dash_handle e (pg_dash p))) /\
  page_deliver sid SockConnect p =
    (let p' := Page (fst (on_socket_event sid "connect" (pg_ws p))) (pg_dash p) in
     match socket (pg_ws p) with Some _ => page_connect p' | None => p' end) /\
  page_deliver sid SockDisconnect p =
    Page (fst (on_socket_event sid "disconnect" (pg_ws p))) (handleDisconnect (pg_dash p)).
Proof.
  intros Hl Hf. rewrite listeners_page_runs in Hl by done.
  destruct (find_socket sid (pg_ws p)) as [s|] eqn:Hs; [|done].
  split_and!; [intros e| |].
  - rewrite (page_deliver_one n sid _ p s Hl Hs) by (left; done).
    rewrite (on_socket_event_server sid e _ s Hs). by destruct e.
  - destruct (socket (pg_ws p)) as [i|] eqn:Hi.
    + by rewrite (page_deliver_one n sid _ p s Hl Hs) by (right; congruence).
    + unfold page_deliver. cbn [sock_name]. by rewrite (on_socket_event_connect_null sid _ s Hs Hi).
  - by rewrite (page_deliver_one n sid _ p s Hl Hs) by (left; done).
Qed.

(** ** Examples *)

(** Three runs (React's development remount and one more): socket [0] of
    the first run is still live, and a status event on it reaches the
    page once. *)
Lemma page_dispatch_equiv_witness :
  let p := page_runs 2 (Page ws_init dash_init) in
  page_deliver 0 (SockServer (StatusUpdate (Status true Manual (Some 5) 10000 7000 (Some CmdStart) (Some 5)))) p =
    Page (pg_ws p) (dash_handle (StatusUpdate (Status true Manual (Some 5) 10000 7000 (Some CmdStart) (Some 5))) (pg_dash p)).
Proof.
  intros p. apply (page_dispatch_equiv 2 dash_init p 0); [reflexivity|vm_compute; discriminate].
Defined.
