(* ===== verification/ConfirmStop.v ===== *)
(** * The dashboard's confirm-stop flow.

    [requestStopPump] opens the dialog ([Dashboard.requestStopPump]); its
    "Stop anyway" button runs [handleConfirmStop], which awaits
    [stopPumpEarly(mode, { force: true })] and then closes the dialog.
    [stopPumpEarly] sets [isStopSubmitting], awaits [apiService.stopPump()],
    and on success appends a history entry and marks the watering time; on
    failure it alerts; in both cases it clears [isStopSubmitting].  Each
    [async] function is split at its [await]: the part before it returns
    the state and what its closure keeps ([stop_call]), the [_resume] part
    runs when the request settles.  Anything the page handles in between
    (a [status_update] from the socket, a click on a disabled button)
    runs on the intermediate state.  A [null] answer makes
    [result.runTime] throw: the [catch] alerts it.  The estimated litres
    [(flow * durationMs) / 60000.0] are a float, outside the integer JSON
    numbers of the model: the section variable [liters] stands for them
    as [JSON.stringify] stores them, a number or [null] (for [NaN], when
    the flow reading is not numeric), and the theorems on the History
    page say what a [null] estimate does to it.
    The entries this flow writes are then followed to the History page:
    their CSV lines and the table rows React renders for them. *)

From S2P Require Import Prelude Json JsonText Gateway Hub StateManager System ClientServices Dashboard History.
Import IoHub ApiService Dashboard History.

Open Scope Z_scope.

Module StopFlow.

Section Flow.
Variable liters : jsval -> jsval -> json.

(** The parts of the page the flow touches: its state, [localStorage],
    the [lastWatered] state, and the alerts shown. *)
Record stop_page := StopPage {
  p_dash : dash_state;
  p_store : storage;
  p_lastWatered : option Z;
  p_alerts : list request_error
}.

Definition with_dash (f : dash_state -> dash_state) (p : stop_page) : stop_page :=
  StopPage (f (p_dash p)) (p_store p) (p_lastWatered p) (p_alerts p).

(** [setIsStopSubmitting(b)]. *)
Definition set_submitting (b : bool) (st : dash_state) : dash_state :=
  DashState (d_mode st) (d_pumpOn st) (d_sensors st) (d_remainingMs st) (pumpStartRef st)
            (pumpDurationRef st) (manualDurationSec st) (d_isConnected st) (d_isLoading st)
            (stopConfirmData st) b.

(** What the suspended [stopPumpEarly] keeps: its label and the [sensors]
    of the render it was called from. *)
Record stop_call := StopCall { call_label : string; call_sensors : dash_sensors }.

(** [stopPumpEarly(modeLabel, { force })] up to its [await]: [None] when it
    returns at the guard; otherwise [isStopSubmitting] is set and
    [apiService.stopPump()] is sent. *)
Definition stopPumpEarly (label : string) (force : bool) (p : stop_page) : option (stop_page * stop_call) :=
  if negb (d_pumpOn (p_dash p)) && negb force then None
  else Some (with_dash (set_submitting true) p, StopCall label (d_sensors (p_dash p))).

(** An object literal: [undefined] properties are left out by
    [JSON.stringify]. *)
Definition present (fields : list (string * jsval)) : list (string * json) :=
  omap (fun '(k, v) => match v with Some x => Some (k, x) | None => None end) fields.

(** [{ ...sensors }]. *)
Definition sensors_obj (d : dash_sensors) : json :=
  JObj (present [("temp", ds_temp d); ("hum", ds_hum d); ("soil", ds_soil d);
                 ("level", ds_level d); ("flow", ds_flow d)]).

(** The five readings of [sensors], in the order of [sensors_obj]. *)
Definition sensor_values (d : dash_sensors) : list jsval :=
  [ds_temp d; ds_hum d; ds_soil d; ds_level d; ds_flow d].

(** [const flow = sensors.flow || 0; const liters = (flow * durationMs) / 60000.0],
    as [JSON.stringify] stores it: a number, or [null] for [NaN]. *)
Definition stop_liters (c : stop_call) (durationMs : jsval) : json :=
  liters (ds_flow (call_sensors c) ||| Some (JNum 0)) durationMs.

(** The entry [stopPumpEarly] appends; [pumpStartRef.current] is read
    when the answer arrives. *)
Definition stop_entry (c : stop_call) (now : Z) (result : json) (st : dash_state) : json :=
  let durationMs := history_duration result now st in
  JObj (present [("timestamp", Some (JNum now)); ("mode", Some (JStr (call_label c)));
                 ("durationMs", durationMs);
                 ("estimatedLiters", Some (stop_liters c durationMs));
                 ("sensors", Some (sensors_obj (call_sensors c)));
                 ("stoppedEarly", Some (JBool true))]).

(** The rest of [stopPumpEarly] when [apiService.stopPump()] settles:
    the [try] body or the [catch], then the [finally].  A [null] answer
    makes [result.runTime] throw a [TypeError] inside the [try]: the
    [catch] alerts it and nothing is recorded. *)
Definition stopPumpEarly_resume (c : stop_call) (now : Z) (res : json + request_error) (p : stop_page) : stop_page :=
  let p1 :=
    match res with
    | inl JNull => StopPage (p_dash p) (p_store p) (p_lastWatered p) (p_alerts p ++ [TypeErrorOnNull])
    | inl result =>
        let ls := fst (addHistoryEntry (stop_entry c now result (p_dash p)) (p_store p)) in
        StopPage (p_dash p) (markLastWatered now ls) (Some now) (p_alerts p)
    | inr err => StopPage (p_dash p) (p_store p) (p_lastWatered p) (p_alerts p ++ [err])
    end in
  with_dash (set_submitting false) p1.

(** [handleConfirmStop()] up to its [await]. *)
Definition handleConfirmStop (p : stop_page) : option (stop_page * stop_call) :=
  match stopConfirmData (p_dash p) with
  | None => None
  | Some d => stopPumpEarly (if String.eqb (sc_mode d) "" then "manual" else sc_mode d) true p
  end.

(** [setStopConfirmData(null)] after [stopPumpEarly] returns. *)
Definition handleConfirmStop_resume (c : stop_call) (now : Z) (res : json + request_error)
    (p : stop_page) : stop_page :=
  with_dash (with_confirm None) (stopPumpEarly_resume c now res p).

(** The dialog's buttons are [disabled] while [isStopSubmitting]. *)
Definition confirm_click (p : stop_page) : option (stop_page * stop_call) :=
  if isStopSubmitting (p_dash p) then None else handleConfirmStop p.

Definition cancel_click (p : stop_page) : stop_page :=
  if isStopSubmitting (p_dash p) then p else with_dash handleCancelStop p.

End Flow.

End StopFlow.

Import StopFlow.

(** ** The flow's steps *)

Section Props.
Variable liters : jsval -> jsval -> json.

Lemma hub_stop_broadcast w r :
  hub (stopPumpInternal r w) =
    emit_all (StatusUpdate (status_of (sys (stopPumpInternal r w)) (clock (stopPumpInternal r w))))
             (hub w).
Proof. unfold stopPumpInternal, emitSystemState, io_emit, publish, publishCommand. by repeat case_match. Qed.

Lemma stop_resume_store c now res q l :
  history_rows (p_store q) = Some (JArr l) -> 0 < now ->
  let q' := stopPumpEarly_resume liters c now res q in
  isStopSubmitting (p_dash q') = false /\ p_dash q' = set_submitting false (p_dash q) /\
  match res with
  | inl JNull => p_store q' = p_store q /\ p_alerts q' = p_alerts q ++ [TypeErrorOnNull]
  | inl result =>
      history_rows (p_store q') = Some (JArr (l ++ [stop_entry liters c now result (p_dash q)])) /\
      stored_last_watered (p_store q') = Some now /\ p_lastWatered q' = Some now
  | inr e => p_store q' = p_store q /\ p_alerts q' = p_alerts q ++ [e]
  end.
Proof.
  intros Hl Hnow. unfold stopPumpEarly_resume, with_dash.
  destruct res as [result|e]; [destruct result|];
    cbn [p_store p_dash p_lastWatered p_alerts]; try done;
    rewrite history_rows_mark, (history_rows_add _ _ _ Hl); by rewrite stored_mark.
Qed.

Lemma confirm_click_some p p1 c :
  confirm_click p = Some (p1, c) ->
  p1 = with_dash (set_submitting true) p /\ call_sensors c = d_sensors (p_dash p).
Proof.
  unfold confirm_click, handleConfirmStop, stopPumpEarly.
  repeat case_match; intros; simplify_eq/=; [done|by rewrite andb_false_r in *].
Qed.

Lemma js_get_sensors_obj d : js_get (sensors_obj d) <$> sensor_keys = sensor_values d.
Proof. destruct d as [t h s l f]. by destruct t, h, s, l, f. Qed.

Lemma stop_entry_fields c now result st :
  let r := stop_entry liters c now result st in
  js_get r "timestamp" = Some (JNum now) /\ js_get r "mode" = Some (JStr (call_label c)) /\
  js_get r "durationMs" = history_duration result now st /\
  js_get r "estimatedLiters" = Some (stop_liters liters c (history_duration result now st)) /\
  js_get r "sensors" = Some (sensors_obj (call_sensors c)).
Proof. cbv zeta. unfold stop_entry. by destruct (history_duration result now st). Qed.

Section Csv.
(** [liters] is a JavaScript number; [JSON.stringify] writes [NaN] and the
    infinities as [null]. *)
Hypothesis liters_num_or_null : forall f d, (exists z, liters f d = JNum z) \/ liters f d = JNull.
Variable formatDate : jsval -> string.

(** An entry [stopPumpEarly] writes has its nine CSV values, unless its
    litre estimate was stored as [null]: then the template's
    [toFixed] throws. *)
Lemma stop_entry_csv c now result st :
  (csv_fields (stop_entry liters c now result st) = None <->
     stop_liters liters c (history_duration result now st) = JNull) /\
  (stop_liters liters c (history_duration result now st) <> JNull ->
     exists fs, csv_fields (stop_entry liters c now result st) = Some fs /\ length fs = 9%nat).
Proof.
  cbv beta zeta delta [stop_entry stop_liters].
  destruct (liters_num_or_null (ds_flow (call_sensors c) ||| Some (JNum 0)) (history_duration result now st))
    as [[z ->]| ->]; destruct (history_duration result now st);
    (split; [split; intros H; first [reflexivity | discriminate H]|
             intros Hn; first [by destruct Hn | by eexists]]).
Qed.

(** C13: the CSV export of a history the dashboard wrote (entries of
    [stopPumpEarly]) fails with a TypeError exactly when the litre
    estimate of one of its entries was stored as [null] ([NaN] in the
    page); otherwise it is the header and one line per entry in stored
    order, each line is the entry's nine values joined by commas, and it
    splits back into them when no value contains a comma. *)
Theorem stop_entries_csv (es : list (stop_call * Z * json * dash_state)) :
  es <> [] ->
  let rows := (fun e => stop_entry liters e.1.1.1 e.1.1.2 e.1.2 e.2) <$> es in
  (export_csv rows = CsvError <->
     Exists (fun e => stop_liters liters e.1.1.1 (history_duration e.1.2 e.1.1.2 e.2) = JNull) es) /\
  (Forall (fun e => stop_liters liters e.1.1.1 (history_duration e.1.2 e.1.1.2 e.2) <> JNull) es ->
   exists lines, export_csv rows = Csv (join_nl (csv_header :: lines)) /\
    Forall2 (fun r line => exists fs, csv_fields r = Some fs /\ length fs = 9%nat /\ line = join_comma fs /\
               (Forall (fun f => has_comma f = false) fs -> split_comma line = fs)) rows lines).
Proof.
  intros Hne rows.
  assert (Hrne : rows <> []) by (unfold rows; destruct es; [done|discriminate]).
  split.
  { rewrite (export_csv_error _ Hrne). unfold rows. rewrite Exists_fmap.
    apply Exists_proper; [intros e; apply stop_entry_csv|done]. }
  intros Hgood.
  assert (Hrows : Forall (fun r => exists fs, csv_fields r = Some fs /\ length fs = 9%nat) rows).
  { apply Forall_fmap. eapply Forall_impl; [exact Hgood|]. intros e Hn. by apply stop_entry_csv. }
  exists ((fun r => join_comma (default [] (csv_fields r))) <$> rows). split.
  - apply export_csv_rows; [done|].
    apply Forall2_fmap_r, Forall_Forall2_diag. eapply Forall_impl; [exact Hrows|].
    intros r (fs & Hfs & _). unfold compose, csv_line. rewrite Hfs. reflexivity.
  - apply Forall2_fmap_r, Forall_Forall2_diag. eapply Forall_impl; [exact Hrows|].
    intros r (fs & Hfs & Hlen). unfold compose. exists fs. rewrite Hfs. split_and!; [done..|].
    intros Hc. apply split_join; [by destruct fs|done].
Qed.

Lemma stop_liters_cases c d : (exists z, stop_liters liters c d = JNum z) \/ stop_liters liters c d = JNull.
Proof. apply liters_num_or_null. Qed.

(** The row the History page renders for an entry [stopPumpEarly] wrote
    with a numeric litre estimate: its time, label, duration and litres,
    then the readings, unless one of them is an object. *)
Lemma stop_entry_cells c now result st :
  stop_liters liters c (history_duration result now st) <> JNull ->
  exists lit, history_cells formatDate (stop_entry liters c now result st) =
    (rs ← mapM react_child (sensor_values (call_sensors c));
     Some (formatDate (Some (JNum now)) :: call_label c :: duration_cell (history_duration result now st) ::
           lit :: rs)).
Proof.
  intros Hn. destruct (stop_entry_fields c now result st) as (Ht & Hm & Hd & Hl & Hs).
  destruct (stop_liters_cases c (history_duration result now st)) as [[z Hz]|Hz]; [|done].
  rewrite Hz in Hl. exists (pretty z +:+ ".000").
  rewrite (history_cells_row formatDate _ (sensors_obj (call_sensors c)) z (call_label c));
    [|unfold stop_entry; done|unfold sensors_obj; done|done|done|by rewrite Hm].
  by rewrite Ht, Hd, js_get_sensors_obj.
Qed.

(** A [null] estimate makes [toFixed] throw: the row does not render. *)
Lemma stop_entry_cells_None c now result st :
  history_cells formatDate (stop_entry liters c now result st) = None <->
  stop_liters liters c (history_duration result now st) = JNull \/
  Exists (fun v => react_child v = None) (sensor_values (call_sensors c)).
Proof.
  destruct (stop_liters_cases c (history_duration result now st)) as [[z Hz]|Hz].
  - destruct (stop_entry_cells c now result st) as [lit ->]; [by rewrite Hz|].
    rewrite <-mapM_None, Hz. destruct (mapM _ _); naive_solver.
  - split; [by left|]. intros _. destruct (stop_entry_fields c now result st) as (_ & _ & _ & Hl & _).
    unfold history_cells. rewrite Hl, Hz. reflexivity.
Qed.

Lemma stop_entry_row c now result st row :
  history_cells formatDate (stop_entry liters c now result st) = Some row ->
  row !! 0%nat = Some (formatDate (Some (JNum now))) /\ row !! 1%nat = Some (call_label c).
Proof.
  intros Hr. destruct (stop_liters_cases c (history_duration result now st)) as [[z Hz]|Hz].
  - destruct (stop_entry_cells c now result st) as [lit Hc]; [by rewrite Hz|].
    rewrite Hc in Hr. destruct (mapM _ _); naive_solver.
  - assert (history_cells formatDate (stop_entry liters c now result st) = None)
      by (apply stop_entry_cells_None; by left). congruence.
Qed.

(** C33: the History page after the dashboard appended entries to a history
    whose rows all render: it goes blank, Export and Clear buttons
    included, exactly when one of the new entries has a [null] litre
    estimate (its [toFixed] throws) or carries a sensor reading React
    cannot render (a JSON object the device sent); every later entry
    leaves it blank.  Otherwise it shows the old and the new
    rows, the new ones first, newest first, each with its time and mode. *)
Theorem stop_history_page (es : list (stop_call * Z * json * dash_state)) ls l :
  history_rows ls = Some (JArr l) -> Forall (fun r => is_Some (history_cells formatDate r)) l -> es <> [] ->
  let rows := (fun e => stop_entry liters e.1.1.1 e.1.1.2 e.1.2 e.2) <$> es in
  (history_page_of formatDate (add_all rows ls) = PageBlank <->
     Exists (fun e => stop_liters liters e.1.1.1 (history_duration e.1.2 e.1.1.2 e.2) = JNull \/
                      Exists (fun v => react_child v = None) (sensor_values (call_sensors e.1.1.1))) es) /\
  (Forall (fun e => stop_liters liters e.1.1.1 (history_duration e.1.2 e.1.1.2 e.2) <> JNull /\
                    Forall (fun v => is_Some (react_child v)) (sensor_values (call_sensors e.1.1.1))) es ->
     exists t, history_page_of formatDate (add_all rows ls) = PageTable t /\
       length t = (length es + length l)%nat /\
       Forall2 (fun row e => row !! 0%nat = Some (formatDate (Some (JNum e.1.1.2))) /\
                            row !! 1%nat = Some (call_label e.1.1.1)) (take (length es) t) (reverse es)).
Proof.
  intros Hl Hold Hne rows.
  assert (Hv : history_view_of (add_all rows ls) = Rows (reverse rows ++ reverse l)).
  { rewrite (history_view_rows _ (l ++ rows)), rev_reverse, reverse_app; [done|by apply add_all_arr|].
    intros [_ Hr]%app_eq_nil. by apply fmap_nil_inv in Hr. }
  assert (Hrows : Exists (fun r => history_cells formatDate r = None) rows <->
                  Exists (fun e => stop_liters liters e.1.1.1 (history_duration e.1.2 e.1.1.2 e.2) = JNull \/
                                   Exists (fun v => react_child v = None) (sensor_values (call_sensors e.1.1.1))) es).
  { unfold rows. rewrite Exists_fmap. apply Exists_proper; [intros e; apply stop_entry_cells_None|done]. }
  unfold history_page_of. rewrite Hv. split.
  - transitivity (mapM (history_cells formatDate) (reverse rows ++ reverse l) = None); [by destruct (mapM _ _)|].
    rewrite mapM_None, Exists_app, !Exists_reverse, <-Hrows.
    pose proof (Forall_not_Exists_None _ _ Hold). naive_solver.
  - intros Hgood.
    destruct (mapM (history_cells formatDate) (reverse rows ++ reverse l)) as [t|] eqn:Hm.
    2:{ exfalso. apply mapM_None in Hm. rewrite Exists_app, !Exists_reverse, Hrows in Hm.
        destruct Hm as [Hm|Hm]; [|by apply (Forall_not_Exists_None _ _ Hold)].
        apply Exists_exists in Hm as (e & He & Hb). rewrite Forall_forall in Hgood.
        destruct (Hgood e He) as [Hn Hf]. destruct Hb as [Hb|Hb]; [done|].
        exact (Forall_not_Exists_None _ _ Hf Hb). }
    exists t. split; [done|].
    apply mapM_Some, Forall2_app_inv_l in Hm as (t1 & t2 & H1 & H2 & ->).
    assert (Hlen : length t1 = length es).
    { rewrite <-(Forall2_length _ _ _ H1), length_reverse. unfold rows. by rewrite length_fmap. }
    split.
    + by rewrite length_app, <-(Forall2_length _ _ _ H2), length_reverse, Hlen.
    + rewrite <-Hlen, take_app_length. unfold rows in H1. rewrite <-fmap_reverse, Forall2_fmap_l in H1.
      apply Forall2_flip. eapply Forall2_impl; [exact H1|]. intros e row Hr. by apply stop_entry_row in Hr.
Qed.

End Csv.

(** ** Properties *)

(** C12: the confirm-stop dialog: with a pending confirmation and no stop in
    flight, "Stop anyway" sends one stop request for the dialog's mode
    (["manual"] when empty) and disables both buttons until it settles
    (cancel and a second confirm do nothing).  When the request settles,
    whatever the page did meanwhile, the dialog closes and the buttons are
    enabled again; a success appends exactly one entry to the stored
    history and stores the watering time, read back exactly; a failure,
    or a [null] answer (whose [result.runTime] throws), records nothing
    and alerts the error. *)
Theorem confirm_stop_flow p d :
  stopConfirmData (p_dash p) = Some d -> isStopSubmitting (p_dash p) = false ->
  exists p1 c, confirm_click p = Some (p1, c) /\
    call_label c = (if String.eqb (sc_mode d) "" then "manual" else sc_mode d) /\
    isStopSubmitting (p_dash p1) = true /\ cancel_click p1 = p1 /\ confirm_click p1 = None /\
    forall q now res l, history_rows (p_store q) = Some (JArr l) -> 0 < now ->
      let q' := handleConfirmStop_resume liters c now res q in
      stopConfirmData (p_dash q') = None /\ isStopSubmitting (p_dash q') = false /\
      match res with
      | inl JNull => p_store q' = p_store q /\ p_alerts q' = p_alerts q ++ [TypeErrorOnNull]
      | inl result =>
          history_rows (p_store q') = Some (JArr (l ++ [stop_entry liters c now result (p_dash q)])) /\
          stored_last_watered (p_store q') = Some now /\ p_lastWatered q' = Some now
      | inr e => p_store q' = p_store q /\ p_alerts q' = p_alerts q ++ [e]
      end.
Proof.
  intros Hd Hs. unfold confirm_click at 1, handleConfirmStop, stopPumpEarly.
  rewrite Hs, Hd, andb_false_r. eexists _, _. split_and!; [reflexivity..|].
  intros q now res l Hl Hnow.
  match goal with |- context [handleConfirmStop_resume _ ?c _ _ _] =>
    destruct (stop_resume_store c now res q l Hl Hnow) as (Hsub & _ & Hres) end.
  unfold handleConfirmStop_resume, with_dash at 1. cbn [p_dash p_store p_alerts p_lastWatered].
  split; [done|]. split; [exact Hsub|]. exact Hres.
Qed.

(** C11: the recorded duration of a confirmed stop depends on the order in
    which the page handles two messages of the same server step.  The stop
    route broadcasts the stopped status (no start time) to every observer
    and answers without [runTime]; if the page handles the answer first it
    records [now - start], if it handles the broadcast first its start ref
    is already cleared and it records a duration of 0. *)
Theorem stop_history_order w p p1 c now t0 :
  pumpOn (sys w) = true -> pumpStartRef (p_dash p) = Some t0 ->
  confirm_click p = Some (p1, c) ->
  let '(r, w') := post_pump_stop w in
  let s := status_of (sys w') (clock w') in
  hub w' = emit_all (StatusUpdate s) (hub w) /\
  exists result, request_result (fetch_backend r (sys w')) = inl result /\
    js_get (stop_entry liters c now result (p_dash p1)) "durationMs" = Some (JNum (now - t0)) /\
    js_get (stop_entry liters c now result (handleStatusUpdate s (p_dash p1))) "durationMs" =
      Some (JNum 0).
Proof.
  intros Hon Ht Hc. destruct (confirm_click_some _ _ _ Hc) as [-> _].
  unfold post_pump_stop. rewrite Hon. cbn [negb fst snd].
  split; [apply hub_stop_broadcast|]. eexists; split; [reflexivity|].
  split; cbn; [by rewrite Ht|by rewrite Z.sub_diag].
Qed.

End Props.

(** ** Examples *)

Lemma stop_entries_csv_witness :
  (exists lines,
    export_csv [stop_entry (fun _ _ => JNum 0) (StopCall "manual" (d_sensors dash_init)) 1000 (JObj [])
                           dash_init] = Csv (join_nl (csv_header :: lines))) /\
  export_csv [stop_entry (fun _ _ => JNull) (StopCall "manual" (d_sensors dash_init)) 1000 (JObj [])
                         dash_init] = CsvError.
Proof.
  split.
  - destruct (stop_entries_csv (fun _ _ => JNum 0) (fun _ _ => or_introl (ex_intro _ 0 eq_refl))
                [(StopCall "manual" (d_sensors dash_init), 1000, JObj [], dash_init)] ltac:(discriminate))
      as [_ H]. destruct H as (lines & H & _); [by repeat constructor|]. exists lines. exact H.
  - destruct (stop_entries_csv (fun _ _ => JNull) (fun _ _ => or_intror eq_refl)
                [(StopCall "manual" (d_sensors dash_init), 1000, JObj [], dash_init)] ltac:(discriminate))
      as [H _]. apply H. by apply Exists_cons_hd.
Defined.

(** A stop recorded while the device reported its soil moisture as an
    object: the History page renders nothing. *)
Lemma stop_history_page_witness :
  history_page_of (fun _ => "")
    (add_all [stop_entry (fun _ _ => JNum 0)
                (StopCall "manual" (DashSensors (Some (JNum 24)) (Some (JNum 66)) (Some (JObj [("v", JNum 41)]))
                                                (Some (JNum 56)) (Some (JNum 0))))
                1000 (JObj []) dash_init] ∅) = PageBlank.
Proof.
  destruct (stop_history_page (fun _ _ => JNum 0) (fun _ _ => or_introl (ex_intro _ 0 eq_refl)) (fun _ => "")
              [(StopCall "manual" (DashSensors (Some (JNum 24)) (Some (JNum 66)) (Some (JObj [("v", JNum 41)]))
                                               (Some (JNum 56)) (Some (JNum 0))), 1000, JObj [], dash_init)]
              ∅ [] ltac:(unfold history_rows; by rewrite lookup_empty) (List.Forall_nil _) ltac:(discriminate))
    as [H _].
  apply H. apply Exists_cons_hd. right. do 2 apply Exists_cons_tl. apply Exists_cons_hd. reflexivity.
Defined.

(** A reading the device sent as ["1,5"] shifts the line's columns: it
    splits into ten values. *)
Lemma csv_comma_shifts :
  exists line,
    csv_line (stop_entry (fun _ _ => JNum 0)
                (StopCall "manual" (DashSensors (Some (JStr "1,5")) (Some (JNum 66)) (Some (JNum 60))
                                                (Some (JNum 56)) (Some (JNum 0))))
                1000 (JObj []) dash_init) = Some line /\ length (split_comma line) = 10%nat.
Proof. eexists. split; [reflexivity|]. vm_compute. reflexivity. Qed.

(** A confirmation opened with an empty mode label, the pump already off
    on the page: the forced stop is sent under ["manual"], and its success
    leaves a one-entry history. *)
Lemma confirm_stop_flow_witness :
  let p := StopPage (with_confirm (Some (StopConfirm "" 5000 (d_sensors dash_init))) dash_init) ∅ None [] in
  exists p1 c, confirm_click p = Some (p1, c) /\ call_label c = "manual" /\
    history_rows (p_store (handleConfirmStop_resume (fun _ _ => JNull) c 1700000000000 (inl (JObj [])) p1))
      = Some (JArr [stop_entry (fun _ _ => JNull) c 1700000000000 (JObj []) (p_dash p1)]).
Proof.
  intros p.
  destruct (confirm_stop_flow (fun _ _ => JNull) p (StopConfirm "" 5000 (d_sensors dash_init))
              eq_refl eq_refl) as (p1 & c & H1 & H2 & _ & _ & _ & H).
  exists p1, c. split_and!; [exact H1|by rewrite H2|].
  destruct (confirm_click_some _ _ _ H1) as [-> _].
  destruct (H (with_dash (set_submitting true) p) 1700000000000 (inl (JObj [])) [] eq_refl ltac:(lia)) as (_ & _ & Hh & _). exact Hh.
Defined.

(** A 10 s cycle started at 1000, stopped from the dialog at 4000 by a
    page that mirrors it: 3000 ms or 0 ms depending on the order. *)
Lemma stop_history_order_witness :
  let w := trace_world [EvMqttStart; EvMqttConnect; EvPostStart (Some 10); EvTick 3000] in
  let p := StopPage (with_confirm (Some (StopConfirm "manual" 7000 (d_sensors dash_init)))
                              (handleStatusUpdate (get_status w) dash_init)) ∅ None [] in
  let c := StopCall "manual" (d_sensors dash_init) in
  let '(r, w') := post_pump_stop w in
  let s := status_of (sys w') (clock w') in
  hub w' = emit_all (StatusUpdate s) (hub w) /\
  exists result, request_result (fetch_backend r (sys w')) = inl result /\
    js_get (stop_entry (fun _ _ => JNull) c 4000 result (p_dash (with_dash (set_submitting true) p)))
      "durationMs" = Some (JNum (4000 - 1000)) /\
    js_get (stop_entry (fun _ _ => JNull) c 4000 result
              (handleStatusUpdate s (p_dash (with_dash (set_submitting true) p)))) "durationMs" =
      Some (JNum 0).
Proof.
  intros w p c.
  apply (stop_history_order (fun _ _ => JNull) w p (with_dash (set_submitting true) p) c 4000 1000);
    vm_compute; reflexivity.
Defined.
