(* ===== verification/App.v ===== *)
(** * The application shell: routing, login and the confirm-stop page.

    [App.jsx] keeps the user in a state initialised from [localStorage]
    ([JSON.parse] of the [LS_AUTH] entry), guards the dashboard, history
    and confirm-stop routes with [ProtectedRoute] (which reads the entry's
    raw text, not the user state), and redirects to ["/login"] while the
    user is falsy.  [Login.jsx] checks the fixed credentials and calls
    [login], which stores the user and goes to ["/"]; [logout] removes it.
    The router is modelled by a stack of locations (the browser history)
    and [settle], which follows [<Navigate replace>] elements until a page
    renders; [ConfirmStopPage] reads [confirmServices]' pending stop on its
    first render and goes back when there is none.  [NavTabs], shown
    while the user is truthy, highlights the current tab and greets the
    user. *)

From S2P Require Import Prelude Json JsonText ClientServices Dashboard History.
Import ConfirmService History.

Open Scope Z_scope.

Module Shell.

Definition LS_AUTH : string := "smart-watering-auth".

(** What a route renders. *)
Inductive element := ELogin | EDashboard | EHistory | EConfirmStop | ENavigate (to : string).

(** [!!localStorage.getItem(LS_AUTH)]. *)
Definition authenticated (ls : storage) : bool :=
  match ls !! LS_AUTH with Some v => negb (String.eqb v "") | None => false end.

(** [ProtectedRoute]: the child, or [<Navigate to="/login" replace />]. *)
Definition ProtectedRoute (ls : storage) (child : element) : element :=
  if authenticated ls then child else ENavigate "/login".

(** The [<Routes>] of [App]. *)
Definition routes (path : string) (ls : storage) : element :=
  if String.eqb path "/login" then ELogin
  else if String.eqb path "/" then ProtectedRoute ls EDashboard
  else if String.eqb path "/history" then ProtectedRoute ls EHistory
  else if String.eqb path "/confirm-stop" then ProtectedRoute ls EConfirmStop
  else ENavigate "/".

(** The app: the [user] state ([null] is [JNull]), the browser history
    (current location first) and [localStorage]. *)
Record app := AppState { user : json; locs : list string; store : storage }.

Definition location (a : app) : string := default "/" (head (locs a)).

(** [navigate(path)] pushes a location; [<Navigate replace>] replaces the
    current one; [navigate(-1)] goes back (at the first entry the browser
    leaves the app, modelled as staying). *)
Definition navigate (p : string) (a : app) : app := AppState (user a) (p :: locs a) (store a).

Definition navigate_replace (p : string) (a : app) : app := AppState (user a) (p :: tail (locs a)) (store a).

Definition go_back (a : app) : app :=
  match locs a with
  | _ :: ((_ :: _) as rest) => AppState (user a) rest (store a)
  | _ => a
  end.

(** The [useState] initialiser: [v ? JSON.parse(v) : null]; [None] when
    [JSON.parse] throws, which makes [App] throw: nothing renders. *)
Definition app_init (ls : storage) (path : string) : option app :=
  match ls !! LS_AUTH with
  | Some v =>
      if String.eqb v "" then Some (AppState JNull [path] ls)
      else match parse v with Some u => Some (AppState u [path] ls) | None => None end
  | None => Some (AppState JNull [path] ls)
  end.

(** The effect [if (!user) navigate("/login")]. *)
Definition auth_effect (a : app) : app := if truthy (Some (user a)) then a else navigate "/login" a.

(** [login(userObj)] and [logout()]. *)
Definition login (userObj : json) (a : app) : app :=
  navigate "/" (AppState userObj (locs a) (<[LS_AUTH := stringify userObj]> (store a))).

Definition logout (a : app) : app := navigate "/login" (AppState JNull (locs a) (delete LS_AUTH (store a))).

(** Rendering follows [<Navigate replace>] elements; three steps reach a
    page from any location (unknown, then ["/"], then ["/login"]). *)
Fixpoint settle (fuel : nat) (a : app) : element * app :=
  match fuel with
  | O => (routes (location a) (store a), a)
  | S fuel' =>
      match routes (location a) (store a) with
      | ENavigate p => settle fuel' (navigate_replace p a)
      | e => (e, a)
      end
  end.

Definition render (a : app) : element * app := settle 3 a.

(** [NavTabs] is shown while [user] is truthy. *)
Definition nav_shown (a : app) : bool := truthy (Some (user a)).

(** [NavLink]'s [isActive]: the location is the link's path or, without
    [end], a path below it (react-router also ignores case, which the
    application's lower-case paths never exercise). *)
Definition nav_active (to : string) (end_ : bool) (loc : string) : bool :=
  String.eqb loc to || (negb end_ && String.prefix (to +:+ "/") loc).

(** [NavTabs]: whether Home ([to="/" end]) and History ([to="/history"])
    are highlighted, and the greeting [Hi, {username}] ([None] when React
    throws on an object); Logout calls the [onLogout] prop, [logout]. *)
Definition NavTabs (loc : string) (uname : jsval) : bool * bool * option string :=
  (nav_active "/" true loc, nav_active "/history" false loc, (fun u => "Hi, " +:+ u) <$> react_child uname).

(** [{user && <NavTabs onLogout={logout} username={user.username} />}]. *)
Definition app_nav (a : app) : option (bool * bool * option string) :=
  if nav_shown a then Some (NavTabs (location a) (js_get (user a) "username")) else None.

(** [Login]'s form state and [submit]. *)
Record login_form := LoginForm { username : string; password : string; err : string }.

Definition submit (f : login_form) : login_form * option json :=
  if String.eqb (username f) "admin" && String.eqb (password f) "password"
  then (f, Some (JObj [("username", JStr "admin")]))
  else (LoginForm (username f) (password f) "Invalid credentials. Try admin / password", None).

(** A submitted form on the login page: [onLogin] when it calls it. *)
Definition login_submit (f : login_form) (a : app) : login_form * app :=
  let '(f', u) := submit f in
  match u with Some userObj => (f', login userObj a) | None => (f', a) end.

(** The form's events: typing in either input ([onChange] with
    [e.target.value]) and the "Sign in" button.  Both inputs are
    [required]: the browser's constraint validation blocks the submit
    event while one of them is empty, and [submit] does not run. *)
Inductive login_event := TypeUsername (v : string) | TypePassword (v : string) | PressSignIn.

Definition login_step (e : login_event) (f : login_form) (a : app) : login_form * app :=
  match e with
  | TypeUsername v => (LoginForm v (password f) (err f), a)
  | TypePassword v => (LoginForm (username f) v (err f), a)
  | PressSignIn =>
      if String.eqb (username f) "" || String.eqb (password f) "" then (f, a) else login_submit f a
  end.

Fixpoint login_run (es : list login_event) (f : login_form) (a : app) : login_form * app :=
  match es with
  | [] => (f, a)
  | e :: es' => let '(f', a') := login_step e f a in login_run es' f' a'
  end.

(** What the page shows: the inputs' values and the error line
    [{err && <div>{err}</div>}]. *)
Definition login_view (f : login_form) : string * string * option string :=
  (username f, password f, if String.eqb (err f) "" then None else Some (err f)).

(** A press of "Sign in" that [submit] rejects: both fields filled, not
    the fixed credentials. *)
Definition rejected_press (f : login_form) : Prop :=
  username f <> "" /\ password f <> "" /\ ~ (username f = "admin" /\ password f = "password").

#[export] Instance login_event_eq_dec : EqDecision login_event.
Proof. solve_decision. Defined.

#[export] Instance rejected_press_dec f : Decision (rejected_press f).
Proof. unfold rejected_press. apply _. Defined.

(** [ConfirmStopPage]: [pending] is read once, on the first render; the
    mount effect goes back when it is [null]; the page renders nothing
    then. *)
Definition confirm_page_mount (cs : confirm_state) (a : app) : option json * app :=
  match getPendingStop cs with
  | None => (None, go_back a)
  | Some p => (Some p, a)
  end.

(** [ConfirmStopPage]'s render with [pending] set:
    [formatMs(pending.remainingMs)] (the file's own copy of the
    dashboard's [formatMs], line for line; a falsy value gives "0s" and a
    truthy one [ToNumber] cannot convert gives NaN minutes and seconds),
    [pending.mode] and the four readings [pending.sensors?.temp] to
    [?.level]; [None] when React throws on an object. *)
Definition confirm_page_view (pending : json) : option (string * string * list string) :=
  let ms := match to_number (js_get pending "remainingMs") with
            | Some z => Dashboard.formatMs z
            | None => if truthy (js_get pending "remainingMs") then "NaNm NaNs" else "0s"
            end in
  let sensors := js_get pending "sensors" in
  m ← react_child (js_get pending "mode");
  rs ← mapM (fun k => react_child (match sensors with Some s => js_get s k | None => None end))
            ["temp"; "hum"; "soil"; "level"];
  Some (ms, m, rs).

(** The page's buttons: [await cancel()] or [await confirm()], then
    [nav(-1)], which leaves the page and runs the effect's cleanup
    [clearPendingStop()]; a rejected promise skips [nav(-1)]. *)
Definition confirm_page_button (use_confirm : bool) (throws : nat -> bool)
    (cs : confirm_state) (a : app) : outcome * confirm_state * app :=
  let '(o, cs1) := (if use_confirm then confirm else cancel) throws cs in
  if rejected o then (o, cs1, a) else (o, clearPendingStop cs1, go_back a).

(** ** Lemmas *)

Lemma authenticated_login u a : authenticated (store (login u a)) = true.
Proof. unfold authenticated. simpl. by rewrite lookup_insert_eq, stringify_nonempty. Qed.

Lemma authenticated_logout a : authenticated (store (logout a)) = false.
Proof. unfold authenticated. simpl. by rewrite lookup_delete_eq. Qed.

Lemma routes_logged_out p ls :
  authenticated ls = false ->
  routes p ls = if String.eqb p "/login" then ELogin
                else if String.eqb p "/" || String.eqb p "/history" || String.eqb p "/confirm-stop"
                then ENavigate "/login" else ENavigate "/".
Proof. intros H. unfold routes, ProtectedRoute. rewrite H. by repeat case_match. Qed.

Lemma location_replace p a : location (navigate_replace p a) = p.
Proof. done. Qed.

Lemma store_replace p a : store (navigate_replace p a) = store a.
Proof. done. Qed.

Lemma settle_S n a :
  settle (S n) a =
    match routes (location a) (store a) with
    | ENavigate p => settle n (navigate_replace p a)
    | e => (e, a)
    end.
Proof. done. Qed.

Lemma settle_at_login n a :
  authenticated (store a) = false -> location a = "/login" -> fst (settle n a) = ELogin.
Proof. intros H Hl. destruct n; [cbn [settle fst]|rewrite settle_S]; by rewrite (routes_logged_out _ _ H), Hl. Qed.

(** Logged out, every location renders the login page. *)
Lemma render_logged_out a :
  authenticated (store a) = false -> fst (render a) = ELogin.
Proof.
  intros H. unfold render. rewrite settle_S, (routes_logged_out _ _ H).
  destruct (String.eqb (location a) "/login"); [done|].
  destruct (_ || _ || _); [by apply settle_at_login|].
  rewrite settle_S, !store_replace, (routes_logged_out _ _ H), location_replace.
  simpl String.eqb. cbn [orb].
  by apply settle_at_login.
Qed.

(** One event: typing keeps the error line and the app; a press keeps
    them too unless it is rejected, which sets the error. *)
Lemma login_step_err e f a :
  err (fst (login_step e f a)) =
    if bool_decide (e = PressSignIn /\ rejected_press f) then "Invalid credentials. Try admin / password"
    else err f.
Proof.
  unfold rejected_press. destruct e as [v|v|]; cbn [login_step fst err]; [by case_bool_decide; naive_solver..|].
  destruct (String.eqb_spec (username f) ""), (String.eqb_spec (password f) ""); cbn [orb fst];
    try (case_bool_decide; naive_solver).
  unfold login_submit, submit.
  destruct (String.eqb_spec (username f) "admin"), (String.eqb_spec (password f) "password"); cbn;
    case_bool_decide; naive_solver.
Qed.

(** The error line after a run of events: shown exactly when it was shown
    before or some press of the run was rejected.  Typing never clears it:
    the page keeps the stale error while the user corrects the fields. *)
Lemma login_run_err es f a :
  err (fst (login_run es f a)) <> "" <->
  err f <> "" \/ exists es1 es2, es = es1 ++ PressSignIn :: es2 /\ rejected_press (fst (login_run es1 f a)).
Proof.
  revert f a. induction es as [|e es IH]; intros f a.
  - split; [by left|]. intros [?|(es1 & es2 & Hes & _)]; [done|]. by destruct es1.
  - cbn [login_run]. pose proof (login_step_err e f a) as He.
    destruct (login_step e f a) as [f' a'] eqn:Hs. cbn [fst] in He. rewrite IH, He.
    split.
    + intros [Hf|(es1 & es2 & -> & Hr)].
      * case_bool_decide as Hp; [right; exists [], es; naive_solver|by left].
      * right. exists (e :: es1), es2. cbn [login_run]. by rewrite Hs.
    + intros [Hf|([|e1 es1] & es2 & Hes & Hr)]; [left; by case_bool_decide|..].
      * left. injection Hes as -> ->. rewrite bool_decide_eq_true_2; [done|by split].
      * injection Hes as -> ->. cbn [login_run] in Hr. rewrite Hs in Hr. right. by exists es1, es2.
Qed.

(** ** Properties *)

(** C15: a login session: the fixed credentials log in, the dashboard
    renders under the navigation bar (Home highlighted, History not,
    greeting "Hi, admin"), and a reload restores the same user
    from [localStorage] (its [JSON.stringify] text parses back); after
    logout every location renders the login page, the bar is gone, and a
    reload starts logged out. *)
Theorem login_session f a :
  username f = "admin" -> password f = "password" ->
  let a1 := snd (login_submit f a) in
  fst (render a1) = EDashboard /\ app_nav a1 = Some (true, false, Some "Hi, admin") /\
  app_init (store a1) (location a1) = Some (AppState (user a1) ["/"] (store a1)) /\
  app_nav (logout a1) = None /\
  forall p, fst (render (navigate p (logout a1))) = ELogin /\
            app_init (store (logout a1)) p = Some (AppState JNull [p] (store (logout a1))).
Proof.
  intros Hu Hp a1. unfold a1, login_submit, submit. rewrite Hu, Hp, !String.eqb_refl. cbn [andb fst snd].
  split_and!; [|done| |done|].
  - unfold render. rewrite settle_S. unfold routes, ProtectedRoute. by rewrite authenticated_login.
  - unfold app_init. cbn [store login navigate].
    by rewrite lookup_insert_eq, stringify_nonempty, parse_stringify.
  - intros p. split; [apply render_logged_out, authenticated_logout|].
    unfold app_init. cbn [store logout navigate]. by rewrite lookup_delete_eq.
Qed.

(** C14: a non-empty [LS_AUTH] entry whose first non-blank character
    cannot start a JSON value (a bare user name such as [admin], a value
    written by another version) passes [ProtectedRoute]'s check, yet
    [App]'s state initialiser throws in [JSON.parse] on every location:
    the application renders nothing, not even the login page, until the
    entry is removed by hand. *)
Theorem corrupt_auth_blank ls v :
  ls !! LS_AUTH = Some v -> String.eqb v "" = false -> starts_value v = false ->
  authenticated ls = true /\ forall path, app_init ls path = None.
Proof.
  intros Hv He Hs. unfold authenticated, app_init. rewrite Hv, He, (parse_not_value _ Hs). by split.
Qed.

(** ** Examples *)

Lemma login_session_witness :
  fst (render (snd (login_submit (LoginForm "admin" "password" "") (AppState JNull ["/login"] ∅))))
    = EDashboard.
Proof.
  destruct (login_session (LoginForm "admin" "password" "") (AppState JNull ["/login"] ∅)
              eq_refl eq_refl) as [H _].
  exact H.
Defined.

Lemma corrupt_auth_blank_witness :
  authenticated {[LS_AUTH := "admin"]} = true /\
  forall path, app_init {[LS_AUTH := "admin"]} path = None.
Proof. apply (corrupt_auth_blank _ "admin"); [by rewrite lookup_singleton_eq|done|vm_compute; reflexivity]. Defined.

End Shell.
