(* ===== verification/Gauge.v ===== *)
(** * The sensor gauges.

    [SensorPanel] draws four [CircleGauge]s from the dashboard's [sensors]
    state (temperature, humidity, soil moisture, water level).  A gauge
    shows [Math.max(0, Math.min(100, Math.round(value)))], with [value]
    defaulting to 0 when [undefined]; a reading [ToNumber] cannot convert
    is NaN through all three calls, and the gauge prints ["NaN"].  Numbers
    are integers in the model, so [Math.round] is the identity on them.
    [Json.to_number] is [ToNumber] only on the values it converts to an
    integer: a string with a fraction (["4.2"]) or surrounding blanks
    ([" 42"]) and a one-element array ([[5]]) are numbers in JavaScript
    and NaN ([None]) here, so the gauge's value is stated only through
    [gauge_value_range] and the SVG geometry below.
    The SVG geometry (radius, circumference, dash offset, font sizes) is
    computed in exact rationals, [Math.PI] a positive section variable. *)

From Stdlib Require Import QArith Qround Lqa.
From S2P Require Import Prelude Json Gateway StateManager Dashboard.
Import Dashboard.

Open Scope Z_scope.

Module Gauge.

(** The value [CircleGauge] draws; [None] is NaN. *)
Definition gauge_value (value : jsval) : option Z :=
  match (match value with None => Some 0 | Some _ => to_number value end) with
  | Some z => Some (Z.max 0 (Z.min 100 z))
  | None => None
  end.

(** The gauge's text [{v}{unit}]. *)
Definition gauge_text (value : jsval) (unit : string) : string :=
  match gauge_value value with Some z => pretty z | None => "NaN" end +:+ unit.

(** [Math.round(x)]: the nearest integer, halves rounded up. *)
Definition js_round (q : Q) : Z := Qfloor (q + (1#2)).

Section Geometry.
(** [Math.PI]: the lemmas hold for every positive value. *)
Variable PI : Q.

(** What [CircleGauge] draws, in exact rational arithmetic: the square
    [size], the centre [size / 2], the radius [(size - stroke) / 2] of both
    circles, the dash array [circumference = 2 * Math.PI * radius], the
    dash offset [circumference * (1 - v / 100)] (NaN with [v]), the two
    font sizes, the value text and the label. *)
Record gauge_svg := GaugeSvg {
  svg_size : Q; svg_center : Q; svg_radius : Q; svg_dasharray : Q; svg_dashoffset : option Q;
  svg_value_font : Z; svg_label_font : Z; svg_text : string; svg_label : string
}.

Definition circle_gauge (value : jsval) (label unit : string) (size stroke : Q) : gauge_svg :=
  let radius := ((size - stroke) / 2)%Q in
  let circumference := (2 * PI * radius)%Q in
  GaugeSvg size (size / 2)%Q radius circumference
    ((fun v => circumference * (1 - inject_Z v / 100))%Q <$> gauge_value value)
    (js_round (size * (15#100))) (js_round (size * (65#1000))) (gauge_text value unit) label.

(** The temperature unit as the file spells it: the bytes C3 82 C2 B0 of
    a degree sign encoded twice, then "C". *)
Definition temp_unit : string :=
  String (Ascii.ascii_of_nat 195) (String (Ascii.ascii_of_nat 130) (String (Ascii.ascii_of_nat 194) (String (Ascii.ascii_of_nat 176) "C"))).

(** [SensorPanel]: four gauges of size 160 and stroke 14. *)
Definition sensor_panel (d : dash_sensors) : list gauge_svg :=
  [circle_gauge (ds_temp d) "Temperature" temp_unit 160 14; circle_gauge (ds_hum d) "Humidity" "%" 160 14;
   circle_gauge (ds_soil d) "Soil moisture" "%" 160 14; circle_gauge (ds_level d) "Water level" "%" 160 14].
End Geometry.

(** ** The ring *)

Lemma gauge_value_range value z : gauge_value value = Some z -> 0 <= z <= 100.
Proof. unfold gauge_value. destruct (match value with None => Some 0 | _ => _ end); intros [= <-]; lia. Qed.


Lemma dash_offset_bounds (C v : Q) :
  (0 <= C -> 0 <= v <= 100 -> 0 <= C * (1 - v / 100) <= C /\ C - C * (1 - v / 100) == C * (v / 100))%Q.
Proof.
  intros HC Hv. change (v / 100)%Q with (v * (1#100))%Q.
  assert (E : (C * (1 - v * (1#100)) == C - C * (v * (1#100)))%Q) by ring.
  assert (0 <= C * (v * (1#100)))%Q by (apply Qmult_le_0_compat; lra).
  split_and!; [apply Qmult_le_0_compat; lra|rewrite E; lra|rewrite E; ring].
Qed.

(** The ring a gauge fills: with a positive [Math.PI] and a stroke no wider
    than the gauge, the dash offset lies between 0 and the circumference
    and the visible arc is exactly [v] percent of the ring. *)
Lemma gauge_arc PI value label unit size stroke :
  (0 < PI)%Q -> (stroke <= size)%Q ->
  let g := circle_gauge PI value label unit size stroke in
  forall v, gauge_value value = Some v ->
  exists off, svg_dashoffset g = Some off /\ (0 <= off <= svg_dasharray g)%Q /\
              (svg_dasharray g - off == svg_dasharray g * (inject_Z v / 100))%Q.
Proof.
  intros HPI Hs g v Hv. unfold g, circle_gauge. cbn [svg_dashoffset svg_dasharray]. rewrite Hv.
  eexists. split; [reflexivity|]. apply dash_offset_bounds.
  - apply Qmult_le_0_compat; [apply Qmult_le_0_compat; lra|].
    change ((size - stroke) / 2)%Q with ((size - stroke) * (1#2))%Q. lra.
  - destruct (gauge_value_range _ _ Hv) as [H0 H1].
    split; [change 0%Q with (inject_Z 0)|change 100%Q with (inject_Z 100)]; rewrite <-Zle_Qle; lia.
Qed.

End Gauge.
