(* ===== verification/Routes.v ===== *)
(** * From the frontend's [apiService] calls to the backend's routes.

    [apiService] builds a URL from [API_BASE] and the endpoint, a method
    ([GET] unless the options say otherwise) and, for an object body, its
    [JSON.stringify] text.  The backend listens on [PORT]; [express.json()]
    parses the body ([{}] when there is none; strict, so a 400 when it is
    not JSON or not an object or array) and the route registered for the
    method and path runs, reading its argument from [req.body].  [serve]
    is that path through Express, ending in the [System.event] the route's
    handler is, or in a read-only route, a 404, a 400, or a request the
    integer model does not follow ([OutsideModel]: a body the integer
    parser does not read, a start whose duration is not an integer).
    The theorem shows that every HTTP request the
    dashboard sends arrives as the event the composed model gives it
    ([Mirror.synced_start_accepted] relies on this for starts).  Express
    matches paths case-insensitively and ignores a trailing slash; the
    client's paths are exact, and the model matches them exactly. *)

From S2P Require Import Prelude Json JsonText Gateway StateManager System ClientServices Dashboard.
Import ApiService Dashboard.

Open Scope Z_scope.

Module Routes.

(** ** The backend *)

(** [process.env.PORT || 3001] and the origin [httpServer.listen] serves. *)
Definition PORT (env : option string) : string := env_or env "3001".

Definition server_origin (env : option string) : string := "http://localhost:" +:+ PORT env.

(** The routes [app.get] and [app.post] register. *)
Inductive route := RHealth | RSensors | RStatus | RGetMode | RPostMode | RPumpStart | RPumpStop.

Definition express_route (meth path : string) : option route :=
  if String.eqb meth "GET" then
    if String.eqb path "/api/health" then Some RHealth
    else if String.eqb path "/api/sensors" then Some RSensors
    else if String.eqb path "/api/status" then Some RStatus
    else if String.eqb path "/api/mode" then Some RGetMode
    else None
  else if String.eqb meth "POST" then
    if String.eqb path "/api/mode" then Some RPostMode
    else if String.eqb path "/api/pump/start" then Some RPumpStart
    else if String.eqb path "/api/pump/stop" then Some RPumpStop
    else None
  else None.

(** What a request becomes: a handler that changes state (a [System]
    event), a read-only route, Express's 404, [express.json()]'s 400, or a
    request the model does not follow ([OutsideModel]). *)
Inductive served := Served (e : event) | ServedRead (r : route) | NotFound | BadBody | OutsideModel.

(** A request reaching the server: [express.json()] (strict: the body must
    be an object or an array, [{}] when there is none), then the route
    with [const { mode } = req.body] or [const { duration } = req.body].
    Two requests are outside the integer model: a body text that
    [JsonText.parse] does not read (not JSON, which Express answers with a
    400, or JSON with a fraction or an exponent, which it accepts), and a
    start whose duration is neither absent nor an integer ([null], a
    string, a boolean, ...), which the route does not validate and passes
    on to [startPumpInternal]. *)
Definition serve (port : option string) (meth url : string) (body : option string) : served :=
  match strip_prefix (server_origin port) url with
  | None => NotFound
  | Some path =>
      match (match body with Some t => parse t | None => Some (JObj []) end) with
      | None => OutsideModel
      | Some (JObj _ as b) | Some (JArr _ as b) =>
          match express_route meth path with
          | None => NotFound
          | Some RPostMode => Served (EvPostMode (js_get b "mode"))
          | Some RPumpStart =>
              match js_get b "duration" with
              | None => Served (EvPostStart None)
              | Some (JNum d) => Served (EvPostStart (Some d))
              | Some _ => OutsideModel
              end
          | Some RPumpStop => Served EvPostStop
          | Some r => ServedRead r
          end
      | Some _ => BadBody
      end
  end.

(** ** The frontend *)

(** The methods of [apiService]. *)
Inductive api_call :=
| GetSensors | GetStatus | GetMode | SetMode (m : jsval) | StartPump (d : jsval) | StopPump | HealthCheck.

Definition endpoint (c : api_call) : string :=
  match c with
  | GetSensors => "/sensors" | GetStatus => "/status" | GetMode | SetMode _ => "/mode"
  | StartPump _ => "/pump/start" | StopPump => "/pump/stop" | HealthCheck => "/health"
  end.

Definition call_options (c : api_call) : options :=
  match c with
  | SetMode m => Options (Some "POST") None
                   (Some (JObj (match m with Some v => [("mode", v)] | None => [] end)))
  | StartPump d => startPump_options d
  | StopPump => Options (Some "POST") None None
  | _ => no_options
  end.

(** What [request(endpoint, options)] hands to [fetch]: the method, the
    URL and the body text (an object is stringified, another truthy body
    is sent as its text, a falsy one is no body). *)
Definition wire (env : option string) (c : api_call) : string * string * option string :=
  let o := call_options c in
  (default "GET" (opt_method o), API_BASE env +:+ endpoint c,
   match opt_body o with
   | Some (JStr s) => if String.eqb s "" then None else Some s
   | Some (JNum 0) | Some (JBool false) | Some JNull | None => None
   | Some b => Some (stringify b)
   end).

(** The dashboard's HTTP requests as [apiService] calls, and the event the
    composed model gives each. *)
Definition api_call_of (r : dash_request) : option api_call :=
  match r with
  | ReqStart d => Some (StartPump (Some (JNum d)))
  | ReqStop => Some StopPump
  | ReqSetMode m => Some (SetMode (Some (JStr m)))
  | _ => None
  end.

Definition request_event (r : dash_request) : option event :=
  match r with
  | ReqStart d => Some (EvPostStart (Some d))
  | ReqStop => Some EvPostStop
  | ReqSetMode m => Some (EvPostMode (Some (JStr m)))
  | _ => None
  end.

(** ** Lemmas *)

(** The default [API_BASE] is the default server origin followed by [/api]. *)
Lemma url_path e : strip_prefix (server_origin None) (API_BASE None +:+ e) = Some ("/api" +:+ e).
Proof. reflexivity. Qed.

(** ** Properties *)

(** C16: with the default configuration on both sides, every HTTP request
    the dashboard sends through [apiService] ([startPump], [stopPump],
    [setMode]) reaches the route that serves it, with the argument the
    route reads from its body, as the event the composed model runs for
    that request. *)
Theorem dashboard_requests_served r c :
  api_call_of r = Some c ->
  exists e, request_event r = Some e /\
    let '(meth, url, body) := wire None c in serve None meth url body = Served e.
Proof.
  intros Hc. destruct r; cbn in Hc; simplify_eq; eexists; split; try reflexivity;
    unfold wire; cbv beta iota zeta delta [call_options startPump_options opt_body opt_method default];
    unfold serve; rewrite url_path, ?parse_stringify; reflexivity.
Qed.

(** ** Examples *)

Lemma dashboard_requests_served_witness :
  exists e, request_event (ReqStart 8) = Some e /\
    let '(meth, url, body) := wire None (StartPump (Some (JNum 8))) in serve None meth url body = Served e.
Proof. by apply (dashboard_requests_served (ReqStart 8)). Defined.

End Routes.
