(* ===== verification/LastWatered.v ===== *)
(** * The "Last watered" widget and its writers.

    [LastWatered] keeps [ts] (initialised from its [lastWateredTimestamp]
    prop when truthy, otherwise from [localStorage]) and a [nowTick]
    refreshed every second.  Three writers change the stored time: the
    dashboard's [markLastWatered(ts)] (its [lastWatered] state, which is
    the prop, then [localStorage], then the [lastWateredUpdated] event),
    the widget's "Mark now" button, and its "Clear" button (which removes
    the entry and calls the dashboard's [onClear], clearing the prop).
    The event re-reads [localStorage]; a changed truthy prop is copied to
    [ts] by an effect after the render.  [lw_step] is one of these steps
    and the theorem says the widget always shows what [localStorage]
    holds. *)

From S2P Require Import Prelude Json JsonText History.
Import History.

Open Scope Z_scope.

Module Widget.

Section Widget.
Variable toLocaleString : Z -> string.

(** The widget with the dashboard's [lastWatered] state (its prop) and
    [localStorage]; [None] is [null] or NaN. *)
Record lw_state := LW { lw_ts : option Z; lw_now : Z; lw_prop : option Z; lw_store : storage }.

(** [if (x)] on a timestamp. *)
Definition truthy_ts (o : option Z) : bool := match o with Some z => negb (z =? 0) | None => false end.

(** Mounting: the dashboard's state initialiser [v ? parseInt(v, 10) : null]
    gives the prop, then the widget's [useState] initialisers. *)
Definition lw_mount (ls : storage) (now : Z) : lw_state :=
  let prop := stored_last_watered ls in
  LW (if truthy_ts prop then prop else stored_last_watered ls) now prop ls.

(** The [lastWateredUpdated] listener: [setTs(v ? parseInt(v, 10) : null)]. *)
Definition on_update (s : lw_state) : lw_state :=
  LW (stored_last_watered (lw_store s)) (lw_now s) (lw_prop s) (lw_store s).

(** The prop effect, run after a render in which the prop changed from
    [old]: [if (lastWateredTimestamp) setTs(lastWateredTimestamp)]. *)
Definition prop_effect (old : option Z) (s : lw_state) : lw_state :=
  if bool_decide (old <> lw_prop s) && truthy_ts (lw_prop s)
  then LW (lw_prop s) (lw_now s) (lw_prop s) (lw_store s) else s.

Inductive lw_event :=
| LwTick (now : Z)          (* the interval: setNowTick(Date.now()) *)
| LwMarkNow (now : Z)       (* "Mark now" *)
| LwClear                   (* "Clear", with the dashboard's onClear *)
| LwDashMark (ts : Z).      (* the dashboard's markLastWatered(ts) *)

Definition lw_step (e : lw_event) (s : lw_state) : lw_state :=
  match e with
  | LwTick now => LW (lw_ts s) now (lw_prop s) (lw_store s)
  | LwMarkNow now => on_update (LW (lw_ts s) (lw_now s) (lw_prop s) (markLastWatered now (lw_store s)))
  | LwClear => on_update (LW (lw_ts s) (lw_now s) None (delete LS_KEY (lw_store s)))
  | LwDashMark ts =>
      prop_effect (lw_prop s)
        (on_update (LW (lw_ts s) (lw_now s) (Some ts) (markLastWatered ts (lw_store s))))
  end.

Definition lw_run (evs : list lw_event) (s : lw_state) : lw_state := fold_left (fun s e => lw_step e s) evs s.

(** What the widget renders: [ts ? formatElapsed(ts) : "Never"] at [nowTick]. *)
Definition lw_text (s : lw_state) : string :=
  match lw_ts s with
  | Some ts => if ts =? 0 then "Never" else formatElapsed toLocaleString ts (lw_now s)
  | None => "Never"
  end.

(** Every time written is a positive [Date.now()]. *)
Definition positive_times (e : lw_event) : Prop :=
  match e with LwMarkNow t | LwDashMark t => 0 < t | _ => True end.

(** ** The widget agrees with [localStorage] *)

Definition agrees (s : lw_state) : Prop := lw_ts s = stored_last_watered (lw_store s).

Lemma agrees_on_update s : agrees (on_update s).
Proof. done. Qed.

Lemma agrees_step e s : positive_times e -> agrees s -> agrees (lw_step e s).
Proof.
  intros He Hs. destruct e as [now|now| |ts]; [done|apply agrees_on_update|apply agrees_on_update|].
  cbn [lw_step]. unfold prop_effect. case_match; [|apply agrees_on_update].
  unfold agrees. cbn [lw_ts lw_store lw_prop on_update]. by rewrite stored_mark.
Qed.

Lemma agrees_run evs s : Forall positive_times evs -> agrees s -> agrees (lw_run evs s).
Proof.
  revert s. induction evs as [|e evs IH]; intros s Hevs Hs; [done|].
  apply Forall_cons in Hevs as [He Hevs]. apply IH; [done|]. by apply agrees_step.
Qed.

(** C30: the "Last watered" widget always shows what [localStorage] holds:
    from a mount, after any interleaving of its ticks, its "Mark now" and
    "Clear" buttons and the dashboard's [markLastWatered], its [ts] is the
    stored time read back and its text is the stored time's elapsed text
    at its last tick. *)
Theorem widget_shows_store ls now evs :
  Forall positive_times evs ->
  let s := lw_run evs (lw_mount ls now) in
  lw_ts s = stored_last_watered (lw_store s) /\
  lw_text s = last_watered_text toLocaleString (lw_store s) (lw_now s).
Proof.
  intros Hevs s. assert (Ha : agrees s).
  { apply agrees_run; [done|]. unfold agrees, lw_mount. cbn. by case_match. }
  split; [exact Ha|]. unfold lw_text, last_watered_text. by rewrite Ha.
Qed.

End Widget.

(** ** Examples *)

(** The dashboard records a stop at 1000, the user marks at 3000, clears,
    and a later stop is recorded at 7000; at 9000 the widget shows "Just
    now" from the stored 7000. *)
Lemma widget_shows_store_witness :
  let s := lw_run [LwTick 5000; LwDashMark 1000; LwMarkNow 3000; LwClear; LwDashMark 7000; LwTick 9000]
                  (lw_mount ∅ 0) in
  lw_ts s = stored_last_watered (lw_store s) /\
  lw_text (fun _ => "") s = last_watered_text (fun _ => "") (lw_store s) (lw_now s).
Proof. apply widget_shows_store. repeat constructor; cbn; lia. Defined.

End Widget.
