(* ===== verification/DashView.v ===== *)
(** * What the dashboard shows and which controls it enables.

    The markup of [SmartWateringDashboard] decides the mode button's label
    and whether it is enabled (not while loading), shows the AI panel in AI
    mode, shows either a start button (disabled while loading,
    disconnected or in AI mode) or a stop button (disabled while loading or
    disconnected), locks the duration select in AI mode, and renders the
    confirm-stop dialog.  [dash_view] is that decision; [enabled] reads a
    control's availability off it and [press] runs its [onClick].  The
    theorem composes the page with the server: from a page that mirrors a
    reachable server, every request an enabled control of the page sends
    is accepted; the dialog's confirm button is the exception, enabled
    after the pump stopped on its own, and then answered with a 400.
    [dash_render] adds the readings the AI panel and the dialog print:
    React throws on an object, and the page goes blank.  [PumpControl] is
    the component no page imports. *)

From S2P Require Import Prelude Json Gateway Hub StateManager System ClientServices Dashboard Mirror.
From S2P Require Import History ConfirmStop.
Import IoHub Dashboard History StopFlow.

Open Scope Z_scope.

Module View.

(** The mode button's label: manual, automatic, and the AI label for any
    other mode. *)
Inductive mode_label := LabelManual | LabelAutomatic | LabelAI.

(** The pump button: the start button (enabled, and whether it reads "AI
    Controlling...") or the stop button (enabled). *)
Inductive pump_button := StartButton (enabled ai_label : bool) | StopButton (enabled : bool).

Record view := DashView {
  v_mode_label : mode_label;
  v_mode_enabled : bool;
  v_connected : bool;                (* "Connected" / "Disconnected", twice *)
  v_ai_panel : bool;                 (* the AI insight panel *)
  v_status : string;                 (* statusText *)
  v_running : bool;                  (* "Pump is running" / "System idle" *)
  v_duration_enabled : bool;         (* the duration select *)
  v_pump_button : pump_button;
  v_ai_hint : bool;                  (* "Manual control disabled in AI Mode." *)
  v_dialog : option (string * string * bool)  (* mode, formatMs(remaining), buttons enabled *)
}.

(** The confirm-stop modal, rendered while [stopConfirmData] is set: its
    mode, [formatMs(remainingMs)], and whether its Cancel and "Stop anyway"
    buttons are enabled ([disabled={isStopSubmitting}]). *)
Definition confirm_dialog (st : dash_state) : option (string * string * bool) :=
  match stopConfirmData st with
  | Some d => Some (sc_mode d, formatMs (sc_remainingMs d), negb (isStopSubmitting st))
  | None => None
  end.

Definition dash_view (st : dash_state) : view :=
  let ai := String.eqb (d_mode st) "ai" in
  DashView
    (if String.eqb (d_mode st) "manual" then LabelManual
     else if String.eqb (d_mode st) "automatic" then LabelAutomatic else LabelAI)
    (negb (d_isLoading st))
    (d_isConnected st)
    ai
    (statusText st)
    (d_pumpOn st)
    (negb ai)
    (if d_pumpOn st then StopButton (negb (d_isLoading st || negb (d_isConnected st)))
     else StartButton (negb (d_isLoading st || negb (d_isConnected st) || ai)) ai)
    ai
    (confirm_dialog st).

(** The page's controls; the duration select offers 5, 10 and 15 s. *)
Inductive control := CtlModeToggle | CtlStart | CtlStop | CtlDuration (v : Z).

Definition enabled (st : dash_state) (c : control) : bool :=
  let v := dash_view st in
  match c with
  | CtlModeToggle => v_mode_enabled v
  | CtlStart => match v_pump_button v with StartButton e _ => e | StopButton _ => false end
  | CtlStop => match v_pump_button v with StopButton e => e | StartButton _ _ => false end
  | CtlDuration d => v_duration_enabled v && bool_decide (d ∈ [5; 10; 15])
  end.

(** [setManualDurationSec(parseInt(e.target.value))]. *)
Definition setManualDurationSec (d : Z) (st : dash_state) : dash_state :=
  DashState (d_mode st) (d_pumpOn st) (d_sensors st) (d_remainingMs st) (pumpStartRef st)
            (pumpDurationRef st) d (d_isConnected st) (d_isLoading st)
            (stopConfirmData st) (isStopSubmitting st).

(** A control's [onClick]: the new state and the requests sent. *)
Definition press (c : control) (st : dash_state) : dash_state * list dash_request :=
  match c with
  | CtlModeToggle => (st, handleModeToggle st)
  | CtlStart => (st, start_button_click st)
  | CtlStop => (requestStopPump (d_mode st) st, [])
  | CtlDuration d => (setManualDurationSec d st, [])
  end.

(** The backend's answer to the route a request reaches. *)
Definition answer (r : dash_request) (w : world) : option api_response :=
  match r with
  | ReqStart d => Some (fst (post_pump_start (Some d) w))
  | ReqStop => Some (fst (post_pump_stop w))
  | ReqSetMode m => Some (fst (post_mode (Some (JStr m)) w))
  | _ => None
  end.

(** The readings the AI panel prints, [{sensors.soil}], [{sensors.temp}]
    and [{sensors.hum}], and those of the dialog's
    [{stopConfirmData.sensors?.temp}] line. *)
Definition ai_inputs (st : dash_state) : list jsval :=
  [ds_soil (d_sensors st); ds_temp (d_sensors st); ds_hum (d_sensors st)].

Definition dialog_inputs (d : stop_confirm) : list jsval :=
  [ds_temp (sc_sensors d); ds_hum (sc_sensors d); ds_soil (sc_sensors d); ds_level (sc_sensors d)].

(** Rendering the page: the markup's decisions with the texts of the
    readings the AI panel (in AI mode) and the open dialog print; [None]
    when React throws on one of them, and the page goes blank. *)
Definition dash_render (st : dash_state) : option (view * list string * list string) :=
  ai ← (if String.eqb (d_mode st) "ai" then mapM react_child (ai_inputs st) else mret []);
  dl ← (match stopConfirmData st with Some d => mapM react_child (dialog_inputs d) | None => mret [] end);
  mret (dash_view st, ai, dl).

(** [PumpControl] (imported by no page): its button's text, its
    [aria-pressed] and whether it is disabled ([mode !== "manual"]); a
    click calls the [togglePump] prop. *)
Definition PumpControl (pumpOn : bool) (mode : string) : string * bool * bool :=
  (if pumpOn then "Pump ON" else "Pump OFF", pumpOn, negb (String.eqb mode "manual")).

(** ** Lemmas *)

Lemma enabled_start st : enabled st CtlStart = true -> d_pumpOn st = false /\ d_mode st <> "ai".
Proof.
  unfold enabled, dash_view. cbn [v_pump_button]. destruct (d_pumpOn st); [done|].
  intros [_ Hai]%negb_true_iff%orb_false_iff. split; [done|]. by apply String.eqb_neq.
Qed.

Lemma post_mode_valid m w :
  parse_mode (Some (JStr m)) <> None -> http_status (fst (post_mode (Some (JStr m)) w)) = 200.
Proof. unfold post_mode. by destruct (parse_mode _). Qed.

Lemma post_stop_status w : http_status (fst (post_pump_stop w)) = if pumpOn (sys w) then 200 else 400.
Proof. unfold post_pump_stop. by destruct (pumpOn (sys w)). Qed.

(** ** Properties *)

(** C20: from a page that mirrors a reachable server, every request an
    enabled control of the page sends is accepted by the backend (the mode
    toggle always asks for a valid mode; the start button is enabled only
    with the pump off outside AI mode).  The confirm-stop dialog's button
    is enabled whenever the dialog is open and idle, whatever the pump
    does, and its forced stop is accepted exactly when the pump still
    runs: after the pump stopped on its own it is answered with a 400. *)
Theorem enabled_controls_accepted adm w ob st :
  reachable adm w -> ob ∈ observers (hub w) ->
  let st' := dash_replay (received (hub w) ob) st in
  (forall c, enabled st' c = true ->
     Forall (fun r => option_map http_status (answer r w) = Some 200) (snd (press c st'))) /\
  (forall p m t, p_dash p = st' -> confirm_dialog st' = Some (m, t, true) ->
     is_Some (confirm_click p) /\
     option_map http_status (answer ReqStop w) = Some (if d_pumpOn st' then 200 else 400)).
Proof.
  intros Hr Hin st'. pose proof (synced_reachable _ _ Hr ob st Hin) as Hm. fold st' in Hm.
  split.
  - intros [| | |d] Hen; cbn [press snd]; [| |done|done].
    + destruct (mode_toggle_valid st') as (m & -> & Hp & _). constructor; [|done].
      cbn [answer option_map]. f_equal. apply post_mode_valid. by rewrite Hp.
    + destruct (enabled_start _ Hen) as [Hoff Hai].
      unfold start_button_click, handleManualStart, startPump. rewrite Hoff.
      destruct (String.eqb _ _); constructor; try done; cbn [answer option_map]; f_equal;
        by apply (mirror_start_accepted w st').
  - intros p m t Hp Hd. split.
    + unfold confirm_dialog in Hd. unfold confirm_click, handleConfirmStop, stopPumpEarly. rewrite Hp.
      destruct (stopConfirmData st'); [|done]. injection Hd as _ _ Hs%negb_true_iff.
      rewrite Hs, andb_false_r. by eexists.
    + cbn [answer option_map]. rewrite post_stop_status. unfold dash_mirror, sys_mirror in Hm.
      injection Hm as H1 _ _ _. by rewrite H1.
Qed.

(** C21: the page goes blank exactly when React is handed an object: in AI
    mode when the AI panel's soil, temperature or humidity reading is not
    renderable, or while the confirm dialog is open when one of its four
    readings is not.  In particular one sensor message whose soil value is
    a JSON object (truthy, so [handleSensorUpdate] keeps it) blanks the
    page in AI mode. *)
Theorem render_blank_on_object st :
  (dash_render st = None <->
     (d_mode st = "ai" /\ Exists (fun v => react_child v = None) (ai_inputs st)) \/
     match stopConfirmData st with
     | Some c => Exists (fun v => react_child v = None) (dialog_inputs c)
     | None => False
     end) /\
  (forall d kvs, d_mode st = "ai" -> soil d = Some (JObj kvs) -> dash_render (handleSensorUpdate d st) = None).
Proof.
  split.
  - unfold dash_render. destruct (stopConfirmData st) as [c|]; rewrite <-!mapM_None;
      [destruct (mapM react_child (dialog_inputs c))|];
      destruct (String.eqb_spec (d_mode st) "ai") as [Hai|Hai];
      try destruct (mapM react_child (ai_inputs st)); simpl; naive_solver.
  - intros d kvs Hai Hs.
    assert (Hm : String.eqb (d_mode (handleSensorUpdate d st)) "ai" = true)
      by (rewrite <-Hai; apply String.eqb_refl).
    assert (Hso : ds_soil (d_sensors (handleSensorUpdate d st)) = Some (JObj kvs))
      by (unfold handleSensorUpdate, js_or; rewrite Hs; reflexivity).
    unfold dash_render, ai_inputs. by rewrite Hm, Hso.
Qed.

(** ** Examples *)

(** A page whose dialog is still open after the pump went off: its
    confirm button sends a stop, which the backend rejects. *)
Lemma enabled_controls_accepted_witness :
  let w := trace_world [EvIoConnect 1] in
  let st' := dash_replay (received (hub w) 1)
               (with_confirm (Some (StopConfirm "manual" 3000 (d_sensors dash_init))) dash_init) in
  is_Some (confirm_click (StopPage st' ∅ None [])) /\
  option_map http_status (answer ReqStop w) = Some (if d_pumpOn st' then 200 else 400).
Proof.
  intros w st'.
  destruct (enabled_controls_accepted (fun _ => True) w 1
              (with_confirm (Some (StopConfirm "manual" 3000 (d_sensors dash_init))) dash_init))
    as [_ H].
  - apply trace_world_reachable; [repeat constructor|vm_compute; eauto].
  - apply (bool_decide_unpack _). vm_compute. reflexivity.
  - apply (H _ "manual" "3s"); [done|vm_compute; reflexivity].
Defined.

(** A page in AI mode handles a sensor message whose soil value is an
    object: the AI panel hands it to React and the page goes blank. *)
Lemma render_blank_on_object_witness :
  let d := SensorData (Some (JNum 24)) (Some (JNum 66)) (Some (JObj [("v", JNum 41)])) (Some (JNum 56))
                      (Some (JNum 0)) None 0 in
  dash_render (handleSensorUpdate d (with_mode "ai" dash_init)) = None.
Proof. intros d. exact (proj2 (render_blank_on_object (with_mode "ai" dash_init)) d _ eq_refl eq_refl). Defined.

End View.
