(* ===== verification/ReadRoutes.v ===== *)
(** * The read-only routes and the dashboard's initial fetch.

    [GET /api/health], [/api/sensors], [/api/status] and [/api/mode]
    answer with [res.json(...)]: status 200 and the [JSON.stringify] text
    of an object built from [sensorData] or [systemState] ([undefined]
    fields left out, [null] kept).  The dashboard's mount effect calls
    [apiService.getSensors()] and [getStatus()] under [Promise.all]; each
    [request] parses the text with [response.json()], and
    [fetchInitialData] reads the fields with [|| default] fallbacks.
    [initial_fetch] is that whole path on a server in state [w], and the
    theorem shows it lands exactly where the typed model
    [Dashboard.fetchInitialData] puts the page.  The page's state has a
    string mode, a boolean pump flag and integer times: a field the server
    never sends with another type (a non-string mode, say) is decoded to
    the fallback, a value its state type cannot hold. *)

From S2P Require Import Prelude Json JsonText Gateway StateManager ClientServices Dashboard.
From S2P Require Import Routes ConfirmStop.
Import ApiService Dashboard Routes StopFlow.

Open Scope Z_scope.

Module Reads.

(** [systemState.lastCommand]: ['start'] or ['stop']. *)
Definition command_name (c : command) : string :=
  match c with CmdStart => "start" | CmdStop => "stop" end.

(** A number or [null]. *)
Definition num_or_null (o : option Z) : json :=
  match o with Some z => JNum z | None => JNull end.

(** [sensorData], the object literal of the [message] handler (the
    initial one has no [light]); [res.json] leaves [undefined] fields out. *)
Definition sensors_json (d : sensor_data) : json :=
  JObj (present [("temp", temp d); ("hum", hum d); ("soil", soil d); ("level", level d);
                 ("flow", flow d); ("light", light d); ("timestamp", Some (JNum (timestamp d)))]).

(** The body of [GET /api/status]. *)
Definition status_json (st : status) : json :=
  JObj [("pumpOn", JBool (st_pumpOn st)); ("mode", JStr (mode_name (st_mode st)));
        ("pumpStartTime", num_or_null (st_pumpStartTime st)); ("pumpDuration", JNum (st_pumpDuration st));
        ("remainingTime", JNum (st_remainingTime st));
        ("lastCommand", match st_lastCommand st with Some c => JStr (command_name c) | None => JNull end);
        ("lastCommandTime", num_or_null (st_lastCommandTime st))].

(** The body each read route sends. *)
Definition read_body (r : route) (w : world) : option json :=
  match r with
  | RHealth => Some (JObj [("status", JStr "ok"); ("message", JStr "Smart Watering Backend is running")])
  | RSensors => Some (sensors_json (sensors w))
  | RStatus => Some (status_json (get_status w))
  | RGetMode => Some (JObj [("mode", JStr (mode_name (mode (sys w))))])
  | _ => None
  end.

(** What [fetch] gives for a call the server answers with a read route:
    status 200 and [response.json()] of the body's text. *)
Definition fetch_read (env : option string) (c : api_call) (w : world) : option fetch_result :=
  let '(meth, url, body) := wire env c in
  match serve env meth url body with
  | ServedRead r => (fun b => FetchResponse true 200 (parse (stringify b))) <$> read_body r w
  | _ => None
  end.

(** [fetchInitialData]'s [try] body on the two parsed answers:
    [sensorData.x || 0], [statusData.pumpOn || false],
    [statusData.mode || "automatic"], [statusData.remainingTime || 0], and
    [pumpStartRef.current] set only when [statusData.pumpStartTime] is
    truthy. *)
Definition initial_from_json (sd sj : json) (st : dash_state) : dash_state :=
  let z := Some (JNum 0) in
  DashState
    (match js_get sj "mode" with Some (JStr m) => if String.eqb m "" then "automatic" else m | _ => "automatic" end)
    (truthy (js_get sj "pumpOn"))
    (DashSensors (js_get sd "temp" ||| z) (js_get sd "hum" ||| z) (js_get sd "soil" ||| z)
                 (js_get sd "level" ||| z) (js_get sd "flow" ||| z))
    (match js_get sj "remainingTime" with Some (JNum r) => r | _ => 0 end)
    (if truthy (js_get sj "pumpStartTime")
     then match js_get sj "pumpStartTime" with Some (JNum t) => Some t | _ => pumpStartRef st end
     else pumpStartRef st)
    (pumpDurationRef st) (manualDurationSec st) (d_isConnected st) false
    (stopConfirmData st) (isStopSubmitting st).

(** The mount's fetch against a server in state [w]: both answers through
    [request], or the [catch] when either request rejects. *)
Definition initial_fetch (w : world) (st : dash_state) : dash_state :=
  match fetch_read None GetSensors w, fetch_read None GetStatus w with
  | Some fs, Some fs' =>
      match request_result fs, request_result fs' with
      | inl sd, inl sj => initial_from_json sd sj st
      | _, _ => fetchInitialData None st
      end
  | _, _ => fetchInitialData None st
  end.

(** ** Lemmas *)

Lemma fetch_read_sensors w :
  fetch_read None GetSensors w = Some (FetchResponse true 200 (parse (stringify (sensors_json (sensors w))))).
Proof. unfold fetch_read, wire. cbv beta iota zeta delta [call_options opt_body opt_method default].
  unfold serve. rewrite url_path. reflexivity. Qed.

Lemma fetch_read_status w :
  fetch_read None GetStatus w = Some (FetchResponse true 200 (parse (stringify (status_json (get_status w))))).
Proof. unfold fetch_read, wire. cbv beta iota zeta delta [call_options opt_body opt_method default].
  unfold serve. rewrite url_path. reflexivity. Qed.

(** The fields of [sensorData] read back from its object: an [undefined]
    field is left out and reads as [undefined]. *)
Lemma sensors_json_get d :
  js_get (sensors_json d) "temp" = temp d /\ js_get (sensors_json d) "hum" = hum d /\
  js_get (sensors_json d) "soil" = soil d /\ js_get (sensors_json d) "level" = level d /\
  js_get (sensors_json d) "flow" = flow d.
Proof. destruct d as [t h so l f li ts]. by destruct t, h, so, l, f, li. Qed.

(** ** Properties *)

(** C17: the dashboard's initial fetch over HTTP refines the typed model:
    [GET /api/sensors] and [GET /api/status], sent by [apiService] and
    answered by the server in state [w] with the [JSON.stringify] text of
    [sensorData] and of the status object, parsed by [response.json()] and
    decoded by [fetchInitialData] with its [||] fallbacks, leave the page
    exactly as [Dashboard.fetchInitialData] does with the server's
    [sensorData] and [get_status] values. *)
Theorem initial_fetch_refines w st :
  initial_fetch w st = fetchInitialData (Some (sensors w, get_status w)) st.
Proof.
  unfold initial_fetch. rewrite fetch_read_sensors, fetch_read_status, !parse_stringify.
  cbn [request_result]. destruct (sensors_json_get (sensors w)) as (Ht & Hh & Hso & Hl & Hf).
  unfold initial_from_json, fetchInitialData, handleInitialData.
  rewrite Ht, Hh, Hso, Hl, Hf. clear.
  destruct (get_status w) as [on m start dur rem lc lct].
  destruct m, start as [t|]; cbv [num_or_null]; cbn; try reflexivity; by destruct (t =? 0).
Qed.

End Reads.
